(** * Billing reconciliation: webhook ledger, reconcilers, local actions

    A shallow embedding of the payment-synchronisation core of the
    starter kit:

      - [prisma/schema.prisma]           the tables and enums,
      - [payments/webhook.service.ts]    [WebhookService]: ledger, router, reconcilers,
      - [payments/payments.service.ts]   [PaymentsService]: local actions, status oracle,
      - [payments/payments.controller.ts] the webhook endpoint.

    Storage is an in-memory database (one list of rows per table).  Every
    [await]ed Prisma call is one atomic operation on it; a call can also be
    rejected by the storage layer itself (connection lost, timeout, ...),
    which the world records as a schedule of injected errors.  Code runs in
    a state-and-exception monad: a thrown exception keeps the writes made
    before it, since the source opens no transaction. *)

From Stdlib Require Import String Ascii List ZArith Bool Lia DecimalString.
Import ListNotations.

Local Open Scope string_scope.
Local Open Scope list_scope.
Local Open Scope Z_scope.

Set Implicit Arguments.

(* ------------------------------------------------------------------ *)
(** ** Enums of [schema.prisma] *)

Inductive SubscriptionStatus :=
  | INCOMPLETE
  | INCOMPLETE_EXPIRED
  | TRIALING
  | ACTIVE
  | PAST_DUE
  | CANCELED
  | UNPAID
  | PAUSED.

(** The members in declaration order. *)
Definition SubscriptionStatus_members : list SubscriptionStatus :=
  [INCOMPLETE; INCOMPLETE_EXPIRED; TRIALING; ACTIVE; PAST_DUE; CANCELED; UNPAID; PAUSED].

Definition SubscriptionStatus_name (s : SubscriptionStatus) : string :=
  match s with
  | INCOMPLETE => "INCOMPLETE"
  | INCOMPLETE_EXPIRED => "INCOMPLETE_EXPIRED"
  | TRIALING => "TRIALING"
  | ACTIVE => "ACTIVE"
  | PAST_DUE => "PAST_DUE"
  | CANCELED => "CANCELED"
  | UNPAID => "UNPAID"
  | PAUSED => "PAUSED"
  end.

Definition SubscriptionStatus_eqb (a b : SubscriptionStatus) : bool :=
  match a, b with
  | INCOMPLETE, INCOMPLETE | INCOMPLETE_EXPIRED, INCOMPLETE_EXPIRED
  | TRIALING, TRIALING | ACTIVE, ACTIVE | PAST_DUE, PAST_DUE
  | CANCELED, CANCELED | UNPAID, UNPAID | PAUSED, PAUSED => true
  | _, _ => false
  end.

Inductive PriceType := ONE_TIME | RECURRING.

Inductive PriceInterval := DAY | WEEK | MONTH | YEAR.

(** A [DateTime], in milliseconds since the epoch. *)
Definition DateTime := Z.

(** Stripe metadata, [Record<string, string>]. *)
Definition Json := list (string * string).

(* ------------------------------------------------------------------ *)
(** ** The processor's status vocabulary *)

(** [Stripe.Subscription.Status]. *)
Definition external_vocabulary : list string :=
  ["incomplete"; "incomplete_expired"; "trialing"; "active";
   "past_due"; "canceled"; "unpaid"; "paused"].

(** Strict equality of two strings, as a [case] label compares. *)
Notation "a === b" := (String.eqb a b) (at level 70, no associativity).

(** [WebhookService.mapSubscriptionStatus]: a [switch] on the status string
    with a [default] branch. *)
Definition mapSubscriptionStatus (stripeStatus : string) : SubscriptionStatus :=
  if stripeStatus === "incomplete" then INCOMPLETE
  else if stripeStatus === "incomplete_expired" then INCOMPLETE_EXPIRED
  else if stripeStatus === "trialing" then TRIALING
  else if stripeStatus === "active" then ACTIVE
  else if stripeStatus === "past_due" then PAST_DUE
  else if stripeStatus === "canceled" then CANCELED
  else if stripeStatus === "unpaid" then UNPAID
  else if stripeStatus === "paused" then PAUSED
  else INCOMPLETE.

(** ASCII upper-casing, to say what "the matching local status" is. *)
Definition upcase_ascii (c : ascii) : ascii :=
  let n := nat_of_ascii c in
  if (97 <=? n)%nat && (n <=? 122)%nat then ascii_of_nat (n - 32) else c.

Fixpoint upcase (s : string) : string :=
  match s with
  | EmptyString => EmptyString
  | String c r => String (upcase_ascii c) (upcase r)
  end.

(* ------------------------------------------------------------------ *)
(** ** Rows of [schema.prisma]

    One module per model; fields keep their names.  Columns that no code
    path of the payment core reads or writes (avatar, provider, ...) are
    left out. *)

Module User.
Record t := {
  id : string;
  email : string;
  firstName : option string;
  lastName : option string;
  stripeCustomerId : option string;
  createdAt : DateTime;
  updatedAt : DateTime
}.
Definition set_stripeCustomerId (v : option string) (now : DateTime) (u : t) : t :=
  Build_t (id u) (email u) (firstName u) (lastName u) v (createdAt u) now.
Definition touch (now : DateTime) (u : t) : t :=
  Build_t (id u) (email u) (firstName u) (lastName u) (stripeCustomerId u) (createdAt u) now.
End User.

Module Product.
Record t := {
  id : string;
  stripeProductId : string;
  name : string;
  description : option string;
  metadata : Json;
  active : bool;
  createdAt : DateTime;
  updatedAt : DateTime
}.
Definition set_active (v : bool) (now : DateTime) (p : t) : t :=
  Build_t (id p) (stripeProductId p) (name p) (description p) (metadata p) v (createdAt p) now.
End Product.

Module Price.
Record t := {
  id : string;
  stripePriceId : string;
  productId : string;
  nickname : option string;
  currency : string;
  type : PriceType;
  unitAmount : option Z;
  interval : option PriceInterval;
  intervalCount : option Z;
  metadata : Json;
  active : bool;
  createdAt : DateTime;
  updatedAt : DateTime
}.
Definition set_active (v : bool) (now : DateTime) (p : t) : t :=
  Build_t (id p) (stripePriceId p) (productId p) (nickname p) (currency p) (type p)
          (unitAmount p) (interval p) (intervalCount p) (metadata p) v (createdAt p) now.
End Price.

Module Subscription.
Record t := {
  id : string;
  stripeSubscriptionId : string;
  userId : string;
  priceId : string;
  status : SubscriptionStatus;
  metadata : Json;
  cancelAtPeriodEnd : bool;
  cancelAt : option DateTime;
  canceledAt : option DateTime;
  currentPeriodStart : DateTime;
  currentPeriodEnd : DateTime;
  createdAt : DateTime;
  updatedAt : DateTime;
  endedAt : option DateTime;
  trialStart : option DateTime;
  trialEnd : option DateTime
}.
Definition set_status (v : SubscriptionStatus) (s : t) : t :=
  Build_t (id s) (stripeSubscriptionId s) (userId s) (priceId s) v (metadata s)
          (cancelAtPeriodEnd s) (cancelAt s) (canceledAt s) (currentPeriodStart s)
          (currentPeriodEnd s) (createdAt s) (updatedAt s) (endedAt s) (trialStart s) (trialEnd s).
Definition set_priceId (v : string) (s : t) : t :=
  Build_t (id s) (stripeSubscriptionId s) (userId s) v (status s) (metadata s)
          (cancelAtPeriodEnd s) (cancelAt s) (canceledAt s) (currentPeriodStart s)
          (currentPeriodEnd s) (createdAt s) (updatedAt s) (endedAt s) (trialStart s) (trialEnd s).
Definition set_cancelAtPeriodEnd (v : bool) (s : t) : t :=
  Build_t (id s) (stripeSubscriptionId s) (userId s) (priceId s) (status s) (metadata s)
          v (cancelAt s) (canceledAt s) (currentPeriodStart s)
          (currentPeriodEnd s) (createdAt s) (updatedAt s) (endedAt s) (trialStart s) (trialEnd s).
Definition set_cancelAt (v : option DateTime) (s : t) : t :=
  Build_t (id s) (stripeSubscriptionId s) (userId s) (priceId s) (status s) (metadata s)
          (cancelAtPeriodEnd s) v (canceledAt s) (currentPeriodStart s)
          (currentPeriodEnd s) (createdAt s) (updatedAt s) (endedAt s) (trialStart s) (trialEnd s).
Definition set_endedAt (v : option DateTime) (s : t) : t :=
  Build_t (id s) (stripeSubscriptionId s) (userId s) (priceId s) (status s) (metadata s)
          (cancelAtPeriodEnd s) (cancelAt s) (canceledAt s) (currentPeriodStart s)
          (currentPeriodEnd s) (createdAt s) (updatedAt s) v (trialStart s) (trialEnd s).
Definition set_updatedAt (v : DateTime) (s : t) : t :=
  Build_t (id s) (stripeSubscriptionId s) (userId s) (priceId s) (status s) (metadata s)
          (cancelAtPeriodEnd s) (cancelAt s) (canceledAt s) (currentPeriodStart s)
          (currentPeriodEnd s) (createdAt s) v (endedAt s) (trialStart s) (trialEnd s).
End Subscription.

Module PaymentMethod.
Record t := {
  id : string;
  stripePaymentMethodId : string;
  userId : string;
  type : string;
  last4 : option string;
  brand : option string;
  expiryMonth : option Z;
  expiryYear : option Z;
  isDefault : bool;
  createdAt : DateTime;
  updatedAt : DateTime
}.
End PaymentMethod.

(* ------------------------------------------------------------------ *)
(** ** Payloads of the processor ([Stripe.*]) *)

Module Stripe.
Record SubscriptionItem := { price_id : string }.

Record Subscription := {
  sub_id : string;
  customer : string;
  items_data : list SubscriptionItem;
  status : string;
  cancel_at_period_end : bool;
  cancel_at : option Z;
  canceled_at : option Z;
  current_period_start : Z;
  current_period_end : Z;
  ended_at : option Z;
  trial_start : option Z;
  trial_end : option Z;
  sub_metadata : Json
}.

Record Invoice := { subscription : option string }.

Record Customer := { cus_id : string; cus_email : option string }.

Record Product := {
  prod_id : string;
  prod_name : string;
  prod_description : option string;
  prod_metadata : Json;
  prod_active : bool
}.

Record Recurring := { interval : string; interval_count : Z }.

Record Price := {
  pr_id : string;
  pr_product : string;
  pr_type : string;
  pr_recurring : option Recurring;
  pr_nickname : option string;
  pr_currency : string;
  pr_unit_amount : option Z;
  pr_metadata : Json;
  pr_active : bool
}.

Record Card := { brand : string; last4 : string; exp_month : Z; exp_year : Z }.

Record PaymentMethod := {
  pm_id : string;
  pm_customer : option string;
  pm_type : string;
  pm_card : option Card
}.

Record Session := { session_id : string; session_url : string }.

(** [event.data.object]: its shape is fixed by the event's type tag. *)
Inductive Object :=
  | ObjSubscription (s : Subscription)
  | ObjInvoice (i : Invoice)
  | ObjCustomer (c : Customer)
  | ObjProduct (p : Product)
  | ObjPrice (p : Price)
  | ObjPaymentMethod (p : PaymentMethod)
  | ObjOther.

(** [Stripe.Event]. *)
Record Event := { id : string; type : string; data_object : Object }.
End Stripe.

Module WebhookEvent.
Record t := {
  id : string;
  stripeEventId : string;
  type : string;
  processed : bool;
  data : Stripe.Object;
  createdAt : DateTime;
  processedAt : option DateTime
}.
End WebhookEvent.

(* ------------------------------------------------------------------ *)
(** ** The database and the world around a handler *)

Record Db := {
  users : list User.t;
  products : list Product.t;
  prices : list Price.t;
  subscriptions : list Subscription.t;
  paymentMethods : list PaymentMethod.t;
  webhookEvents : list WebhookEvent.t;
  (** source of the [cuid()] of the next created row *)
  nextId : nat
}.

Definition set_users v d :=
  Build_Db v (products d) (prices d) (subscriptions d) (paymentMethods d) (webhookEvents d) (nextId d).
Definition set_products v d :=
  Build_Db (users d) v (prices d) (subscriptions d) (paymentMethods d) (webhookEvents d) (nextId d).
Definition set_prices v d :=
  Build_Db (users d) (products d) v (subscriptions d) (paymentMethods d) (webhookEvents d) (nextId d).
Definition set_subscriptions v d :=
  Build_Db (users d) (products d) (prices d) v (paymentMethods d) (webhookEvents d) (nextId d).
Definition set_paymentMethods v d :=
  Build_Db (users d) (products d) (prices d) (subscriptions d) v (webhookEvents d) (nextId d).
Definition set_webhookEvents v d :=
  Build_Db (users d) (products d) (prices d) (subscriptions d) (paymentMethods d) v (nextId d).
Definition bump_nextId d :=
  Build_Db (users d) (products d) (prices d) (subscriptions d) (paymentMethods d) (webhookEvents d)
           (S (nextId d)).

Definition cuid (n : nat) : string := "c" ++ NilEmpty.string_of_uint (Nat.to_uint n).

(** Errors of the Prisma client: the ones the in-memory tables raise by
    themselves and the ones of the storage layer. *)
Inductive PrismaErrorCode :=
  | P2025   (* record required by the operation not found *)
  | P2002   (* unique constraint failed *)
  | P1001   (* cannot reach the database server *)
  | P1008   (* operation timed out *)
  | P2034.  (* write conflict *)

Inductive Exn :=
  | NotFoundException (message : string)
  | BadRequestException (message : string)
  | PrismaClientKnownRequestError (code : PrismaErrorCode)
  | StripeError (message : string)
  | TypeError (message : string).

Definition exn_message (e : Exn) : string :=
  match e with
  | NotFoundException m | BadRequestException m | StripeError m | TypeError m => m
  | PrismaClientKnownRequestError P2025 => "Record not found"
  | PrismaClientKnownRequestError P2002 => "Unique constraint failed"
  | PrismaClientKnownRequestError P1001 => "Can't reach database server"
  | PrismaClientKnownRequestError P1008 => "Operations timed out"
  | PrismaClientKnownRequestError P2034 => "Transaction failed due to a write conflict"
  end.

(** The status the HTTP layer answers with when a handler throws. *)
Definition getStatus (e : Exn) : nat :=
  match e with
  | NotFoundException _ => 404%nat
  | BadRequestException _ => 400%nat
  | _ => 500%nat
  end.

Inductive LogLevel := LOG | ERROR.

Record World := {
  db : Db;
  log : list (LogLevel * string);
  (** what the storage layer does to the next Prisma calls: [Some e]
      rejects the call with [e], [None] lets it through *)
  faults : list (option PrismaErrorCode);
  (** what [new Date()] returns *)
  clock : DateTime
}.

Definition set_db v w := Build_World v (log w) (faults w) (clock w).
Definition set_log v w := Build_World (db w) v (faults w) (clock w).
Definition set_faults v w := Build_World (db w) (log w) v (clock w).
Definition set_clock v w := Build_World (db w) (log w) (faults w) v.

(* ------------------------------------------------------------------ *)
(** ** The monad of [async] code *)

Inductive Result (A : Type) :=
  | Ok (a : A)
  | Throw (e : Exn).
Arguments Throw {A} e.

Definition M (A : Type) := World -> Result A * World.

Definition ret {A} (a : A) : M A := fun w => (Ok a, w).

Definition throw {A} (e : Exn) : M A := fun w => (Throw e, w).

Definition bind {A B} (m : M A) (k : A -> M B) : M B :=
  fun w => match m w with
           | (Ok a, w') => k a w'
           | (Throw e, w') => (Throw e, w')
           end.

(** [try { m } catch (error) { h error }] and [m.catch(h)]. *)
Definition try_catch {A} (m : M A) (h : Exn -> M A) : M A :=
  fun w => match m w with
           | (Ok a, w') => (Ok a, w')
           | (Throw e, w') => h e w'
           end.

Declare Scope async_scope.
Delimit Scope async_scope with async.
Notation "x <- m ;; k" := (bind m (fun x => k))
  (at level 100, m at next level, right associativity) : async_scope.
Notation "m ;;; k" := (bind m (fun _ => k))
  (at level 100, right associativity) : async_scope.
Local Open Scope async_scope.

Definition new_Date : M DateTime := fun w => (Ok (clock w), w).

Definition logger (l : LogLevel) (msg : string) : M unit :=
  fun w => (Ok tt, set_log (log w ++ [(l, msg)]) w).

(** One call of the Prisma client: the storage layer may reject it;
    otherwise [op] runs atomically on the database. *)
Definition prisma {A} (op : Db -> Result A * Db) : M A :=
  fun w =>
    match faults w with
    | Some e :: fs => (Throw (PrismaClientKnownRequestError e), set_faults fs w)
    | None :: fs => let (r, d) := op (db w) in (r, set_db d (set_faults fs w))
    | [] => let (r, d) := op (db w) in (r, set_db d w)
    end.

(** A read. *)
Definition query {A} (f : Db -> A) : Db -> Result A * Db :=
  fun d => (Ok (f d), d).

(** A write that cannot fail by itself. *)
Definition exec (f : Db -> Db) : Db -> Result unit * Db :=
  fun d => (Ok tt, f d).

(** JavaScript truthiness of the values the handlers test. *)
Definition truthy_string (s : string) : bool := negb (s === EmptyString).

Definition truthy_opt_string (s : option string) : bool :=
  match s with Some v => truthy_string v | None => false end.

Definition opt_string_eqb (a : option string) (b : string) : bool :=
  match a with Some v => v === b | None => false end.

(** [t ? new Date(t * 1000) : null] on an epoch-seconds field. *)
Definition epoch_or_null (t : option Z) : option DateTime :=
  match t with
  | Some s => if s =? 0 then None else Some (s * 1000)
  | None => None
  end.

Definition prisma_at {A} (op : DateTime -> Db -> Result A * Db) : M A :=
  fun w => prisma (op (clock w)) w.

(** An awaited call of the processor's API: it does not touch local state. *)
Definition await_stripe {A} (r : Result A) : M A := fun w => (r, w).

(* ------------------------------------------------------------------ *)
(** ** Table operations of the Prisma client *)

Section Tables.
Variable R : Type.

(** [updateMany({ where, data })]. *)
Definition updateMany (cond : R -> bool) (data : R -> R) (rows : list R) : list R :=
  map (fun r => if cond r then data r else r) rows.

(** [update({ where, data })]: rejects with P2025 when no row matches. *)
Definition update (cond : R -> bool) (data : R -> R) (rows : list R)
  : Result unit * list R :=
  if existsb cond rows then (Ok tt, updateMany cond data rows)
  else (Throw (PrismaClientKnownRequestError P2025), rows).

(** [delete({ where })]: rejects with P2025 when no row matches. *)
Definition delete (cond : R -> bool) (rows : list R) : Result unit * list R :=
  if existsb cond rows then (Ok tt, filter (fun r => negb (cond r)) rows)
  else (Throw (PrismaClientKnownRequestError P2025), rows).
End Tables.

Definition is_some {A} (o : option A) : bool :=
  match o with Some _ => true | None => false end.

(* ------------------------------------------------------------------ *)
(** ** [WebhookService] *)

Module WebhookService.

(** *** The ledger table *)

Definition webhookEvent_findUnique (stripeEventId : string) (d : Db)
  : option WebhookEvent.t :=
  find (fun r => WebhookEvent.stripeEventId r === stripeEventId) (webhookEvents d).

(** [webhookEvent.upsert]: [update] rewrites [type] and [data] only;
    [create] takes [processed] from its default, [false]. *)
Definition webhookEvent_upsert (event : Stripe.Event) (now : DateTime) (d : Db)
  : Result unit * Db :=
  let key r := WebhookEvent.stripeEventId r === Stripe.id event in
  if existsb key (webhookEvents d) then
    (Ok tt,
     set_webhookEvents
       (updateMany key
          (fun r => WebhookEvent.Build_t (WebhookEvent.id r) (WebhookEvent.stripeEventId r)
                      (Stripe.type event) (WebhookEvent.processed r)
                      (Stripe.data_object event)
                      (WebhookEvent.createdAt r) (WebhookEvent.processedAt r))
          (webhookEvents d)) d)
  else
    (Ok tt,
     bump_nextId
       (set_webhookEvents
          (webhookEvents d ++
           [WebhookEvent.Build_t (cuid (nextId d)) (Stripe.id event) (Stripe.type event)
              false (Stripe.data_object event) now None]) d)).

(** [webhookEvent.update({ data: { processed: true, processedAt } })]. *)
Definition webhookEvent_markProcessed (stripeEventId : string) (processedAt : DateTime)
    (d : Db) : Result unit * Db :=
  let (r, rows) :=
    update (fun r => WebhookEvent.stripeEventId r === stripeEventId)
      (fun r => WebhookEvent.Build_t (WebhookEvent.id r) (WebhookEvent.stripeEventId r)
                  (WebhookEvent.type r) true (WebhookEvent.data r)
                  (WebhookEvent.createdAt r) (Some processedAt))
      (webhookEvents d) in
  (r, set_webhookEvents rows d).

(** *** Lookups by external id *)

Definition user_findUnique_stripeCustomerId (c : string) (d : Db) : option User.t :=
  find (fun u => opt_string_eqb (User.stripeCustomerId u) c) (users d).

Definition price_findUnique (stripePriceId : string) (d : Db) : option Price.t :=
  find (fun p => Price.stripePriceId p === stripePriceId) (prices d).

Definition product_findUnique (stripeProductId : string) (d : Db) : option Product.t :=
  find (fun p => Product.stripeProductId p === stripeProductId) (products d).

Definition subscription_findUnique (stripeSubscriptionId : string) (d : Db)
  : option Subscription.t :=
  find (fun s => Subscription.stripeSubscriptionId s === stripeSubscriptionId)
       (subscriptions d).

(** *** Subscription reconcilers *)

(** [subscription.items.data[0]?.price.id], with the falsy values mapped to [None]. *)
Definition first_price_id (subscription : Stripe.Subscription) : option string :=
  match Stripe.items_data subscription with
  | [] => None
  | item :: _ =>
      if truthy_string (Stripe.price_id item) then Some (Stripe.price_id item) else None
  end.

(** [subscription.upsert]: the [update] branch leaves [userId] and
    [priceId] as they are. *)
Definition subscription_upsert (subscription : Stripe.Subscription)
    (user : User.t) (price : Price.t) (status : SubscriptionStatus)
    (updatedAt : DateTime) (now : DateTime) (d : Db) : Result unit * Db :=
  let key s := Subscription.stripeSubscriptionId s === Stripe.sub_id subscription in
  let cancelAt := epoch_or_null (Stripe.cancel_at subscription) in
  let canceledAt := epoch_or_null (Stripe.canceled_at subscription) in
  let currentPeriodStart := Stripe.current_period_start subscription * 1000 in
  let currentPeriodEnd := Stripe.current_period_end subscription * 1000 in
  let endedAt := epoch_or_null (Stripe.ended_at subscription) in
  let trialStart := epoch_or_null (Stripe.trial_start subscription) in
  let trialEnd := epoch_or_null (Stripe.trial_end subscription) in
  if existsb key (subscriptions d) then
    (Ok tt,
     set_subscriptions
       (updateMany key
          (fun s => Subscription.Build_t (Subscription.id s)
                      (Subscription.stripeSubscriptionId s)
                      (Subscription.userId s) (Subscription.priceId s)
                      status (Stripe.sub_metadata subscription)
                      (Stripe.cancel_at_period_end subscription) cancelAt canceledAt
                      currentPeriodStart currentPeriodEnd
                      (Subscription.createdAt s) updatedAt
                      endedAt trialStart trialEnd)
          (subscriptions d)) d)
  else
    (Ok tt,
     bump_nextId
       (set_subscriptions
          (subscriptions d ++
           [Subscription.Build_t (cuid (nextId d)) (Stripe.sub_id subscription)
              (User.id user) (Price.id price)
              status (Stripe.sub_metadata subscription)
              (Stripe.cancel_at_period_end subscription) cancelAt canceledAt
              currentPeriodStart currentPeriodEnd
              now now
              endedAt trialStart trialEnd]) d)).

Definition handleSubscriptionUpdated (subscription : Stripe.Subscription) : M unit :=
  user <- prisma (query (user_findUnique_stripeCustomerId (Stripe.customer subscription))) ;;
  match user with
  | None =>
      logger ERROR ("User not found for customer: " ++ Stripe.customer subscription)
  | Some user =>
      match first_price_id subscription with
      | None =>
          logger ERROR ("No price found for subscription: " ++ Stripe.sub_id subscription)
      | Some stripePriceId =>
          price <- prisma (query (price_findUnique stripePriceId)) ;;
          match price with
          | None =>
              logger ERROR ("Price not found for Stripe price: " ++ stripePriceId)
          | Some price =>
              let status := mapSubscriptionStatus (Stripe.status subscription) in
              updatedAt <- new_Date ;;
              prisma_at (subscription_upsert subscription user price status updatedAt)
          end
      end
  end.

Definition handleSubscriptionDeleted (subscription : Stripe.Subscription) : M unit :=
  endedAt <- new_Date ;;
  updatedAt <- new_Date ;;
  prisma (exec (fun d =>
    set_subscriptions
      (updateMany
         (fun s => Subscription.stripeSubscriptionId s === Stripe.sub_id subscription)
         (fun s => Subscription.set_updatedAt updatedAt
                     (Subscription.set_endedAt (Some endedAt)
                        (Subscription.set_status CANCELED s)))
         (subscriptions d)) d)).

Definition handleInvoicePaymentSucceeded (invoice : Stripe.Invoice) : M unit :=
  match Stripe.subscription invoice with
  | Some sid =>
      if truthy_string sid then
        subscription <- prisma (query (subscription_findUnique sid)) ;;
        match subscription with
        | Some subscription =>
            if negb (SubscriptionStatus_eqb (Subscription.status subscription) ACTIVE) then
              prisma_at (fun now d =>
                let (r, rows) :=
                  update (fun s => Subscription.id s === Subscription.id subscription)
                    (fun s => Subscription.set_updatedAt now (Subscription.set_status ACTIVE s))
                    (subscriptions d) in
                (r, set_subscriptions rows d))
            else ret tt
        | None => ret tt
        end
      else ret tt
  | None => ret tt
  end.

Definition handleInvoicePaymentFailed (invoice : Stripe.Invoice) : M unit :=
  match Stripe.subscription invoice with
  | Some sid =>
      if truthy_string sid then
        prisma_at (fun now => exec (fun d =>
          set_subscriptions
            (updateMany (fun s => Subscription.stripeSubscriptionId s === sid)
               (fun s => Subscription.set_updatedAt now (Subscription.set_status PAST_DUE s))
               (subscriptions d)) d))
      else ret tt
  | None => ret tt
  end.

(** *** Customer reconcilers *)

(** [user.updateMany({ where: { email, stripeCustomerId: null }, data })];
    [stripeCustomerId] is [@unique], so linking an id another user already
    holds is rejected with P2002. *)
Definition user_link_by_email (customer : Stripe.Customer) (email : string)
    (now : DateTime) (d : Db) : Result unit * Db :=
  let cond u := (User.email u === email) && negb (is_some (User.stripeCustomerId u)) in
  if existsb cond (users d)
     && existsb (fun u => opt_string_eqb (User.stripeCustomerId u) (Stripe.cus_id customer))
                (users d)
  then (Throw (PrismaClientKnownRequestError P2002), d)
  else (Ok tt,
        set_users
          (updateMany cond (User.set_stripeCustomerId (Some (Stripe.cus_id customer)) now)
             (users d)) d).

Definition handleCustomerCreated (customer : Stripe.Customer) : M unit :=
  match Stripe.cus_email customer with
  | Some email =>
      if truthy_string email then prisma_at (user_link_by_email customer email)
      else ret tt
  | None => ret tt
  end.

Definition handleCustomerUpdated (customer : Stripe.Customer) : M unit :=
  if truthy_opt_string (Stripe.cus_email customer) then
    updatedAt <- new_Date ;;
    prisma (exec (fun d =>
      set_users
        (updateMany (fun u => opt_string_eqb (User.stripeCustomerId u) (Stripe.cus_id customer))
           (User.touch updatedAt) (users d)) d))
  else ret tt.

(** *** Product and price reconcilers *)

Definition product_upsert (product : Stripe.Product) (updatedAt : DateTime)
    (now : DateTime) (d : Db) : Result unit * Db :=
  let key p := Product.stripeProductId p === Stripe.prod_id product in
  if existsb key (products d) then
    (Ok tt,
     set_products
       (updateMany key
          (fun p => Product.Build_t (Product.id p) (Product.stripeProductId p)
                      (Stripe.prod_name product) (Stripe.prod_description product)
                      (Stripe.prod_metadata product) (Stripe.prod_active product)
                      (Product.createdAt p) updatedAt)
          (products d)) d)
  else
    (Ok tt,
     bump_nextId
       (set_products
          (products d ++
           [Product.Build_t (cuid (nextId d)) (Stripe.prod_id product)
              (Stripe.prod_name product) (Stripe.prod_description product)
              (Stripe.prod_metadata product) (Stripe.prod_active product) now now]) d)).

Definition handleProductUpdated (product : Stripe.Product) : M unit :=
  updatedAt <- new_Date ;;
  prisma_at (product_upsert product updatedAt).

Definition handleProductDeleted (product : Stripe.Product) : M unit :=
  prisma_at (fun now => exec (fun d =>
    set_products
      (updateMany (fun p => Product.stripeProductId p === Stripe.prod_id product)
         (Product.set_active false now) (products d)) d)).

(** The inner [switch (price.recurring.interval)]; it has no [default]. *)
Definition mapInterval (interval : string) : option PriceInterval :=
  if interval === "day" then Some DAY
  else if interval === "week" then Some WEEK
  else if interval === "month" then Some MONTH
  else if interval === "year" then Some YEAR
  else None.

Definition price_upsert (price : Stripe.Price) (product : Product.t)
    (updatedAt : DateTime) (now : DateTime) (d : Db) : Result unit * Db :=
  let key p := Price.stripePriceId p === Stripe.pr_id price in
  let priceType := if Stripe.pr_type price === "recurring" then RECURRING else ONE_TIME in
  let interval :=
    match Stripe.pr_recurring price with
    | Some r => mapInterval (Stripe.interval r)
    | None => None
    end in
  let intervalCount :=
    match Stripe.pr_recurring price with
    | Some r => Some (Stripe.interval_count r)
    | None => None
    end in
  if existsb key (prices d) then
    (Ok tt,
     set_prices
       (updateMany key
          (fun p => Price.Build_t (Price.id p) (Price.stripePriceId p) (Price.productId p)
                      (Stripe.pr_nickname price) (Stripe.pr_currency price) priceType
                      (Stripe.pr_unit_amount price) interval intervalCount
                      (Stripe.pr_metadata price) (Stripe.pr_active price)
                      (Price.createdAt p) updatedAt)
          (prices d)) d)
  else
    (Ok tt,
     bump_nextId
       (set_prices
          (prices d ++
           [Price.Build_t (cuid (nextId d)) (Stripe.pr_id price) (Product.id product)
              (Stripe.pr_nickname price) (Stripe.pr_currency price) priceType
              (Stripe.pr_unit_amount price) interval intervalCount
              (Stripe.pr_metadata price) (Stripe.pr_active price) now now]) d)).

Definition handlePriceUpdated (price : Stripe.Price) : M unit :=
  product <- prisma (query (product_findUnique (Stripe.pr_product price))) ;;
  match product with
  | None => logger ERROR ("Product not found for price: " ++ Stripe.pr_id price)
  | Some product =>
      updatedAt <- new_Date ;;
      prisma_at (price_upsert price product updatedAt)
  end.

Definition handlePriceDeleted (price : Stripe.Price) : M unit :=
  prisma_at (fun now => exec (fun d =>
    set_prices
      (updateMany (fun p => Price.stripePriceId p === Stripe.pr_id price)
         (Price.set_active false now) (prices d)) d)).

(** *** Payment-method reconcilers *)

Definition paymentMethod_upsert (paymentMethod : Stripe.PaymentMethod) (user : User.t)
    (updatedAt : DateTime) (now : DateTime) (d : Db) : Result unit * Db :=
  let key p := PaymentMethod.stripePaymentMethodId p === Stripe.pm_id paymentMethod in
  let card := Stripe.pm_card paymentMethod in
  let brand := option_map Stripe.brand card in
  let last4 := option_map Stripe.last4 card in
  let expiryMonth := option_map Stripe.exp_month card in
  let expiryYear := option_map Stripe.exp_year card in
  if existsb key (paymentMethods d) then
    (Ok tt,
     set_paymentMethods
       (updateMany key
          (fun p => PaymentMethod.Build_t (PaymentMethod.id p)
                      (PaymentMethod.stripePaymentMethodId p) (PaymentMethod.userId p)
                      (Stripe.pm_type paymentMethod) last4 brand expiryMonth expiryYear
                      (PaymentMethod.isDefault p) (PaymentMethod.createdAt p) updatedAt)
          (paymentMethods d)) d)
  else
    (Ok tt,
     bump_nextId
       (set_paymentMethods
          (paymentMethods d ++
           [PaymentMethod.Build_t (cuid (nextId d)) (Stripe.pm_id paymentMethod)
              (User.id user) (Stripe.pm_type paymentMethod)
              last4 brand expiryMonth expiryYear false now now]) d)).

Definition handlePaymentMethodAttached (paymentMethod : Stripe.PaymentMethod) : M unit :=
  match Stripe.pm_customer paymentMethod with
  | Some customer =>
      if truthy_string customer then
        user <- prisma (query (user_findUnique_stripeCustomerId customer)) ;;
        match user with
        | None => ret tt
        | Some user =>
            updatedAt <- new_Date ;;
            prisma_at (paymentMethod_upsert paymentMethod user updatedAt)
        end
      else ret tt
  | None => ret tt
  end.

Definition paymentMethod_delete (stripePaymentMethodId : string) (d : Db)
  : Result unit * Db :=
  let (r, rows) :=
    delete (fun p => PaymentMethod.stripePaymentMethodId p === stripePaymentMethodId)
      (paymentMethods d) in
  (r, set_paymentMethods rows d).

(** [paymentMethod.delete(...).catch(() => {})]: the handler takes any
    rejection and resolves. *)
Definition handlePaymentMethodDetached (paymentMethod : Stripe.PaymentMethod) : M unit :=
  try_catch
    (prisma (paymentMethod_delete (Stripe.pm_id paymentMethod)))
    (fun _ => ret tt).

(** *** The router *)

(** A payload whose shape is not the one of its type tag: outside the
    [Stripe.Event] union, so no handler can read its fields. *)
Definition bad_shape : M unit := throw (TypeError "Cannot read properties of undefined").

Definition processEvent (event : Stripe.Event) : M unit :=
  let type := Stripe.type event in
  let object := Stripe.data_object event in
  if (type === "customer.subscription.created") || (type === "customer.subscription.updated") then
    match object with Stripe.ObjSubscription s => handleSubscriptionUpdated s | _ => bad_shape end
  else if type === "customer.subscription.deleted" then
    match object with Stripe.ObjSubscription s => handleSubscriptionDeleted s | _ => bad_shape end
  else if type === "invoice.payment_succeeded" then
    match object with Stripe.ObjInvoice i => handleInvoicePaymentSucceeded i | _ => bad_shape end
  else if type === "invoice.payment_failed" then
    match object with Stripe.ObjInvoice i => handleInvoicePaymentFailed i | _ => bad_shape end
  else if type === "customer.created" then
    match object with Stripe.ObjCustomer c => handleCustomerCreated c | _ => bad_shape end
  else if type === "customer.updated" then
    match object with Stripe.ObjCustomer c => handleCustomerUpdated c | _ => bad_shape end
  else if (type === "product.created") || (type === "product.updated") then
    match object with Stripe.ObjProduct p => handleProductUpdated p | _ => bad_shape end
  else if type === "product.deleted" then
    match object with Stripe.ObjProduct p => handleProductDeleted p | _ => bad_shape end
  else if (type === "price.created") || (type === "price.updated") then
    match object with Stripe.ObjPrice p => handlePriceUpdated p | _ => bad_shape end
  else if type === "price.deleted" then
    match object with Stripe.ObjPrice p => handlePriceDeleted p | _ => bad_shape end
  else if type === "payment_method.attached" then
    match object with Stripe.ObjPaymentMethod p => handlePaymentMethodAttached p | _ => bad_shape end
  else if type === "payment_method.detached" then
    match object with Stripe.ObjPaymentMethod p => handlePaymentMethodDetached p | _ => bad_shape end
  else
    logger LOG ("Unhandled webhook event type: " ++ type).

(** *** The ledger protocol *)

Definition isProcessed (existingEvent : option WebhookEvent.t) : bool :=
  match existingEvent with
  | Some r => WebhookEvent.processed r
  | None => false
  end.

Definition handleWebhookEvent (event : Stripe.Event) : M unit :=
  existingEvent <- prisma (query (webhookEvent_findUnique (Stripe.id event))) ;;
  if isProcessed existingEvent then
    logger LOG ("Event " ++ Stripe.id event ++ " already processed, skipping")
  else
    (prisma_at (webhookEvent_upsert event) ;;;
     try_catch
       (processEvent event ;;;
        (processedAt <- new_Date ;;
         prisma (webhookEvent_markProcessed (Stripe.id event) processedAt)) ;;;
        logger LOG ("Successfully processed webhook event: " ++ Stripe.type event))
       (fun error =>
          logger ERROR ("Failed to process webhook event " ++ Stripe.id event ++ ":") ;;;
          throw error)).

End WebhookService.

(* ------------------------------------------------------------------ *)
(** ** [StripeService]: the processor's API as the services see it

    Each function is what the awaited call of that name resolves to or
    rejects with. *)

Module StripeService.

Record CheckoutParams := {
  priceId : string;
  customerId : string;
  successUrl : string;
  cancelUrl : string;
  trialPeriodDays : option Z;
  metadata : Json
}.

Record t := {
  createCustomer : string -> option string -> Result Stripe.Customer;
  createCheckoutSession : CheckoutParams -> Result Stripe.Session;
  createPortalSession : string -> string -> Result Stripe.Session;
  cancelSubscription : string -> bool -> Result Stripe.Subscription;
  reactivateSubscription : string -> Result Stripe.Subscription;
  updateSubscription : string -> string -> Result Stripe.Subscription;
  constructWebhookEvent : string -> string -> Result Stripe.Event
}.

End StripeService.

(* ------------------------------------------------------------------ *)
(** ** [PaymentsService] *)

Record CreateCheckoutSessionDto := {
  dto_priceId : string;
  dto_successUrl : string;
  dto_cancelUrl : string;
  dto_trialPeriodDays : option Z;
  dto_metadata : option Json
}.

(** A nullable string inside a template literal. *)
Definition js_string (s : option string) : string :=
  match s with Some v => v | None => "null" end.

Definition is_space (c : ascii) : bool :=
  let n := nat_of_ascii c in
  (n =? 32)%nat || ((9 <=? n)%nat && (n <=? 13)%nat).

Fixpoint trim_start (s : string) : string :=
  match s with
  | EmptyString => EmptyString
  | String c r => if is_space c then trim_start r else s
  end.

Fixpoint trim_end (s : string) : string :=
  match s with
  | EmptyString => EmptyString
  | String c r =>
      match trim_end r with
      | EmptyString => if is_space c then EmptyString else String c EmptyString
      | r' => String c r'
      end
  end.

Definition trim (s : string) : string := trim_end (trim_start s).

Module PaymentsService.
Section WithCollaborators.

Variable stripeService : StripeService.t.
(** [configService.get('appUrl')] *)
Variable appUrl : option string.

Definition user_findUnique (id : string) (d : Db) : option User.t :=
  find (fun u => User.id u === id) (users d).

(** [user.update({ where: { id }, data: { stripeCustomerId } })]. *)
Definition user_update_stripeCustomerId (userId stripeCustomerId : string)
    (now : DateTime) (d : Db) : Result unit * Db :=
  if negb (existsb (fun u => User.id u === userId) (users d)) then
    (Throw (PrismaClientKnownRequestError P2025), d)
  else if existsb (fun u => negb (User.id u === userId)
                            && opt_string_eqb (User.stripeCustomerId u) stripeCustomerId)
                  (users d) then
    (Throw (PrismaClientKnownRequestError P2002), d)
  else
    (Ok tt,
     set_users
       (updateMany (fun u => User.id u === userId)
          (User.set_stripeCustomerId (Some stripeCustomerId) now) (users d)) d).

(** [subscription.findFirst({ where: { id, userId } })]. *)
Definition subscription_findFirst (subscriptionId userId : string) (d : Db)
  : option Subscription.t :=
  find (fun s => (Subscription.id s === subscriptionId) && (Subscription.userId s === userId))
       (subscriptions d).

(** [subscription.update({ where: { id }, data })]. *)
Definition subscription_update (subscriptionId : string)
    (data : Subscription.t -> Subscription.t) (d : Db) : Result unit * Db :=
  let (r, rows) :=
    update (fun s => Subscription.id s === subscriptionId) data (subscriptions d) in
  (r, set_subscriptions rows d).

Definition createCheckoutSession (userId : string) (dto : CreateCheckoutSessionDto)
  : M Stripe.Session :=
  user <- prisma (query (user_findUnique userId)) ;;
  match user with
  | None => throw (NotFoundException "User not found")
  | Some user =>
      stripeCustomerId <-
        (if truthy_opt_string (User.stripeCustomerId user) then
           ret (js_string (User.stripeCustomerId user))
         else
           let name := trim (js_string (User.firstName user) ++ " "
                             ++ js_string (User.lastName user)) in
           customer <- await_stripe
                         (StripeService.createCustomer stripeService (User.email user)
                            (if truthy_string name then Some name else None)) ;;
           prisma_at (user_update_stripeCustomerId userId (Stripe.cus_id customer)) ;;;
           ret (Stripe.cus_id customer)) ;;
      price <- prisma (query (WebhookService.price_findUnique (dto_priceId dto))) ;;
      match price with
      | None => throw (BadRequestException "Invalid or inactive price")
      | Some price =>
          if negb (Price.active price) then
            throw (BadRequestException "Invalid or inactive price")
          else
            await_stripe
              (StripeService.createCheckoutSession stripeService
                 (StripeService.Build_CheckoutParams
                    (dto_priceId dto) stripeCustomerId
                    (dto_successUrl dto) (dto_cancelUrl dto) (dto_trialPeriodDays dto)
                    ((match dto_metadata dto with Some m => m | None => [] end)
                       ++ [("userId", userId); ("priceId", Price.id price)])))
      end
  end.

Definition createPortalSession (userId : string) : M Stripe.Session :=
  user <- prisma (query (user_findUnique userId)) ;;
  match user with
  | None => throw (NotFoundException "User or Stripe customer not found")
  | Some user =>
      if negb (truthy_opt_string (User.stripeCustomerId user)) then
        throw (NotFoundException "User or Stripe customer not found")
      else
        let returnUrl :=
          ((match appUrl with Some u => u | None => "undefined" end) ++ "/dashboard")%string in
        await_stripe
          (StripeService.createPortalSession stripeService
             (js_string (User.stripeCustomerId user)) returnUrl)
  end.

Definition cancelSubscription (userId subscriptionId : string) (immediate : bool)
  : M (bool * bool) :=
  subscription <- prisma (query (subscription_findFirst subscriptionId userId)) ;;
  match subscription with
  | None => throw (NotFoundException "Subscription not found")
  | Some subscription =>
      updatedSubscription <-
        await_stripe (StripeService.cancelSubscription stripeService
                        (Subscription.stripeSubscriptionId subscription) immediate) ;;
      updatedAt <- new_Date ;;
      prisma (subscription_update subscriptionId
        (fun s =>
           Subscription.set_updatedAt updatedAt
             (Subscription.set_status
                (if immediate then CANCELED else Subscription.status subscription)
                (Subscription.set_cancelAt
                   (epoch_or_null (Stripe.cancel_at updatedSubscription))
                   (Subscription.set_cancelAtPeriodEnd
                      (Stripe.cancel_at_period_end updatedSubscription) s))))) ;;;
      ret (true, immediate)
  end.

(** [findFirst({ where: { id, userId, cancelAtPeriodEnd: true } })], then
    the processor call, then the local update. *)
Definition reactivateSubscription (userId subscriptionId : string) : M bool :=
  subscription <-
    prisma (query (fun d =>
      find (fun s => (Subscription.id s === subscriptionId)
                     && (Subscription.userId s === userId)
                     && Bool.eqb (Subscription.cancelAtPeriodEnd s) true)
           (subscriptions d))) ;;
  match subscription with
  | None =>
      throw (NotFoundException "Subscription not found or not eligible for reactivation")
  | Some subscription =>
      updatedSubscription <-
        await_stripe (StripeService.reactivateSubscription stripeService
                        (Subscription.stripeSubscriptionId subscription)) ;;
      updatedAt <- new_Date ;;
      prisma (subscription_update subscriptionId
        (fun s =>
           Subscription.set_updatedAt updatedAt
             (Subscription.set_cancelAt None
                (Subscription.set_cancelAtPeriodEnd false s)))) ;;;
      ret true
  end.

Definition changeSubscription (userId subscriptionId newPriceId : string) : M bool :=
  subscription <- prisma (query (subscription_findFirst subscriptionId userId)) ;;
  match subscription with
  | None => throw (NotFoundException "Subscription not found")
  | Some subscription =>
      newPrice <- prisma (query (WebhookService.price_findUnique newPriceId)) ;;
      match newPrice with
      | None => throw (BadRequestException "Invalid or inactive price")
      | Some newPrice =>
          if negb (Price.active newPrice) then
            throw (BadRequestException "Invalid or inactive price")
          else
            updatedSubscription <-
              await_stripe (StripeService.updateSubscription stripeService
                              (Subscription.stripeSubscriptionId subscription) newPriceId) ;;
            updatedAt <- new_Date ;;
            prisma (subscription_update subscriptionId
              (fun s =>
                 Subscription.set_updatedAt updatedAt
                   (Subscription.set_priceId (Price.id newPrice) s))) ;;;
            ret true
      end
  end.

(** The [where] clause of the status oracle. *)
Definition entitled (userId : string) (now : DateTime) (s : Subscription.t) : bool :=
  (Subscription.userId s === userId)
  && (SubscriptionStatus_eqb (Subscription.status s) ACTIVE
      || SubscriptionStatus_eqb (Subscription.status s) TRIALING)
  && (now <? Subscription.currentPeriodEnd s).

Definition hasActiveSubscription (userId : string) : M bool :=
  now <- new_Date ;;
  activeSubscription <-
    prisma (query (fun d => find (entitled userId now) (subscriptions d))) ;;
  ret (is_some activeSubscription).

End WithCollaborators.
End PaymentsService.

(* ------------------------------------------------------------------ *)
(** ** [PaymentsController.handleWebhook] *)

Module PaymentsController.
Section WithCollaborators.

Variable stripeService : StripeService.t.

Record Ack := { received : bool }.

Definition handleWebhook (rawBody : option string) (signature : option string) : M Ack :=
  if negb (truthy_opt_string signature) then
    throw (BadRequestException "Missing stripe-signature header")
  else
    try_catch
      (match rawBody with
       | None => throw (BadRequestException "Missing request body")
       | Some payload =>
           event <- await_stripe
                      (StripeService.constructWebhookEvent stripeService payload
                         (js_string signature)) ;;
           WebhookService.handleWebhookEvent event ;;;
           ret (Build_Ack true)
       end)
      (fun error =>
         logger ERROR "Webhook error:" ;;;
         throw (BadRequestException (exn_message error))).

(** The status line of the response: [@HttpCode(HttpStatus.OK)] when the
    handler resolves, the exception's status when it rejects. *)
Definition statusCode {A} (r : Result A) : nat :=
  match r with
  | Ok _ => 200%nat
  | Throw e => getStatus e
  end.

End WithCollaborators.
End PaymentsController.

(* ------------------------------------------------------------------ *)
(** ** Deliveries that run concurrently

    A handler gives up control at every [await].  A delivery in flight is
    a program counter over the awaited stretches of [handleWebhookEvent];
    the scheduler picks which delivery runs its next stretch.  The
    reconciler is taken as one stretch. *)

Module Concurrent.
Import WebhookService.

Inductive Pc :=
  | AtCheck                    (* about to read the ledger *)
  | AtStore                    (* read: not processed; about to upsert *)
  | AtProcess                  (* entry stored; about to run the reconciler *)
  | AtMark                     (* reconciler done; about to mark the entry *)
  | Finished (r : Result unit).

(** The [catch] block of [handleWebhookEvent]. *)
Definition rethrow (event : Stripe.Event) (error : Exn) : M unit :=
  logger ERROR ("Failed to process webhook event " ++ Stripe.id event ++ ":") ;;;
  throw error.

Definition step (event : Stripe.Event) (pc : Pc) (w : World) : Pc * World :=
  match pc with
  | AtCheck =>
      match prisma (query (webhookEvent_findUnique (Stripe.id event))) w with
      | (Ok existingEvent, w') =>
          if isProcessed existingEvent then
            let (r, w'') :=
              logger LOG ("Event " ++ Stripe.id event ++ " already processed, skipping") w' in
            (Finished r, w'')
          else (AtStore, w')
      | (Throw e, w') => (Finished (Throw e), w')
      end
  | AtStore =>
      match prisma_at (webhookEvent_upsert event) w with
      | (Ok _, w') => (AtProcess, w')
      | (Throw e, w') => (Finished (Throw e), w')
      end
  | AtProcess =>
      match processEvent event w with
      | (Ok _, w') => (AtMark, w')
      | (Throw e, w') => let (r, w'') := rethrow event e w' in (Finished r, w'')
      end
  | AtMark =>
      match ((processedAt <- new_Date ;;
              prisma (webhookEvent_markProcessed (Stripe.id event) processedAt)) ;;;
             logger LOG ("Successfully processed webhook event: " ++ Stripe.type event)) w with
      | (Ok u, w') => (Finished (Ok u), w')
      | (Throw e, w') => let (r, w'') := rethrow event e w' in (Finished r, w'')
      end
  | Finished r => (Finished r, w)
  end.

Record Delivery := { event : Stripe.Event; pc : Pc }.

Record System := {
  world : World;
  deliveries : list Delivery;
  (** the event ids the reconciler was entered for, in order *)
  reconciled : list string
}.

Definition is_AtProcess (p : Pc) : bool :=
  match p with AtProcess => true | _ => false end.

Fixpoint set_nth {A} (i : nat) (x : A) (l : list A) : list A :=
  match l, i with
  | [], _ => []
  | _ :: r, O => x :: r
  | y :: r, S j => y :: set_nth j x r
  end.

(** Delivery [i] runs up to its next [await]. *)
Definition schedule_step (s : System) (i : nat) : System :=
  match nth_error (deliveries s) i with
  | None => s
  | Some d =>
      let (pc', w') := step (event d) (pc d) (world s) in
      Build_System w'
        (set_nth i (Build_Delivery (event d) pc') (deliveries s))
        (if is_AtProcess (pc d) then reconciled s ++ [Stripe.id (event d)] else reconciled s)
  end.

Definition run (schedule : list nat) (s : System) : System :=
  fold_left schedule_step schedule s.

(** One delivery run from its start to its end without interruption. *)
Definition run_alone (event : Stripe.Event) (w : World) : Pc * World :=
  let (p1, w1) := step event AtCheck w in
  let (p2, w2) := step event p1 w1 in
  let (p3, w3) := step event p2 w2 in
  step event p3 w3.

End Concurrent.

(* ------------------------------------------------------------------ *)
(** ** A small billing database used by the worked scenarios *)

Module Scenario.

Definition alice : User.t :=
  User.Build_t "usr_1" "alice@example.com" (Some "Alice") None (Some "cus_1") 1000 1000.

Definition bob : User.t :=
  User.Build_t "usr_2" "bob@example.com" None None None 1000 1000.

Definition pro : Product.t :=
  Product.Build_t "prd_1" "prod_1" "Pro" None [] true 1000 1000.

Definition monthly : Price.t :=
  Price.Build_t "prc_1" "price_1" "prd_1" None "usd" RECURRING (Some 1900)
    (Some MONTH) (Some 1) [] true 1000 1000.

(** [sub_1]: active, period end at [periodEnd]. *)
Definition sub_1 (cancelAtPeriodEnd : bool) (cancelAt : option DateTime)
    (periodEnd : DateTime) : Subscription.t :=
  Subscription.Build_t "s_1" "sub_1" "usr_1" "prc_1" ACTIVE []
    cancelAtPeriodEnd cancelAt None 2000 periodEnd 2000 2000 None None None.

Definition card_1 : PaymentMethod.t :=
  PaymentMethod.Build_t "p_1" "pm_1" "usr_1" "card" (Some "4242") (Some "visa")
    (Some 12) (Some 2030) true 1500 1500.

Definition db0 (s : Subscription.t) : Db :=
  Build_Db [alice; bob] [pro] [monthly] [s] [card_1] [] 7.

Definition world0 (s : Subscription.t) (faults : list (option PrismaErrorCode))
    (now : DateTime) : World :=
  Build_World (db0 s) [] faults now.

(** What the processor sends about [sub_1]. *)
Definition stripe_sub_1 : Stripe.Subscription :=
  Stripe.Build_Subscription "sub_1" "cus_1" [Stripe.Build_SubscriptionItem "price_1"]
    "canceled" false None (Some 5000) 2 9000 (Some 5000) None None [].

Definition evt_1 : Stripe.Event :=
  Stripe.Build_Event "evt_1" "customer.subscription.deleted"
    (Stripe.ObjSubscription stripe_sub_1).

(** A processor whose calls all succeed. *)
Definition stripe_ok : StripeService.t :=
  StripeService.Build_t
    (fun email name => Ok (Stripe.Build_Customer "cus_new" (Some email)))
    (fun params => Ok (Stripe.Build_Session "cs_1" "https://checkout.example/cs_1"))
    (fun customer returnUrl => Ok (Stripe.Build_Session "bps_1" "https://billing.example/bps_1"))
    (fun sid immediate => Ok stripe_sub_1)
    (fun sid => Ok stripe_sub_1)
    (fun sid newPriceId => Ok stripe_sub_1)
    (fun payload signature => Ok evt_1).

End Scenario.

(* ------------------------------------------------------------------ *)
(** ** [PaymentsService.getUserPlan] *)

Module PaymentsServiceReads.

(** The value [getUserPlan] resolves to when a subscription is found; the
    nested [subscription.price] and [price.product] are the fields
    [price] and [product]. *)
Record UserPlan := {
  subscription : Subscription.t;
  product : Product.t;
  price : Price.t;
  isActive : bool;
  isTrial : bool;
  currentPeriodEnd : DateTime;
  cancelAtPeriodEnd : bool
}.

(** The first row under [orderBy: { createdAt: 'desc' }].  Among rows of
    equal creation stamp the database may return any; this takes the first
    of them in table order. *)
Definition newest (rows : list Subscription.t) : option Subscription.t :=
  fold_right
    (fun r best =>
       match best with
       | Some m =>
           if Subscription.createdAt r <? Subscription.createdAt m then Some m else Some r
       | None => Some r
       end)
    None rows.

(** [subscription.findFirst({ where, include: { price: { include:
    { product: true } } }, orderBy })], one call of the client.  [price]
    and [product] are required relations of the schema: a row whose
    relation does not resolve is excluded by the foreign keys, and reading
    through it throws. *)
Definition subscription_findFirst_with_price (userId : string) (now : DateTime) (d : Db)
  : Result (option (Subscription.t * Price.t * Product.t)) * Db :=
  match newest (filter (PaymentsService.entitled userId now) (subscriptions d)) with
  | None => (Ok None, d)
  | Some s =>
      match find (fun p => Price.id p === Subscription.priceId s) (prices d) with
      | None => (Throw (TypeError "Cannot read properties of null"), d)
      | Some p =>
          match find (fun q => Product.id q === Price.productId p) (products d) with
          | None => (Throw (TypeError "Cannot read properties of null"), d)
          | Some q => (Ok (Some (s, p, q)), d)
          end
      end
  end.

Definition getUserPlan (userId : string) : M (option UserPlan) :=
  now <- new_Date ;;
  found <- prisma (subscription_findFirst_with_price userId now) ;;
  match found with
  | None => ret None
  | Some (subscription, price, product) =>
      ret (Some (Build_UserPlan subscription product price
                   (SubscriptionStatus_eqb (Subscription.status subscription) ACTIVE)
                   (SubscriptionStatus_eqb (Subscription.status subscription) TRIALING)
                   (Subscription.currentPeriodEnd subscription)
                   (Subscription.cancelAtPeriodEnd subscription)))
  end.

End PaymentsServiceReads.

(* ------------------------------------------------------------------ *)
(** ** [SubscriptionGuard.canActivate] *)

Module SubscriptionGuard.

(** How a call of the guard ends: with the value it returns, with the
    ForbiddenException it throws, or with the exception of the status
    oracle. *)
Inductive Outcome :=
  | Returns (b : bool)
  | ForbiddenException (message : string)
  | Rejects (e : Exn).

(** [user] is [request.user], absent on an unauthenticated request. *)
Definition canActivate (user : option User.t) (w : World) : Outcome * World :=
  match user with
  | None => (ForbiddenException "User not authenticated", w)
  | Some user =>
      match PaymentsService.hasActiveSubscription (User.id user) w with
      | (Ok hasActiveSubscription, w') =>
          if negb hasActiveSubscription then
            (ForbiddenException "Active subscription required to access this feature", w')
          else (Returns true, w')
      | (Throw e, w') => (Rejects e, w')
      end
  end.

End SubscriptionGuard.

(* ------------------------------------------------------------------ *)
(** ** [StripeService.syncProducts] *)

Module StripeServiceSync.

(** The two listings of the processor's API the sync reads:
    [products.list({ active: true })] and
    [prices.list({ product, active: true })], each as the page it
    resolves to or the error it rejects with. *)
Record Listings := {
  products_list : Result (list Stripe.Product);
  prices_list : string -> Result (list Stripe.Price)
}.

(** [for (const x of xs) { await f(x) }]. *)
Fixpoint for_each {A : Type} (xs : list A) (f : A -> M unit) : M unit :=
  match xs with
  | [] => ret tt
  | x :: rest => f x ;;; for_each rest f
  end.

(** [upsertProduct]: the same upsert as the one of [handleProductUpdated]. *)
Definition upsertProduct (stripeProduct : Stripe.Product) : M unit :=
  updatedAt <- new_Date ;;
  prisma_at (WebhookService.product_upsert stripeProduct updatedAt).

(** [upsertPrice]: the product is looked up under the id the caller
    passes; the upsert is the one of [handlePriceUpdated]. *)
Definition upsertPrice (stripePrice : Stripe.Price) (productStripeId : string) : M unit :=
  product <- prisma (query (WebhookService.product_findUnique productStripeId)) ;;
  match product with
  | None =>
      logger ERROR ("Product not found for Stripe product ID: " ++ productStripeId)
  | Some product =>
      updatedAt <- new_Date ;;
      prisma_at (WebhookService.price_upsert stripePrice product updatedAt)
  end.

Definition syncProducts (stripe : Listings) : M unit :=
  logger LOG "Starting product sync from Stripe..." ;;;
  products <- await_stripe (products_list stripe) ;;
  for_each products
    (fun stripeProduct =>
       upsertProduct stripeProduct ;;;
       prices <- await_stripe (prices_list stripe (Stripe.prod_id stripeProduct)) ;;
       for_each prices
         (fun stripePrice => upsertPrice stripePrice (Stripe.prod_id stripeProduct))) ;;;
  logger LOG ("Synced " ++ NilEmpty.string_of_uint (Nat.to_uint (length products))
              ++ " products from Stripe").

End StripeServiceSync.

(* ------------------------------------------------------------------ *)
(** ** Vocabulary of the statements *)

(** A subscription with its cancellation intent wiped. *)
Definition without_intent (s : Subscription.t) : Subscription.t :=
  Subscription.set_cancelAt None (Subscription.set_cancelAtPeriodEnd false s).

(** [m] leaves the part [g] of the database as it found it, whatever it
    returns or throws. *)
Definition keeps {X A : Type} (g : Db -> X) (m : M A) : Prop :=
  forall w, g (db (snd (m w))) = g (db w).

(** The ledger's verdict on an event id. *)
Definition ledger_processed (stripeEventId : string) (d : Db) : bool :=
  WebhookService.isProcessed (WebhookService.webhookEvent_findUnique stripeEventId d).

(** The five entity tables of [d'] are those of [d]. *)
Definition same_entities (d d' : Db) : Prop :=
  users d' = users d /\ products d' = products d /\ prices d' = prices d
  /\ subscriptions d' = subscriptions d /\ paymentMethods d' = paymentMethods d.

(** What [handleSubscriptionDeleted] writes into a matching row at time [now]. *)
Definition terminated (now : DateTime) (s : Subscription.t) : Subscription.t :=
  Subscription.set_updatedAt now
    (Subscription.set_endedAt (Some now) (Subscription.set_status CANCELED s)).

(** The line logged when a delivery is skipped. *)
Definition skip_line (event : Stripe.Event) : LogLevel * string :=
  (LOG, ("Event " ++ Stripe.id event ++ " already processed, skipping")%string).

(** The subscription a processor payload describes names a customer no
    local user is linked to, or a first line item whose price is not known
    locally. *)
Definition unresolved (sub : Stripe.Subscription) (d : Db) : Prop :=
  WebhookService.user_findUnique_stripeCustomerId (Stripe.customer sub) d = None
  \/ (exists item rest,
         Stripe.items_data sub = item :: rest
         /\ WebhookService.price_findUnique (Stripe.price_id item) d = None).

(** Every subscription row points to a user row and to a price row. *)
Definition fk_ok (d : Db) : Prop :=
  forall s, In s (subscriptions d) ->
    (exists u, In u (users d) /\ User.id u = Subscription.userId s)
    /\ (exists p, In p (prices d) /\ Price.id p = Subscription.priceId s).

(** The claim step of a delivery of [event] started in [w] has gone
    through, on an entry not yet processed, and has ended in [w1]. *)
Definition claimed (event : Stripe.Event) (w w1 : World) : Prop :=
  exists existingEvent w0,
    prisma (query (WebhookService.webhookEvent_findUnique (Stripe.id event))) w
    = (Ok existingEvent, w0)
    /\ WebhookService.isProcessed existingEvent = false
    /\ prisma_at (WebhookService.webhookEvent_upsert event) w0 = (Ok tt, w1).

(** The database [d] after user [userId] has been linked to the
    processor's customer [customerId] at time [now]. *)
Definition linked (userId customerId : string) (now : DateTime) (d : Db) : Db :=
  set_users
    (updateMany (fun u => User.id u === userId)
       (User.set_stripeCustomerId (Some customerId) now) (users d)) d.

(** An action that, when it throws, has committed no write. *)
Definition throws_clean {A : Type} (m : M A) : Prop :=
  forall w e w', m w = (Throw e, w') -> db w' = db w.

(** Two deliveries of [evt_1] in flight at once, on a ledger that has
    never seen it. *)
Definition race : Concurrent.System :=
  Concurrent.Build_System
    (Scenario.world0 (Scenario.sub_1 false None 9000) [] 6000)
    [Concurrent.Build_Delivery Scenario.evt_1 Concurrent.AtCheck;
     Concurrent.Build_Delivery Scenario.evt_1 Concurrent.AtCheck]
    [].

(** The two deliveries take turns at every [await]. *)
Definition alternate : list nat := [0; 1; 0; 1; 0; 1; 0; 1]%nat.

(* ------------------------------------------------------------------ *)
(** ** Vocabulary of the further properties *)

(** The type tags the router has a [case] for. *)
Definition handled_types : list string :=
  ["customer.subscription.created"; "customer.subscription.updated";
   "customer.subscription.deleted";
   "invoice.payment_succeeded"; "invoice.payment_failed";
   "customer.created"; "customer.updated";
   "product.created"; "product.updated"; "product.deleted";
   "price.created"; "price.updated"; "price.deleted";
   "payment_method.attached"; "payment_method.detached"]%string.

(** [m] never moves the clock. *)
Definition keeps_clock {A : Type} (m : M A) : Prop :=
  forall w, clock (snd (m w)) = clock w.

(** [m] keeps the property [P] of the database, whatever it returns or
    throws. *)
Definition preserves {A : Type} (P : Db -> Prop) (m : M A) : Prop :=
  forall w, P (db w) -> P (db (snd (m w))).

(** The shape of every [upsert] of the Prisma client on a table: rewrite
    the rows the key selects, or append the created row. *)
Definition upsert_rows {R : Type} (key : R -> bool) (data : R -> R) (created : R)
    (rows : list R) : list R :=
  if existsb key rows then updateMany key data rows else rows ++ [created].

(** [l'] is [l] with rows appended. *)
Definition extends {A : Type} (l l' : list A) : Prop :=
  exists extra, l' = l ++ extra.

(** No two rows of a table keyed by an external id carry the same
    external id. *)
Definition unique_external_ids (d : Db) : Prop :=
  NoDup (map Product.stripeProductId (products d))
  /\ NoDup (map Price.stripePriceId (prices d))
  /\ NoDup (map Subscription.stripeSubscriptionId (subscriptions d))
  /\ NoDup (map PaymentMethod.stripePaymentMethodId (paymentMethods d))
  /\ NoDup (map WebhookEvent.stripeEventId (webhookEvents d)).

(** Every row of [d0] that is not a payment method is still in [d], at
    its place and under its local id. *)
Definition retains (d0 d : Db) : Prop :=
  extends (map User.id (users d0)) (map User.id (users d))
  /\ extends (map Product.id (products d0)) (map Product.id (products d))
  /\ extends (map Price.id (prices d0)) (map Price.id (prices d))
  /\ extends (map Subscription.id (subscriptions d0)) (map Subscription.id (subscriptions d))
  /\ extends (map WebhookEvent.id (webhookEvents d0)) (map WebhookEvent.id (webhookEvents d)).

(** The world after the deliveries of [events], one after the other,
    whether each resolves or throws. *)
Definition deliver_all (events : list Stripe.Event) (w : World) : World :=
  fold_left (fun w event => snd (WebhookService.handleWebhookEvent event w)) events w.

(** A database with no row at all. *)
Definition empty_db : Db := Build_Db [] [] [] [] [] [] 0.

(** A product row with its update stamp set to [t]. *)
Definition product_stamped (t : DateTime) (p : Product.t) : Product.t :=
  Product.Build_t (Product.id p) (Product.stripeProductId p) (Product.name p)
    (Product.description p) (Product.metadata p) (Product.active p)
    (Product.createdAt p) t.

(** The subscription row a processor payload determines, given the
    identity and ownership of the row and its stamps. *)
Definition synced_subscription (sub : Stripe.Subscription)
    (id stripeSubscriptionId userId priceId : string)
    (createdAt updatedAt : DateTime) : Subscription.t :=
  Subscription.Build_t id stripeSubscriptionId userId priceId
    (mapSubscriptionStatus (Stripe.status sub)) (Stripe.sub_metadata sub)
    (Stripe.cancel_at_period_end sub)
    (epoch_or_null (Stripe.cancel_at sub)) (epoch_or_null (Stripe.canceled_at sub))
    (Stripe.current_period_start sub * 1000) (Stripe.current_period_end sub * 1000)
    createdAt updatedAt
    (epoch_or_null (Stripe.ended_at sub))
    (epoch_or_null (Stripe.trial_start sub)) (epoch_or_null (Stripe.trial_end sub)).

(** The external product id, resp. price id, has a row. *)
Definition product_present (stripeProductId : string) (d : Db) : Prop :=
  WebhookService.product_findUnique stripeProductId d <> None.

Definition price_present (stripePriceId : string) (d : Db) : Prop :=
  WebhookService.price_findUnique stripePriceId d <> None.

(** On storage that accepts every call, [m] resolves and storage still
    accepts every call. *)
Definition resolves {A : Type} (m : M A) : Prop :=
  forall w, faults w = [] -> exists a w', m w = (Ok a, w') /\ faults w' = [].

(* ================================================================== *)
(** * Properties *)

Local Open Scope async_scope.

(* ------------------------------------------------------------------ *)
(** ** Running the monad *)

Lemma set_db_same (w : World) : set_db (db w) w = w.
Proof. destruct w; reflexivity. Qed.

Lemma prisma_no_fault A (op : Db -> Result A * Db) (w : World) :
  faults w = [] ->
  prisma op w = (fst (op (db w)), set_db (snd (op (db w))) w).
Proof.
  intros Hf. unfold prisma. rewrite Hf. destruct (op (db w)); reflexivity.
Qed.

Lemma prisma_query_no_fault A (f : Db -> A) (w : World) :
  faults w = [] -> prisma (query f) w = (Ok (f (db w)), w).
Proof.
  intros Hf. rewrite prisma_no_fault by assumption. unfold query; simpl.
  now rewrite set_db_same.
Qed.

(** A read answers from the current database or is rejected; either way
    nothing but the fault schedule moves. *)
Lemma prisma_query_cases A (f : Db -> A) (w : World) :
  (exists e fs, faults w = Some e :: fs
     /\ prisma (query f) w = (Throw (PrismaClientKnownRequestError e), set_faults fs w))
  \/ (exists w', prisma (query f) w = (Ok (f (db w)), w')
        /\ db w' = db w /\ log w' = log w /\ clock w' = clock w
        /\ (faults w' = tl (faults w))).
Proof.
  unfold prisma, query. destruct w as [d l f0 c]; simpl.
  destruct f0 as [|[e|] fs]; simpl.
  - right. eexists; repeat split.
  - left. exists e, fs. split; reflexivity.
  - right. eexists; repeat split.
Qed.

Lemma is_some_find A (p : A -> bool) (l : list A) : is_some (find p l) = existsb p l.
Proof.
  induction l as [|a l IH]; simpl; [reflexivity|]. destruct (p a); simpl; auto.
Qed.

Lemma SubscriptionStatus_eqb_eq (a b : SubscriptionStatus) :
  SubscriptionStatus_eqb a b = true <-> a = b.
Proof. destruct a, b; simpl; split; intros H; try reflexivity; discriminate. Qed.

(* ------------------------------------------------------------------ *)
(** ** Status mapping *)

Lemma mapSubscriptionStatus_default (s : string) :
  ~ In s external_vocabulary -> mapSubscriptionStatus s = INCOMPLETE.
Proof.
  intros Hn. unfold mapSubscriptionStatus.
  repeat match goal with
         | |- context [String.eqb s ?k] =>
             destruct (String.eqb_spec s k) as [->|_];
             [exfalso; apply Hn; simpl; tauto|]
         end.
  reflexivity.
Qed.

(** C4. The status mapping is a total function from status strings to the
    local enum: each of the eight statuses of the processor's vocabulary
    goes to the local status of the same name, and every other string goes
    to [INCOMPLETE], the first member of the enum. *)
Theorem mapSubscriptionStatus_total :
  (mapSubscriptionStatus "incomplete" = INCOMPLETE
   /\ mapSubscriptionStatus "incomplete_expired" = INCOMPLETE_EXPIRED
   /\ mapSubscriptionStatus "trialing" = TRIALING
   /\ mapSubscriptionStatus "active" = ACTIVE
   /\ mapSubscriptionStatus "past_due" = PAST_DUE
   /\ mapSubscriptionStatus "canceled" = CANCELED
   /\ mapSubscriptionStatus "unpaid" = UNPAID
   /\ mapSubscriptionStatus "paused" = PAUSED)
  /\ (forall s, In s external_vocabulary ->
        SubscriptionStatus_name (mapSubscriptionStatus s) = upcase s)
  /\ (forall s, ~ In s external_vocabulary ->
        Some (mapSubscriptionStatus s) = hd_error SubscriptionStatus_members)
  /\ hd_error SubscriptionStatus_members = Some INCOMPLETE.
Proof.
  split; [repeat split; reflexivity|]. split; [|split].
  - intros s Hin. simpl in Hin.
    repeat (destruct Hin as [<-|Hin]; [reflexivity|]). contradiction.
  - intros s Hn. now rewrite mapSubscriptionStatus_default.
  - reflexivity.
Qed.

(* ------------------------------------------------------------------ *)
(** ** The status oracle *)

Lemma entitled_spec (userId : string) (now : DateTime) (s : Subscription.t) :
  PaymentsService.entitled userId now s = true <->
  Subscription.userId s = userId
  /\ (Subscription.status s = ACTIVE \/ Subscription.status s = TRIALING)
  /\ now < Subscription.currentPeriodEnd s.
Proof.
  unfold PaymentsService.entitled.
  rewrite !andb_true_iff, orb_true_iff, !SubscriptionStatus_eqb_eq,
    String.eqb_eq, Z.ltb_lt.
  tauto.
Qed.

Lemma hasActiveSubscription_cases (userId : string) (w : World) :
  (exists e w', PaymentsService.hasActiveSubscription userId w = (Throw e, w'))
  \/ (exists w', PaymentsService.hasActiveSubscription userId w
                 = (Ok (existsb (PaymentsService.entitled userId (clock w))
                          (subscriptions (db w))), w')).
Proof.
  unfold PaymentsService.hasActiveSubscription, bind, new_Date, ret.
  destruct (prisma_query_cases
              (fun d => find (PaymentsService.entitled userId (clock w)) (subscriptions d)) w)
    as [(e & fs & _ & ->)|(w' & -> & _)].
  - left. eauto.
  - right. exists w'. now rewrite is_some_find.
Qed.

Lemma hasActiveSubscription_no_fault (userId : string) (w : World) :
  faults w = [] ->
  PaymentsService.hasActiveSubscription userId w
  = (Ok (existsb (PaymentsService.entitled userId (clock w)) (subscriptions (db w))), w).
Proof.
  intros Hf. unfold PaymentsService.hasActiveSubscription, bind, new_Date, ret.
  rewrite prisma_query_no_fault by assumption. now rewrite is_some_find.
Qed.

(** C7. [hasActiveSubscription] answers [true] exactly when some
    subscription of the principal has status ACTIVE or TRIALING and a
    [currentPeriodEnd] strictly after the current time; it does answer
    whenever storage accepts the read.  For a principal whose only
    subscription is active, a period end one second in the past gives
    [false] and one second in the future gives [true]. *)
Theorem hasActiveSubscription_iff :
  (forall userId w b w',
      PaymentsService.hasActiveSubscription userId w = (Ok b, w') ->
      (b = true <->
       exists s, In s (subscriptions (db w))
                 /\ Subscription.userId s = userId
                 /\ (Subscription.status s = ACTIVE \/ Subscription.status s = TRIALING)
                 /\ clock w < Subscription.currentPeriodEnd s))
  /\ (forall userId w, faults w = [] ->
        exists b, PaymentsService.hasActiveSubscription userId w = (Ok b, w))
  /\ (forall userId w s,
        faults w = [] -> subscriptions (db w) = [s] ->
        Subscription.userId s = userId -> Subscription.status s = ACTIVE ->
        (Subscription.currentPeriodEnd s = clock w - 1000 ->
         PaymentsService.hasActiveSubscription userId w = (Ok false, w))
        /\ (Subscription.currentPeriodEnd s = clock w + 1000 ->
            PaymentsService.hasActiveSubscription userId w = (Ok true, w))).
Proof.
  split; [|split].
  - intros userId w b w' Hrun.
    destruct (hasActiveSubscription_cases userId w) as [(e & w1 & H)|(w1 & H)];
      rewrite H in Hrun; inversion Hrun; subst.
    rewrite existsb_exists. split.
    + intros (s & Hin & He). exists s. split; [assumption|]. now apply entitled_spec.
    + intros (s & Hin & He). exists s. split; [assumption|]. now apply entitled_spec.
  - intros userId w Hf. eexists. now apply hasActiveSubscription_no_fault.
  - intros userId w s Hf Hs Hu Hst.
    rewrite hasActiveSubscription_no_fault by assumption. rewrite Hs. simpl.
    rewrite orb_false_r. split; intros Hend.
    + assert (PaymentsService.entitled userId (clock w) s = false) as ->; [|reflexivity].
      apply not_true_is_false. rewrite entitled_spec. lia.
    + assert (PaymentsService.entitled userId (clock w) s = true) as ->; [|reflexivity].
      apply entitled_spec. repeat split; auto. lia.
Qed.

Lemma hasActiveSubscription_iff_witness :
  let w := Scenario.world0 (Scenario.sub_1 false None 5000) [] 6000 in
  (PaymentsService.hasActiveSubscription "usr_1" w = (Ok false, w)
   /\ (false = true <->
       exists s, In s (subscriptions (db w))
                 /\ Subscription.userId s = "usr_1"
                 /\ (Subscription.status s = ACTIVE \/ Subscription.status s = TRIALING)
                 /\ clock w < Subscription.currentPeriodEnd s))
  /\ (exists b, PaymentsService.hasActiveSubscription "usr_1" w = (Ok b, w))
  /\ PaymentsService.hasActiveSubscription "usr_1"
       (Scenario.world0 (Scenario.sub_1 false None 7000) [] 6000)
     = (Ok true, Scenario.world0 (Scenario.sub_1 false None 7000) [] 6000).
Proof.
  intros w. destruct hasActiveSubscription_iff as (H1 & H2 & H3).
  split; [|split].
  - split; [reflexivity|]. apply (H1 "usr_1" w false w). reflexivity.
  - apply (H2 "usr_1" w). reflexivity.
  - refine (proj2 (H3 "usr_1" (Scenario.world0 (Scenario.sub_1 false None 7000) [] 6000)
                      (Scenario.sub_1 false None 7000) _ _ _ _) _); reflexivity.
Defined.

Lemma entitled_without_intent (userId : string) (now : DateTime) (s : Subscription.t) :
  PaymentsService.entitled userId now (without_intent s)
  = PaymentsService.entitled userId now s.
Proof. reflexivity. Qed.

Lemma existsb_map A B (f : A -> B) (p : B -> bool) (l : list A) :
  existsb p (map f l) = existsb (fun a => p (f a)) l.
Proof. induction l as [|a l IH]; simpl; [reflexivity|]. now rewrite IH. Qed.

Lemma hasActiveSubscription_false_inv (userId : string) (w w' : World) (s : Subscription.t) :
  PaymentsService.hasActiveSubscription userId w = (Ok false, w') ->
  In s (subscriptions (db w)) ->
  PaymentsService.entitled userId (clock w) s = false.
Proof.
  intros Hrun Hin.
  destruct (hasActiveSubscription_cases userId w) as [(e & w1 & H)|(w1 & H)];
    rewrite H in Hrun; [discriminate|].
  injection Hrun as Hex _.
  destruct (PaymentsService.entitled userId (clock w) s) eqn:E; [|reflexivity].
  rewrite <- Hex. symmetry. apply existsb_exists. eauto.
Qed.

(** C9. The entitlement check does not look at cancellation intent: a
    subscription of the principal that is ACTIVE or TRIALING with its period
    end in the future makes the answer [true] whatever its
    [cancelAtPeriodEnd] and [cancelAt] are, and two worlds that differ only
    in these two fields of their subscriptions get the same answer.  More,
    the answer is a function of the clock and of the user, status and
    period end of the rows: worlds that agree on these get the same answer
    whatever else differs.  Entitlement lapses only by status change or
    period expiry: when a subscription [s] gave the principal the
    entitlement and the answer is later [false], every subscription of the
    principal that is then stored, [s] itself if it is still there, has a
    status that is not the one [s] had and is neither ACTIVE nor TRIALING,
    or has its period end at or before the current time.  And it does
    lapse then: when every subscription of the principal has such a status
    or such a period end, the answer is [false]. *)
Theorem hasActiveSubscription_ignores_cancellation :
  (forall userId w s cancelAtPeriodEnd cancelAt,
      faults w = [] ->
      In (Subscription.set_cancelAt cancelAt
            (Subscription.set_cancelAtPeriodEnd cancelAtPeriodEnd s))
         (subscriptions (db w)) ->
      Subscription.userId s = userId ->
      Subscription.status s = ACTIVE \/ Subscription.status s = TRIALING ->
      clock w < Subscription.currentPeriodEnd s ->
      PaymentsService.hasActiveSubscription userId w = (Ok true, w))
  /\ (forall userId w1 w2,
        clock w1 = clock w2 -> faults w1 = faults w2 ->
        map without_intent (subscriptions (db w1))
        = map without_intent (subscriptions (db w2)) ->
        fst (PaymentsService.hasActiveSubscription userId w1)
        = fst (PaymentsService.hasActiveSubscription userId w2))
  /\ (forall userId w1 w2,
        clock w1 = clock w2 -> faults w1 = faults w2 ->
        map (fun s => (Subscription.userId s, Subscription.status s,
                       Subscription.currentPeriodEnd s)) (subscriptions (db w1))
        = map (fun s => (Subscription.userId s, Subscription.status s,
                         Subscription.currentPeriodEnd s)) (subscriptions (db w2)) ->
        fst (PaymentsService.hasActiveSubscription userId w1)
        = fst (PaymentsService.hasActiveSubscription userId w2))
  /\ (forall userId w s w' w1' s',
        In s (subscriptions (db w)) ->
        Subscription.userId s = userId ->
        Subscription.status s = ACTIVE \/ Subscription.status s = TRIALING ->
        clock w < Subscription.currentPeriodEnd s ->
        PaymentsService.hasActiveSubscription userId w' = (Ok false, w1') ->
        In s' (subscriptions (db w')) ->
        Subscription.userId s' = userId ->
        (Subscription.status s' <> Subscription.status s
         /\ Subscription.status s' <> ACTIVE /\ Subscription.status s' <> TRIALING)
        \/ Subscription.currentPeriodEnd s' <= clock w')
  /\ (forall userId w,
        faults w = [] ->
        (forall s, In s (subscriptions (db w)) -> Subscription.userId s = userId ->
           (Subscription.status s <> ACTIVE /\ Subscription.status s <> TRIALING)
           \/ Subscription.currentPeriodEnd s <= clock w) ->
        PaymentsService.hasActiveSubscription userId w = (Ok false, w)).
Proof.
  split; [|split; [|split; [|split]]].
  - intros userId w s cape ca Hf Hin Hu Hst Hend.
    rewrite hasActiveSubscription_no_fault by assumption.
    f_equal. f_equal. apply existsb_exists. eexists. split; [exact Hin|].
    apply entitled_spec. simpl. auto.
  - intros userId w1 w2 Hc Hf Hm.
    assert (Hex : existsb (PaymentsService.entitled userId (clock w2)) (subscriptions (db w1))
                  = existsb (PaymentsService.entitled userId (clock w2)) (subscriptions (db w2))).
    { transitivity (existsb (PaymentsService.entitled userId (clock w2))
                      (map without_intent (subscriptions (db w1)))).
      - rewrite existsb_map. reflexivity.
      - rewrite Hm, existsb_map. reflexivity. }
    unfold PaymentsService.hasActiveSubscription, bind, new_Date, ret, prisma, query.
    rewrite <- Hf, Hc.
    destruct (faults w1) as [|[e|] fs]; simpl; rewrite ?is_some_find, ?Hex; reflexivity.
  - intros userId w1 w2 Hc Hf Hm.
    pose (read := fun k : string * SubscriptionStatus * DateTime =>
                    (fst (fst k) === userId)
                    && (SubscriptionStatus_eqb (snd (fst k)) ACTIVE
                        || SubscriptionStatus_eqb (snd (fst k)) TRIALING)
                    && (clock w2 <? snd k)).
    assert (Hex : existsb (PaymentsService.entitled userId (clock w2)) (subscriptions (db w1))
                  = existsb (PaymentsService.entitled userId (clock w2)) (subscriptions (db w2))).
    { transitivity
        (existsb read
           (map (fun s => (Subscription.userId s, Subscription.status s,
                           Subscription.currentPeriodEnd s)) (subscriptions (db w1)))).
      - rewrite existsb_map. reflexivity.
      - rewrite Hm, existsb_map. reflexivity. }
    unfold PaymentsService.hasActiveSubscription, bind, new_Date, ret, prisma, query.
    rewrite <- Hf, Hc.
    destruct (faults w1) as [|[e|] fs]; simpl; rewrite ?is_some_find, ?Hex; reflexivity.
  - intros userId w s w' w1' s' Hin Hu Hst Hend Hrun Hin' Hu'.
    pose proof (hasActiveSubscription_false_inv userId w' s' Hrun Hin') as He.
    destruct (Z_lt_le_dec (clock w') (Subscription.currentPeriodEnd s')) as [Hlt|Hle];
      [left|right; exact Hle].
    assert (Hn : ~ (Subscription.status s' = ACTIVE \/ Subscription.status s' = TRIALING)).
    { intros Hact.
      assert (PaymentsService.entitled userId (clock w') s' = true)
        by (apply entitled_spec; auto).
      congruence. }
    split; [|split].
    + intros E. apply Hn. rewrite E. exact Hst.
    + intros E. apply Hn. now left.
    + intros E. apply Hn. now right.
  - intros userId w Hf Hall.
    rewrite hasActiveSubscription_no_fault by assumption.
    f_equal. f_equal. apply not_true_is_false. intros Hex.
    apply existsb_exists in Hex as (s & Hin & He).
    apply entitled_spec in He as (Hu & Hst & Hend).
    destruct (Hall s Hin Hu) as [(Ha & Ht)|Hle]; [|lia].
    destruct Hst; contradiction.
Qed.

Lemma hasActiveSubscription_ignores_cancellation_witness :
  let w := Scenario.world0 (Scenario.sub_1 true (Some 9000) 9000) [] 6000 in
  let expired := Scenario.world0 (Scenario.sub_1 true (Some 9000) 9000) [] 9000 in
  let paused :=
    Scenario.world0
      (Subscription.set_status PAUSED (Scenario.sub_1 true (Some 9000) 9000)) [] 6000 in
  PaymentsService.hasActiveSubscription "usr_1" w = (Ok true, w)
  /\ fst (PaymentsService.hasActiveSubscription "usr_1" w)
     = fst (PaymentsService.hasActiveSubscription "usr_1"
              (Scenario.world0 (Scenario.sub_1 false None 9000) [] 6000))
  /\ fst (PaymentsService.hasActiveSubscription "usr_1" w)
     = fst (PaymentsService.hasActiveSubscription "usr_1"
              (Scenario.world0
                 (Subscription.set_updatedAt 5000 (Scenario.sub_1 false None 9000)) [] 6000))
  /\ ((PAUSED <> ACTIVE /\ PAUSED <> ACTIVE /\ PAUSED <> TRIALING) \/ 9000 <= 6000)
  /\ PaymentsService.hasActiveSubscription "usr_1" expired = (Ok false, expired)
  /\ PaymentsService.hasActiveSubscription "usr_1" paused = (Ok false, paused).
Proof.
  intros w expired paused.
  destruct hasActiveSubscription_ignores_cancellation as (H1 & H2 & H3 & H4 & H5).
  split; [|split; [|split; [|split; [|split]]]].
  - apply (H1 "usr_1" w (Scenario.sub_1 false None 9000) true (Some 9000)).
    + reflexivity.
    + simpl. left. reflexivity.
    + reflexivity.
    + left. reflexivity.
    + simpl. lia.
  - apply H2; reflexivity.
  - apply H3; reflexivity.
  - apply (H4 "usr_1"%string w (Scenario.sub_1 true (Some 9000) 9000) paused paused
             (Subscription.set_status PAUSED (Scenario.sub_1 true (Some 9000) 9000))).
    + left. reflexivity.
    + reflexivity.
    + left. reflexivity.
    + simpl. lia.
    + reflexivity.
    + left. reflexivity.
    + reflexivity.
  - apply H5; [reflexivity|]. intros s [<-|[]] _. right. simpl. lia.
  - apply H5; [reflexivity|]. intros s [<-|[]] _. left. split; discriminate.
Defined.

(* ------------------------------------------------------------------ *)
(** ** Frame rules *)

Section Frames.
Context {X : Type} (g : Db -> X).

Lemma keeps_ret A (a : A) : keeps g (ret a).
Proof. intros w; reflexivity. Qed.

Lemma keeps_throw A (e : Exn) : keeps g (@throw A e).
Proof. intros w; reflexivity. Qed.

Lemma keeps_new_Date : keeps g new_Date.
Proof. intros w; reflexivity. Qed.

Lemma keeps_logger (l : LogLevel) (msg : string) : keeps g (logger l msg).
Proof. intros w; reflexivity. Qed.

Lemma keeps_await A (r : Result A) : keeps g (await_stripe r).
Proof. intros w; reflexivity. Qed.

Lemma keeps_bind A B (m : M A) (k : A -> M B) :
  keeps g m -> (forall a, keeps g (k a)) -> keeps g (bind m k).
Proof.
  intros Hm Hk w. unfold bind. specialize (Hm w).
  destruct (m w) as [[a|e] w']; simpl in *.
  - now rewrite Hk.
  - assumption.
Qed.

Lemma keeps_try_catch A (m : M A) (h : Exn -> M A) :
  keeps g m -> (forall e, keeps g (h e)) -> keeps g (try_catch m h).
Proof.
  intros Hm Hh w. unfold try_catch. specialize (Hm w).
  destruct (m w) as [[a|e] w']; simpl in *.
  - assumption.
  - now rewrite Hh.
Qed.

Lemma keeps_prisma A (op : Db -> Result A * Db) :
  (forall d, g (snd (op d)) = g d) -> keeps g (prisma op).
Proof.
  intros Hop w. unfold prisma. specialize (Hop (db w)).
  destruct (faults w) as [|[e|] fs]; simpl; try reflexivity;
    destruct (op (db w)); simpl in *; assumption.
Qed.

Lemma keeps_prisma_at A (op : DateTime -> Db -> Result A * Db) :
  (forall now d, g (snd (op now d)) = g d) -> keeps g (prisma_at op).
Proof. intros Hop w. unfold prisma_at. now apply keeps_prisma. Qed.

End Frames.

Create HintDb frame.
#[local] Hint Resolve keeps_ret keeps_throw keeps_new_Date keeps_logger keeps_await : frame.

(** Splits a handler along its binds and branches, down to its Prisma calls. *)
Ltac frame :=
  repeat first
    [ solve [auto with frame]
    | apply keeps_bind; [|intros ?]
    | apply keeps_try_catch; [|intros ?]
    | apply keeps_prisma; intros ?
    | apply keeps_prisma_at; intros ? ?
    | match goal with
      | |- keeps _ (match ?x with _ => _ end) => destruct x
      end ].

Lemma find_none_of A (p : A -> bool) (l : list A) :
  (forall x, In x l -> p x = false) -> find p l = None.
Proof.
  induction l as [|a l IH]; simpl; intros H; [reflexivity|].
  rewrite (H a) by auto. apply IH. auto.
Qed.

Lemma In_updateMany R (c : R -> bool) (f : R -> R) (rows : list R) (x : R) :
  In x (updateMany c f rows) <-> exists r, In r rows /\ x = if c r then f r else r.
Proof.
  unfold updateMany. rewrite in_map_iff. split; intros (r & A & B); exists r; auto.
Qed.

Lemma update_ok R (c : R -> bool) (f : R -> R) (rows : list R) :
  existsb c rows = true -> update c f rows = (Ok tt, updateMany c f rows).
Proof. intros H. unfold update. now rewrite H. Qed.

(* ------------------------------------------------------------------ *)
(** ** Reactivation *)

Lemma reactivate_not_eligible (stripeService : StripeService.t)
    (userId subscriptionId : string) (w : World) :
  (forall s, In s (subscriptions (db w)) -> Subscription.id s = subscriptionId ->
             Subscription.cancelAtPeriodEnd s = false) ->
  exists e w',
    PaymentsService.reactivateSubscription stripeService userId subscriptionId w
    = (Throw e, w')
    /\ db w' = db w
    /\ (faults w = [] ->
        e = NotFoundException "Subscription not found or not eligible for reactivation"
        /\ w' = w).
Proof.
  intros Hall.
  set (p := fun s => (Subscription.id s === subscriptionId)
                     && (Subscription.userId s === userId)
                     && Bool.eqb (Subscription.cancelAtPeriodEnd s) true).
  assert (Hnone : find p (subscriptions (db w)) = None).
  { apply find_none_of. intros s Hin. unfold p.
    destruct (String.eqb_spec (Subscription.id s) subscriptionId) as [E|]; [|reflexivity].
    rewrite (Hall s Hin E). simpl. now rewrite andb_false_r. }
  unfold PaymentsService.reactivateSubscription, bind. fold p.
  destruct (faults w) as [|[e|] fs] eqn:Hf.
  - rewrite prisma_query_no_fault by assumption. rewrite Hnone.
    eexists _, w. repeat split; reflexivity.
  - unfold prisma. rewrite Hf. eexists _, _. repeat split; try reflexivity; discriminate.
  - unfold prisma, query. rewrite Hf, Hnone. eexists _, _.
    repeat split; try reflexivity; discriminate.
Qed.

Lemma reactivate_eligible (stripeService : StripeService.t)
    (userId subscriptionId : string) (w : World) (s : Subscription.t) :
  faults w = [] ->
  (forall sid, exists u, StripeService.reactivateSubscription stripeService sid = Ok u) ->
  In s (subscriptions (db w)) ->
  Subscription.id s = subscriptionId -> Subscription.userId s = userId ->
  Subscription.cancelAtPeriodEnd s = true ->
  exists w',
    PaymentsService.reactivateSubscription stripeService userId subscriptionId w
    = (Ok true, w')
    /\ subscriptions (db w')
       = updateMany (fun r => Subscription.id r === subscriptionId)
           (fun r => Subscription.set_updatedAt (clock w)
                       (Subscription.set_cancelAt None
                          (Subscription.set_cancelAtPeriodEnd false r)))
           (subscriptions (db w)).
Proof.
  intros Hf Hstripe Hin Hid Hu Hc.
  set (p := fun s => (Subscription.id s === subscriptionId)
                     && (Subscription.userId s === userId)
                     && Bool.eqb (Subscription.cancelAtPeriodEnd s) true).
  assert (Hp : p s = true).
  { unfold p. rewrite Hc. simpl. rewrite andb_true_r, andb_true_iff, !String.eqb_eq. auto. }
  destruct (find p (subscriptions (db w))) as [found|] eqn:Hfind.
  2:{ rewrite (find_none _ _ Hfind s Hin) in Hp. discriminate. }
  destruct (Hstripe (Subscription.stripeSubscriptionId found)) as (u & Hu').
  assert (Hex : existsb (fun r => Subscription.id r === subscriptionId) (subscriptions (db w))
                = true).
  { apply existsb_exists. exists s. split; [assumption|]. now apply String.eqb_eq. }
  unfold PaymentsService.reactivateSubscription, bind. fold p.
  rewrite prisma_query_no_fault by assumption. rewrite Hfind.
  unfold await_stripe. rewrite Hu'. unfold new_Date.
  rewrite prisma_no_fault by assumption.
  unfold PaymentsService.subscription_update. rewrite update_ok by assumption.
  simpl. eexists. split; reflexivity.
Qed.

(** C8. [reactivateSubscription] on a subscription whose
    [cancelAtPeriodEnd] is false throws and leaves the database as it was
    (the exception is the NotFoundException "Subscription not found or not
    eligible for reactivation" whenever storage accepts the read); on a
    subscription of the caller whose [cancelAtPeriodEnd] is true, when the
    processor accepts the call and storage the writes, it returns success,
    the row is still there, and afterwards its [cancelAtPeriodEnd] is false
    and its [cancelAt] is null. *)
Theorem reactivateSubscription_eligibility :
  (forall stripeService userId subscriptionId w,
      (forall s, In s (subscriptions (db w)) -> Subscription.id s = subscriptionId ->
                 Subscription.cancelAtPeriodEnd s = false) ->
      exists e w',
        PaymentsService.reactivateSubscription stripeService userId subscriptionId w
        = (Throw e, w')
        /\ db w' = db w
        /\ (faults w = [] ->
            e = NotFoundException "Subscription not found or not eligible for reactivation"
            /\ w' = w))
  /\ (forall stripeService userId subscriptionId w s,
        faults w = [] ->
        (forall sid, exists u,
            StripeService.reactivateSubscription stripeService sid = Ok u) ->
        In s (subscriptions (db w)) ->
        Subscription.id s = subscriptionId -> Subscription.userId s = userId ->
        Subscription.cancelAtPeriodEnd s = true ->
        exists w',
          PaymentsService.reactivateSubscription stripeService userId subscriptionId w
          = (Ok true, w')
          /\ (exists s', In s' (subscriptions (db w'))
                         /\ Subscription.id s' = subscriptionId)
          /\ (forall s', In s' (subscriptions (db w')) ->
                         Subscription.id s' = subscriptionId ->
                         Subscription.cancelAtPeriodEnd s' = false
                         /\ Subscription.cancelAt s' = None)).
Proof.
  split.
  - intros. now apply reactivate_not_eligible.
  - intros stripeService userId subscriptionId w s Hf Hstripe Hin Hid Hu Hc.
    destruct (@reactivate_eligible stripeService userId subscriptionId w s
                Hf Hstripe Hin Hid Hu Hc)
      as (w' & Hrun & Hsubs).
    exists w'. split; [assumption|]. rewrite Hsubs. split.
    + eexists. split.
      * apply In_updateMany. exists s. split; [exact Hin|reflexivity].
      * destruct (Subscription.id s === subscriptionId); simpl; assumption.
    + intros s' Hin' Hid'. apply In_updateMany in Hin' as (r & Hr & ->).
      destruct (String.eqb_spec (Subscription.id r) subscriptionId) as [E|E].
      * split; reflexivity.
      * contradiction.
Qed.

Lemma reactivateSubscription_eligibility_witness :
  (exists e w',
      PaymentsService.reactivateSubscription Scenario.stripe_ok "usr_1" "s_1"
        (Scenario.world0 (Scenario.sub_1 false None 9000) [] 6000)
      = (Throw e, w')
      /\ db w' = db (Scenario.world0 (Scenario.sub_1 false None 9000) [] 6000)
      /\ (faults (Scenario.world0 (Scenario.sub_1 false None 9000) [] 6000) = [] ->
          e = NotFoundException "Subscription not found or not eligible for reactivation"
          /\ w' = Scenario.world0 (Scenario.sub_1 false None 9000) [] 6000))
  /\ (exists w',
        PaymentsService.reactivateSubscription Scenario.stripe_ok "usr_1" "s_1"
          (Scenario.world0 (Scenario.sub_1 true (Some 9000) 9000) [] 6000)
        = (Ok true, w')
        /\ (exists s', In s' (subscriptions (db w')) /\ Subscription.id s' = "s_1")
        /\ (forall s', In s' (subscriptions (db w')) -> Subscription.id s' = "s_1" ->
                       Subscription.cancelAtPeriodEnd s' = false
                       /\ Subscription.cancelAt s' = None)).
Proof.
  destruct reactivateSubscription_eligibility as (H1 & H2). split.
  - apply H1. simpl. intros s [<-|[]] _. reflexivity.
  - apply (H2 Scenario.stripe_ok "usr_1" "s_1" _ (Scenario.sub_1 true (Some 9000) 9000)).
    + reflexivity.
    + intros sid. eexists. reflexivity.
    + simpl. left. reflexivity.
    + reflexivity.
    + reflexivity.
    + reflexivity.
Defined.

(* ------------------------------------------------------------------ *)
(** ** The ledger *)

Lemma find_updateMany R (c : R -> bool) (f : R -> R) (rows : list R) :
  (forall r, c (f r) = c r) ->
  find c (updateMany c f rows) = option_map f (find c rows).
Proof.
  intros Hc. induction rows as [|r rows IH]; simpl; [reflexivity|].
  destruct (c r) eqn:E.
  - rewrite Hc, E. reflexivity.
  - rewrite E. assumption.
Qed.

Lemma existsb_updateMany R (c : R -> bool) (f : R -> R) (rows : list R) :
  (forall r, c (f r) = c r) ->
  existsb c (updateMany c f rows) = existsb c rows.
Proof.
  intros Hc. rewrite <- !is_some_find, find_updateMany by assumption.
  destruct (find c rows); reflexivity.
Qed.

Lemma find_app_new R (c : R -> bool) (rows : list R) (x : R) :
  existsb c rows = false -> c x = true -> find c (rows ++ [x]) = Some x.
Proof.
  intros Hn Hx. induction rows as [|r rows IH]; simpl in *.
  - now rewrite Hx.
  - apply orb_false_iff in Hn as [-> Hn]. auto.
Qed.

(** The upsert of the claim step: it stores the entry, keeps the verdict
    on the event, and writes to no other table. *)
Lemma webhookEvent_upsert_spec (event : Stripe.Event) (now : DateTime) (d : Db) :
  exists d',
    WebhookService.webhookEvent_upsert event now d = (Ok tt, d')
    /\ same_entities d d'
    /\ ledger_processed (Stripe.id event) d' = ledger_processed (Stripe.id event) d
    /\ existsb (fun r => WebhookEvent.stripeEventId r === Stripe.id event) (webhookEvents d')
       = true.
Proof.
  unfold WebhookService.webhookEvent_upsert, ledger_processed,
    WebhookService.webhookEvent_findUnique.
  destruct (existsb _ (webhookEvents d)) eqn:E.
  - eexists. split; [reflexivity|]. split; [repeat split|]. simpl.
    rewrite find_updateMany, existsb_updateMany by reflexivity. split; [|assumption].
    destruct (find _ (webhookEvents d)); reflexivity.
  - eexists. split; [reflexivity|]. split; [repeat split|]. simpl.
    rewrite (find_app_new _ _ _ E) by apply String.eqb_refl.
    rewrite <- is_some_find in E. destruct (find _ (webhookEvents d)); [discriminate|].
    split; [reflexivity|].
    rewrite existsb_app. simpl. rewrite String.eqb_refl. now rewrite orb_true_r.
Qed.

(** Marking an entry that is there. *)
Lemma webhookEvent_markProcessed_spec (stripeEventId : string) (t : DateTime) (d : Db) :
  existsb (fun r => WebhookEvent.stripeEventId r === stripeEventId) (webhookEvents d) = true ->
  exists d',
    WebhookService.webhookEvent_markProcessed stripeEventId t d = (Ok tt, d')
    /\ same_entities d d'
    /\ ledger_processed stripeEventId d' = true.
Proof.
  intros E. unfold WebhookService.webhookEvent_markProcessed.
  rewrite update_ok by assumption. eexists. split; [reflexivity|].
  split; [repeat split|].
  unfold ledger_processed, WebhookService.webhookEvent_findUnique. simpl.
  rewrite find_updateMany by reflexivity.
  rewrite <- is_some_find in E.
  destruct (find _ (webhookEvents d)); [reflexivity|discriminate].
Qed.

(** Unfolds the table operations down to their branches. *)
Ltac table_op :=
  unfold WebhookService.subscription_upsert, WebhookService.user_link_by_email,
    WebhookService.product_upsert, WebhookService.price_upsert,
    WebhookService.paymentMethod_upsert, WebhookService.paymentMethod_delete;
  unfold query, exec, update, delete;
  simpl;
  repeat match goal with
         | |- context [if ?b then _ else _] => destruct b; simpl
         end;
  try reflexivity.

(** No reconciler writes to the ledger. *)
Lemma processEvent_keeps_ledger (event : Stripe.Event) :
  keeps webhookEvents (WebhookService.processEvent event).
Proof.
  unfold WebhookService.processEvent, WebhookService.bad_shape,
    WebhookService.handleSubscriptionUpdated, WebhookService.handleSubscriptionDeleted,
    WebhookService.handleInvoicePaymentSucceeded, WebhookService.handleInvoicePaymentFailed,
    WebhookService.handleCustomerCreated, WebhookService.handleCustomerUpdated,
    WebhookService.handleProductUpdated, WebhookService.handleProductDeleted,
    WebhookService.handlePriceUpdated, WebhookService.handlePriceDeleted,
    WebhookService.handlePaymentMethodAttached, WebhookService.handlePaymentMethodDetached.
  frame; table_op.
Qed.

Lemma prisma_head_none A (op : Db -> Result A * Db) (w : World) fs :
  faults w = None :: fs ->
  prisma op w = (fst (op (db w)), set_db (snd (op (db w))) (set_faults fs w)).
Proof. intros Hf. unfold prisma. rewrite Hf. destruct (op (db w)); reflexivity. Qed.

Lemma prisma_head_some A (op : Db -> Result A * Db) (w : World) e fs :
  faults w = Some e :: fs ->
  prisma op w = (Throw (PrismaClientKnownRequestError e), set_faults fs w).
Proof. intros Hf. unfold prisma. now rewrite Hf. Qed.

(** A Prisma call that resolves has run its operation. *)
Lemma prisma_ok_inv A (op : Db -> Result A * Db) (w w' : World) (a : A) :
  prisma op w = (Ok a, w') ->
  op (db w) = (Ok a, db w') /\ log w' = log w /\ clock w' = clock w.
Proof.
  unfold prisma. destruct (faults w) as [|[e|] fs]; try discriminate;
    destruct (op (db w)) as [r d]; intros H; inversion H; subst; auto.
Qed.

Lemma markProcessed_ok_inv (stripeEventId : string) (t : DateTime) (d d' : Db) :
  WebhookService.webhookEvent_markProcessed stripeEventId t d = (Ok tt, d') ->
  ledger_processed stripeEventId d' = true.
Proof.
  intros H.
  destruct (existsb (fun r => WebhookEvent.stripeEventId r === stripeEventId)
              (webhookEvents d)) eqn:E.
  - destruct (webhookEvent_markProcessed_spec stripeEventId t d E) as (d2 & H2 & _ & Hp).
    congruence.
  - unfold WebhookService.webhookEvent_markProcessed, update in H. rewrite E in H.
    discriminate.
Qed.

(** A delivery that resolves leaves the event marked processed. *)
Lemma handleWebhookEvent_ok_processed (event : Stripe.Event) (w w' : World) :
  WebhookService.handleWebhookEvent event w = (Ok tt, w') ->
  ledger_processed (Stripe.id event) (db w') = true.
Proof.
  unfold WebhookService.handleWebhookEvent, bind.
  destruct (prisma_query_cases
              (WebhookService.webhookEvent_findUnique (Stripe.id event)) w)
    as [(e & fs & _ & ->)|(w0 & -> & Hdb0 & _)]; [discriminate|].
  fold (ledger_processed (Stripe.id event) (db w)).
  destruct (ledger_processed (Stripe.id event) (db w)) eqn:Hp.
  - unfold logger. intros H; inversion H; subst. simpl. now rewrite Hdb0.
  - destruct (prisma_at _ w0) as [[[]|e] w1]; [|discriminate].
    unfold try_catch, bind.
    destruct (WebhookService.processEvent event w1) as [[[]|e] w2].
    2:{ unfold logger, throw. discriminate. }
    unfold new_Date.
    destruct (prisma _ w2) as [[[]|e] w3] eqn:Hmark.
    2:{ unfold logger, throw. discriminate. }
    unfold logger. intros H; inversion H; subst. simpl.
    apply prisma_ok_inv in Hmark as (Hmark & _). now apply markProcessed_ok_inv in Hmark.
Qed.

Lemma handleWebhookEvent_skip (event : Stripe.Event) (w : World) :
  faults w = [] ->
  ledger_processed (Stripe.id event) (db w) = true ->
  WebhookService.handleWebhookEvent event w
  = (Ok tt, set_log (log w ++ [skip_line event]) w).
Proof.
  intros Hf Hp. unfold WebhookService.handleWebhookEvent, bind.
  rewrite prisma_query_no_fault by assumption.
  fold (ledger_processed (Stripe.id event) (db w)). rewrite Hp. reflexivity.
Qed.

(** The path of a first delivery whose reconciler resolves, on a storage
    layer that accepts every call. *)
Lemma handleWebhookEvent_fresh (event : Stripe.Event) (w : World) (d1 : Db) (w2 : World) :
  faults w = [] ->
  ledger_processed (Stripe.id event) (db w) = false ->
  WebhookService.webhookEvent_upsert event (clock w) (db w) = (Ok tt, d1) ->
  WebhookService.processEvent event (set_db d1 w) = (Ok tt, w2) ->
  faults w2 = [] ->
  exists d3,
    WebhookService.handleWebhookEvent event w
    = (Ok tt,
       set_log (log w2 ++ [(LOG, ("Successfully processed webhook event: "
                                  ++ Stripe.type event)%string)])
         (set_db d3 w2))
    /\ same_entities (db w2) d3
    /\ ledger_processed (Stripe.id event) d3 = true.
Proof.
  intros Hf Hp Hup Hproc Hf2.
  assert (Hex : existsb (fun r => WebhookEvent.stripeEventId r === Stripe.id event)
                  (webhookEvents (db w2)) = true).
  { pose proof (processEvent_keeps_ledger event (set_db d1 w)) as Hk.
    rewrite Hproc in Hk. simpl in Hk. rewrite Hk.
    destruct (webhookEvent_upsert_spec event (clock w) (db w)) as (d' & Hd' & _ & _ & Hex).
    congruence. }
  destruct (webhookEvent_markProcessed_spec (Stripe.id event) (clock w2) (db w2) Hex)
    as (d3 & Hmark & Hsame & Hp3).
  exists d3. split; [|split; assumption].
  unfold WebhookService.handleWebhookEvent, bind.
  rewrite prisma_query_no_fault by assumption.
  fold (ledger_processed (Stripe.id event) (db w)). rewrite Hp.
  unfold prisma_at. rewrite prisma_no_fault by assumption. rewrite Hup. simpl.
  unfold try_catch, bind. rewrite Hproc. unfold new_Date.
  rewrite prisma_no_fault by assumption. rewrite Hmark. reflexivity.
Qed.

(* ------------------------------------------------------------------ *)
(** ** Termination of a subscription *)

Lemma processEvent_deleted (event : Stripe.Event) (sub : Stripe.Subscription) (w : World) :
  Stripe.type event = "customer.subscription.deleted" ->
  Stripe.data_object event = Stripe.ObjSubscription sub ->
  faults w = [] ->
  WebhookService.processEvent event w
  = (Ok tt,
     set_db (set_subscriptions
               (updateMany
                  (fun s => Subscription.stripeSubscriptionId s === Stripe.sub_id sub)
                  (terminated (clock w)) (subscriptions (db w)))
               (db w)) w).
Proof.
  intros Ht Ho Hf. unfold WebhookService.processEvent. rewrite Ht, Ho. simpl.
  unfold WebhookService.handleSubscriptionDeleted, bind, new_Date.
  rewrite prisma_no_fault by assumption. reflexivity.
Qed.

(** C3. A [customer.subscription.deleted] event, not yet processed, for a
    locally known active subscription: [handleWebhookEvent] resolves; no
    subscription row is removed; the rows of that subscription have status
    CANCELED and [endedAt] set to the time of processing; and a redelivery
    of the same event, at any later time, resolves having changed nothing
    but the log, which gains the "already processed, skipping" line. *)
Theorem subscription_deleted_scenario :
  forall (event : Stripe.Event) (sub : Stripe.Subscription) (w : World) (s : Subscription.t),
    Stripe.type event = "customer.subscription.deleted" ->
    Stripe.data_object event = Stripe.ObjSubscription sub ->
    faults w = [] ->
    ledger_processed (Stripe.id event) (db w) = false ->
    In s (subscriptions (db w)) ->
    Subscription.stripeSubscriptionId s = Stripe.sub_id sub ->
    Subscription.status s = ACTIVE ->
    exists w1,
      WebhookService.handleWebhookEvent event w = (Ok tt, w1)
      /\ map Subscription.id (subscriptions (db w1))
         = map Subscription.id (subscriptions (db w))
      /\ In (terminated (clock w) s) (subscriptions (db w1))
      /\ (forall s', In s' (subscriptions (db w1)) ->
                     Subscription.stripeSubscriptionId s' = Stripe.sub_id sub ->
                     Subscription.status s' = CANCELED
                     /\ Subscription.endedAt s' = Some (clock w))
      /\ (forall later,
             WebhookService.handleWebhookEvent event (set_clock later w1)
             = (Ok tt, set_log (log w1 ++ [skip_line event]) (set_clock later w1))).
Proof.
  intros event sub w s Ht Ho Hf Hp Hin Hsid Hst.
  destruct (webhookEvent_upsert_spec event (clock w) (db w))
    as (d1 & Hup & Hsame1 & _ & _).
  pose proof (@processEvent_deleted event sub (set_db d1 w) Ht Ho Hf) as Hproc.
  destruct (@handleWebhookEvent_fresh event w d1 _ Hf Hp Hup Hproc Hf)
    as (d3 & Hrun & Hsame3 & Hp3).
  eexists. split; [exact Hrun|].
  destruct Hsame1 as (_ & _ & _ & Hs1 & _). destruct Hsame3 as (_ & _ & _ & Hs3 & _).
  simpl in *. rewrite Hs3, Hs1.
  split; [|split; [|split]].
  - unfold updateMany. rewrite map_map. apply map_ext. intros r.
    destruct (_ === _); reflexivity.
  - apply In_updateMany. exists s. split; [assumption|].
    rewrite Hsid, String.eqb_refl. reflexivity.
  - intros s' Hin' Hsid'. apply In_updateMany in Hin' as (r & Hr & ->).
    destruct (String.eqb_spec (Subscription.stripeSubscriptionId r) (Stripe.sub_id sub)).
    + split; reflexivity.
    + contradiction.
  - intros later. apply handleWebhookEvent_skip; simpl; assumption.
Qed.

Lemma subscription_deleted_scenario_witness :
  let w := Scenario.world0 (Scenario.sub_1 false None 9000) [] 6000 in
  exists w1,
    WebhookService.handleWebhookEvent Scenario.evt_1 w = (Ok tt, w1)
    /\ map Subscription.id (subscriptions (db w1)) = ["s_1"]
    /\ In (terminated 6000 (Scenario.sub_1 false None 9000)) (subscriptions (db w1))
    /\ (forall s', In s' (subscriptions (db w1)) ->
                   Subscription.stripeSubscriptionId s' = "sub_1" ->
                   Subscription.status s' = CANCELED
                   /\ Subscription.endedAt s' = Some 6000)
    /\ (forall later,
           WebhookService.handleWebhookEvent Scenario.evt_1 (set_clock later w1)
           = (Ok tt, set_log (log w1 ++ [skip_line Scenario.evt_1]) (set_clock later w1))).
Proof.
  intros w.
  apply (@subscription_deleted_scenario Scenario.evt_1 Scenario.stripe_sub_1 w
           (Scenario.sub_1 false None 9000)); try reflexivity.
  simpl. left. reflexivity.
Defined.

(* ------------------------------------------------------------------ *)
(** ** Unresolved references of a subscription upsert *)

Lemma prisma_db_cases A (op : Db -> Result A * Db) (w : World) :
  db (snd (prisma op w)) = db w \/ db (snd (prisma op w)) = snd (op (db w)).
Proof.
  unfold prisma. destruct (faults w) as [|[e|] fs]; simpl; auto;
    destruct (op (db w)); simpl; auto.
Qed.

Lemma unresolved_price (sub : Stripe.Subscription) (d : Db) (u : User.t) (pid : string) :
  unresolved sub d ->
  WebhookService.user_findUnique_stripeCustomerId (Stripe.customer sub) d = Some u ->
  WebhookService.first_price_id sub = Some pid ->
  WebhookService.price_findUnique pid d = None.
Proof.
  intros [Hu|(item & rest & Hi & Hp)] Hfound Hfirst; [congruence|].
  unfold WebhookService.first_price_id in Hfirst. rewrite Hi in Hfirst.
  destruct (truthy_string (Stripe.price_id item)); congruence.
Qed.

Lemma handleSubscriptionUpdated_unresolved_db (sub : Stripe.Subscription) (w : World) :
  unresolved sub (db w) ->
  db (snd (WebhookService.handleSubscriptionUpdated sub w)) = db w.
Proof.
  intros Hun. unfold WebhookService.handleSubscriptionUpdated, bind.
  destruct (prisma_query_cases
              (WebhookService.user_findUnique_stripeCustomerId (Stripe.customer sub)) w)
    as [(e & fs & _ & ->)|(w0 & -> & Hdb0 & _)]; [reflexivity|].
  destruct (WebhookService.user_findUnique_stripeCustomerId _ (db w)) as [u|] eqn:Hu;
    [|assumption].
  destruct (WebhookService.first_price_id sub) as [pid|] eqn:Hfirst; [|assumption].
  destruct (prisma_query_cases (WebhookService.price_findUnique pid) w0)
    as [(e & fs & _ & ->)|(w1 & -> & Hdb1 & _)]; [assumption|].
  rewrite Hdb0, (unresolved_price Hun Hu Hfirst). simpl. congruence.
Qed.

Lemma handleSubscriptionUpdated_unresolved_ok (sub : Stripe.Subscription) (w : World) :
  faults w = [] ->
  unresolved sub (db w) ->
  exists msg,
    WebhookService.handleSubscriptionUpdated sub w
    = (Ok tt, set_log (log w ++ [(ERROR, msg)]) w).
Proof.
  intros Hf Hun. unfold WebhookService.handleSubscriptionUpdated, bind.
  rewrite prisma_query_no_fault by assumption.
  destruct (WebhookService.user_findUnique_stripeCustomerId _ (db w)) as [u|] eqn:Hu;
    [|eexists; reflexivity].
  destruct (WebhookService.first_price_id sub) as [pid|] eqn:Hfirst;
    [|eexists; reflexivity].
  rewrite prisma_query_no_fault by assumption.
  rewrite (unresolved_price Hun Hu Hfirst). eexists; reflexivity.
Qed.

Lemma subscription_upsert_fk (sub : Stripe.Subscription) (u : User.t) (p : Price.t)
    (st : SubscriptionStatus) (t now : DateTime) (d : Db) :
  fk_ok d -> In u (users d) -> In p (prices d) ->
  fk_ok (snd (WebhookService.subscription_upsert sub u p st t now d)).
Proof.
  intros Hfk Hu Hp. unfold WebhookService.subscription_upsert.
  destruct (existsb _ (subscriptions d)); simpl; intros s Hin; simpl in *.
  - apply In_updateMany in Hin as (r & Hr & ->).
    destruct (_ === _); simpl; apply (Hfk r Hr).
  - apply in_app_or in Hin as [Hin|[<-|[]]]; [apply (Hfk s Hin)|].
    simpl. split; eexists; split; eauto.
Qed.

(** C5. A subscription upsert whose customer id resolves to no local user,
    or whose first line item's price id resolves to no local price:
    the reconciler leaves the whole database as it was, so it writes no
    subscription row; when storage accepts the reads it returns normally
    and the only trace is one ERROR line in the log.  And in every case the
    reconciler keeps referential integrity: if every subscription row
    pointed to a user and a price before, every one does after.  This
    reconciler is what the router runs on [customer.subscription.created]
    and [customer.subscription.updated]. *)
Theorem handleSubscriptionUpdated_unresolved :
  (forall sub w, unresolved sub (db w) ->
     db (snd (WebhookService.handleSubscriptionUpdated sub w)) = db w)
  /\ (forall sub w, faults w = [] -> unresolved sub (db w) ->
        exists msg,
          WebhookService.handleSubscriptionUpdated sub w
          = (Ok tt, set_log (log w ++ [(ERROR, msg)]) w))
  /\ (forall sub w, fk_ok (db w) ->
        fk_ok (db (snd (WebhookService.handleSubscriptionUpdated sub w))))
  /\ (forall event sub,
        Stripe.type event = "customer.subscription.created"
        \/ Stripe.type event = "customer.subscription.updated" ->
        Stripe.data_object event = Stripe.ObjSubscription sub ->
        WebhookService.processEvent event = WebhookService.handleSubscriptionUpdated sub).
Proof.
  split; [|split; [|split]].
  4:{ intros event sub Ht Ho. unfold WebhookService.processEvent.
      rewrite Ho. destruct Ht as [-> | ->]; reflexivity. }
  - intros. now apply handleSubscriptionUpdated_unresolved_db.
  - intros. now apply handleSubscriptionUpdated_unresolved_ok.
  - intros sub w Hfk. unfold WebhookService.handleSubscriptionUpdated, bind.
    destruct (prisma_query_cases
                (WebhookService.user_findUnique_stripeCustomerId (Stripe.customer sub)) w)
      as [(e & fs & _ & ->)|(w0 & -> & Hdb0 & _)]; [assumption|].
    assert (Hfk0 : fk_ok (db w0)) by now rewrite Hdb0.
    destruct (WebhookService.user_findUnique_stripeCustomerId _ (db w)) as [u|] eqn:Hu;
      [|assumption].
    destruct (WebhookService.first_price_id sub) as [pid|] eqn:Hfirst; [|assumption].
    destruct (prisma_query_cases (WebhookService.price_findUnique pid) w0)
      as [(e & fs & _ & ->)|(w1 & -> & Hdb1 & _)]; [assumption|].
    destruct (WebhookService.price_findUnique pid (db w0)) as [p|] eqn:Hp;
      [|simpl; now rewrite Hdb1].
    unfold new_Date, prisma_at.
    assert (Hfk1 : fk_ok (db w1)) by now rewrite Hdb1.
    apply find_some in Hu as (Hu & _). rewrite Hdb0 in Hp. apply find_some in Hp as (Hp & _).
    rewrite <- Hdb0, <- Hdb1 in Hu, Hp.
    match goal with
    | |- fk_ok (db (snd (prisma ?op w1))) =>
        destruct (prisma_db_cases op w1) as [->| ->]; [assumption|]
    end.
    apply subscription_upsert_fk; assumption.
Qed.

Lemma handleSubscriptionUpdated_unresolved_witness :
  let w := Scenario.world0 (Scenario.sub_1 false None 9000) [] 6000 in
  let unknown_customer :=
    Stripe.Build_Subscription "sub_9" "cus_404" [Stripe.Build_SubscriptionItem "price_1"]
      "active" false None None 2 9000 None None None [] in
  let unknown_price :=
    Stripe.Build_Subscription "sub_9" "cus_1" [Stripe.Build_SubscriptionItem "price_404"]
      "active" false None None 2 9000 None None None [] in
  db (snd (WebhookService.handleSubscriptionUpdated unknown_customer w)) = db w
  /\ (exists msg,
        WebhookService.handleSubscriptionUpdated unknown_price w
        = (Ok tt, set_log (log w ++ [(ERROR, msg)]) w))
  /\ fk_ok (db (snd (WebhookService.handleSubscriptionUpdated Scenario.stripe_sub_1 w)))
  /\ WebhookService.processEvent
       (Stripe.Build_Event "evt_3" "customer.subscription.updated"
          (Stripe.ObjSubscription unknown_price))
     = WebhookService.handleSubscriptionUpdated unknown_price.
Proof.
  intros w unknown_customer unknown_price.
  destruct handleSubscriptionUpdated_unresolved as (H1 & H2 & H3 & H4).
  split; [|split; [|split]].
  4:{ apply H4; [right|]; reflexivity. }
  - apply H1. left. reflexivity.
  - apply H2; [reflexivity|]. right. eexists _, _. split; reflexivity.
  - apply H3. intros s [<-|[]]. split.
    + exists Scenario.alice. split; [left|]; reflexivity.
    + exists Scenario.monthly. split; [left|]; reflexivity.
Defined.

(* ------------------------------------------------------------------ *)
(** ** Detached payment methods *)

Lemma handlePaymentMethodDetached_resolves (pm : Stripe.PaymentMethod) (w : World) :
  exists w', WebhookService.handlePaymentMethodDetached pm w = (Ok tt, w').
Proof.
  unfold WebhookService.handlePaymentMethodDetached, try_catch.
  destruct (prisma _ w) as [[[]|e] w']; eexists; reflexivity.
Qed.

Lemma processEvent_detached (event : Stripe.Event) (pm : Stripe.PaymentMethod) (w : World) :
  Stripe.type event = "payment_method.detached" ->
  Stripe.data_object event = Stripe.ObjPaymentMethod pm ->
  WebhookService.processEvent event w = WebhookService.handlePaymentMethodDetached pm w.
Proof.
  intros Ht Ho. unfold WebhookService.processEvent. rewrite Ht, Ho. reflexivity.
Qed.

(** C10. [handlePaymentMethodDetached] resolves in every world, so whatever
    the delete was rejected with; hence the router resolves on every
    [payment_method.detached] event.  In particular, when storage accepts
    the ledger calls of a first delivery and rejects the delete with any
    error [e], the delivery resolves, the event is marked processed, and
    the payment-method table is what it was. *)
Theorem handlePaymentMethodDetached_never_raises :
  (forall pm w, exists w', WebhookService.handlePaymentMethodDetached pm w = (Ok tt, w'))
  /\ (forall event pm w,
        Stripe.type event = "payment_method.detached" ->
        Stripe.data_object event = Stripe.ObjPaymentMethod pm ->
        exists w', WebhookService.processEvent event w = (Ok tt, w'))
  /\ (forall event pm w e,
        Stripe.type event = "payment_method.detached" ->
        Stripe.data_object event = Stripe.ObjPaymentMethod pm ->
        ledger_processed (Stripe.id event) (db w) = false ->
        faults w = [None; None; Some e; None] ->
        exists w',
          WebhookService.handleWebhookEvent event w = (Ok tt, w')
          /\ ledger_processed (Stripe.id event) (db w') = true
          /\ paymentMethods (db w') = paymentMethods (db w)).
Proof.
  split; [|split].
  - apply handlePaymentMethodDetached_resolves.
  - intros event pm w Ht Ho. rewrite (processEvent_detached _ _ Ht Ho).
    apply handlePaymentMethodDetached_resolves.
  - intros event pm w e Ht Ho Hp Hf.
    destruct (webhookEvent_upsert_spec event (clock w) (db w))
      as (d1 & Hup & Hsame1 & _ & Hex).
    destruct (webhookEvent_markProcessed_spec (Stripe.id event) (clock w) d1 Hex)
      as (d3 & Hmark & Hsame3 & Hp3).
    unfold WebhookService.handleWebhookEvent, bind.
    rewrite (prisma_head_none _ _ Hf). simpl.
    fold (ledger_processed (Stripe.id event) (db w)). rewrite Hp.
    unfold prisma_at.
    erewrite prisma_head_none by reflexivity. simpl. rewrite Hup. simpl.
    unfold try_catch, bind. rewrite (processEvent_detached _ _ Ht Ho).
    unfold WebhookService.handlePaymentMethodDetached, try_catch.
    erewrite prisma_head_some by reflexivity. unfold ret, new_Date.
    erewrite prisma_head_none by reflexivity. simpl. rewrite Hmark. simpl.
    eexists. split; [reflexivity|]. simpl. split; [assumption|].
    destruct Hsame1 as (_ & _ & _ & _ & H1). destruct Hsame3 as (_ & _ & _ & _ & H3).
    congruence.
Qed.

Lemma handlePaymentMethodDetached_never_raises_witness :
  let event :=
    Stripe.Build_Event "evt_2" "payment_method.detached"
      (Stripe.ObjPaymentMethod (Stripe.Build_PaymentMethod "pm_1" (Some "cus_1") "card" None)) in
  let w := Scenario.world0 (Scenario.sub_1 false None 9000)
             [None; None; Some P1001; None] 6000 in
  (exists w', WebhookService.processEvent event w = (Ok tt, w'))
  /\ (exists w',
        WebhookService.handleWebhookEvent event w = (Ok tt, w')
        /\ ledger_processed "evt_2" (db w') = true
        /\ paymentMethods (db w') = [Scenario.card_1]).
Proof.
  intros event w.
  destruct handlePaymentMethodDetached_never_raises as (_ & H2 & H3). split.
  - eapply H2; reflexivity.
  - eapply (H3 event _ w P1001); reflexivity.
Defined.

(* ------------------------------------------------------------------ *)
(** ** A reconciler that raises *)

Lemma findUnique_same_ledger (stripeEventId : string) (d d' : Db) :
  webhookEvents d' = webhookEvents d ->
  WebhookService.webhookEvent_findUnique stripeEventId d'
  = WebhookService.webhookEvent_findUnique stripeEventId d.
Proof. intros H. unfold WebhookService.webhookEvent_findUnique. now rewrite H. Qed.

(** After the claim step the entry is there and not processed. *)
Lemma claimed_entry (event : Stripe.Event) (w w1 : World) :
  claimed event w w1 ->
  exists r, WebhookService.webhookEvent_findUnique (Stripe.id event) (db w1) = Some r
            /\ WebhookEvent.processed r = false.
Proof.
  intros (existing & w0 & Hread & Hnp & Hstore).
  apply prisma_ok_inv in Hread as (Hread & _). unfold query in Hread.
  inversion Hread as [[Hex Hdb0]].
  unfold prisma_at in Hstore. apply prisma_ok_inv in Hstore as (Hstore & _).
  destruct (webhookEvent_upsert_spec event (clock w0) (db w0))
    as (d1 & Hup & _ & Hkeep & Hthere).
  rewrite Hup in Hstore. inversion Hstore; subst d1.
  unfold ledger_processed in Hkeep. rewrite <- Hdb0, Hex, Hnp in Hkeep.
  rewrite <- is_some_find in Hthere.
  fold (WebhookService.webhookEvent_findUnique (Stripe.id event) (db w1)) in Hthere.
  destruct (WebhookService.webhookEvent_findUnique (Stripe.id event) (db w1)) as [r|];
    [|discriminate].
  exists r. split; [reflexivity|assumption].
Qed.

Lemma handleWebhookEvent_reconciler_raises (event : Stripe.Event) (w w1 w2 : World) (e : Exn) :
  claimed event w w1 ->
  WebhookService.processEvent event w1 = (Throw e, w2) ->
  WebhookService.handleWebhookEvent event w
  = (Throw e,
     set_log (log w2 ++ [(ERROR, ("Failed to process webhook event "
                                  ++ Stripe.id event ++ ":")%string)]) w2)
  /\ exists r, WebhookService.webhookEvent_findUnique (Stripe.id event) (db w2) = Some r
               /\ WebhookEvent.processed r = false.
Proof.
  intros Hclaim Hproc. split.
  - destruct Hclaim as (existing & w0 & Hread & Hnp & Hstore).
    unfold WebhookService.handleWebhookEvent, bind. rewrite Hread, Hnp, Hstore.
    unfold try_catch. rewrite Hproc. reflexivity.
  - destruct (claimed_entry Hclaim) as (r & Hr & Hnp). exists r. split; [|assumption].
    rewrite <- Hr. apply findUnique_same_ledger.
    pose proof (processEvent_keeps_ledger event w1) as Hk. now rewrite Hproc in Hk.
Qed.

Lemma handleWebhook_ok_inv (stripeService : StripeService.t)
    (rawBody signature : option string) (w w' : World) (ack : PaymentsController.Ack) :
  PaymentsController.handleWebhook stripeService rawBody signature w = (Ok ack, w') ->
  exists payload event,
    rawBody = Some payload
    /\ StripeService.constructWebhookEvent stripeService payload (js_string signature)
       = Ok event
    /\ WebhookService.handleWebhookEvent event w = (Ok tt, w')
    /\ ack = PaymentsController.Build_Ack true.
Proof.
  unfold PaymentsController.handleWebhook.
  destruct (negb (truthy_opt_string signature)); [discriminate|].
  unfold try_catch. destruct rawBody as [payload|]; [|discriminate].
  unfold bind, await_stripe.
  destruct (StripeService.constructWebhookEvent _ _ _) as [event|e] eqn:Hev; [|discriminate].
  destruct (WebhookService.handleWebhookEvent event w) as [[[]|e] w1] eqn:Hrun;
    [|discriminate].
  unfold ret. intros H; inversion H; subst. exists payload, event. repeat split; assumption.
Qed.

(** C6. When the claim step of a delivery has gone through and the
    reconciler then raises [e], [handleWebhookEvent] rethrows [e] and the
    ledger entry of the event is there with [processed = false]; the
    endpoint turns an exception of [handleWebhookEvent] into a
    BadRequestException, status 400; and the endpoint answers 200 with
    [received: true] only when [handleWebhookEvent] has resolved, at which
    point the ledger holds the event as processed. *)
Theorem reconciler_failure_is_not_acknowledged :
  (forall event w w1 w2 e,
      claimed event w w1 ->
      WebhookService.processEvent event w1 = (Throw e, w2) ->
      exists w',
        WebhookService.handleWebhookEvent event w = (Throw e, w')
        /\ db w' = db w2
        /\ exists r, WebhookService.webhookEvent_findUnique (Stripe.id event) (db w') = Some r
                     /\ WebhookEvent.processed r = false)
  /\ (forall stripeService payload signature event w e w',
        truthy_string signature = true ->
        StripeService.constructWebhookEvent stripeService payload signature = Ok event ->
        WebhookService.handleWebhookEvent event w = (Throw e, w') ->
        exists w'',
          PaymentsController.handleWebhook stripeService (Some payload) (Some signature) w
          = (Throw (BadRequestException (exn_message e)), w'')
          /\ db w'' = db w'
          /\ PaymentsController.statusCode
               (fst (PaymentsController.handleWebhook stripeService
                       (Some payload) (Some signature) w)) = 400%nat)
  /\ (forall stripeService rawBody signature w ack w',
        PaymentsController.handleWebhook stripeService rawBody signature w = (Ok ack, w') ->
        PaymentsController.received ack = true
        /\ PaymentsController.statusCode (Ok ack) = 200%nat
        /\ exists payload event,
             rawBody = Some payload
             /\ StripeService.constructWebhookEvent stripeService payload
                  (js_string signature) = Ok event
             /\ WebhookService.handleWebhookEvent event w = (Ok tt, w')
             /\ ledger_processed (Stripe.id event) (db w') = true).
Proof.
  split; [|split].
  - intros event w w1 w2 e Hclaim Hproc.
    destruct (handleWebhookEvent_reconciler_raises Hclaim Hproc) as (Hrun & Hentry).
    eexists. split; [exact Hrun|]. split; [reflexivity|exact Hentry].
  - intros stripeService payload signature event w e w' Hsig Hev Hrun.
    unfold PaymentsController.handleWebhook. simpl. rewrite Hsig. simpl.
    unfold try_catch, bind, await_stripe. rewrite Hev, Hrun. simpl.
    eexists. repeat split.
  - intros stripeService rawBody signature w ack w' Hrun.
    apply handleWebhook_ok_inv in Hrun as (payload & event & -> & Hev & Hrun & ->).
    repeat split. exists payload, event. repeat split; try assumption.
    now apply handleWebhookEvent_ok_processed in Hrun.
Qed.

Lemma reconciler_failure_is_not_acknowledged_witness :
  let w := Scenario.world0 (Scenario.sub_1 false None 9000) [None; None; Some P1001] 6000 in
  (exists w',
      WebhookService.handleWebhookEvent Scenario.evt_1 w
      = (Throw (PrismaClientKnownRequestError P1001), w')
      /\ exists r, WebhookService.webhookEvent_findUnique "evt_1" (db w') = Some r
                   /\ WebhookEvent.processed r = false)
  /\ PaymentsController.statusCode
       (fst (PaymentsController.handleWebhook Scenario.stripe_ok
               (Some "{}") (Some "t=1,v1=5257a8") w)) = 400%nat.
Proof.
  intros w. destruct reconciler_failure_is_not_acknowledged as (H1 & H2 & _).
  assert (Hsteps : exists w1 w2,
             claimed Scenario.evt_1 w w1
             /\ WebhookService.processEvent Scenario.evt_1 w1
                = (Throw (PrismaClientKnownRequestError P1001), w2)).
  { eexists _, _. split.
    - eexists _, _. split; [reflexivity|]. split; reflexivity.
    - reflexivity. }
  destruct Hsteps as (w1 & w2 & Hclaim & Hproc).
  destruct (H1 _ _ _ _ _ Hclaim Hproc) as (w' & Hrun & _ & Hentry).
  split.
  - exists w'. split; [exact Hrun|exact Hentry].
  - destruct (H2 Scenario.stripe_ok "{}" "t=1,v1=5257a8" Scenario.evt_1 w _ w'
                eq_refl eq_refl Hrun) as (w'' & _ & _ & Hstatus).
    exact Hstatus.
Defined.

(* ------------------------------------------------------------------ *)
(** ** Local actions that end in an error *)

Lemma bind_throw_inv A B (m : M A) (k : A -> M B) (w w' : World) (e : Exn) :
  bind m k w = (Throw e, w') ->
  m w = (Throw e, w') \/ exists a w1, m w = (Ok a, w1) /\ k a w1 = (Throw e, w').
Proof.
  unfold bind. destruct (m w) as [[a|e0] w1]; intros H.
  - right. eauto.
  - left. inversion H; subst. reflexivity.
Qed.

Lemma keeps_all_inv A (m : M A) (w w' : World) (r : Result A) :
  keeps (fun d => d) m -> m w = (r, w') -> db w' = db w.
Proof. intros Hk H. specialize (Hk w). now rewrite H in Hk. Qed.

Lemma throws_clean_throw A (e : Exn) : throws_clean (@throw A e).
Proof. intros w e' w' H. inversion H. reflexivity. Qed.

Lemma throws_clean_await A (r : Result A) : throws_clean (await_stripe r).
Proof. intros w e' w' H. inversion H. reflexivity. Qed.

(** A read-only prefix followed by a clean continuation. *)
Lemma throws_clean_bind A B (m : M A) (k : A -> M B) :
  keeps (fun d => d) m -> (forall a, throws_clean (k a)) -> throws_clean (bind m k).
Proof.
  intros Hm Hk w e w' H. apply bind_throw_inv in H as [H|(a & w1 & H1 & H2)].
  - eapply keeps_all_inv; eassumption.
  - rewrite (Hk a _ _ _ H2). eapply keeps_all_inv; eassumption.
Qed.

(** A Prisma call that is rejected has written nothing, provided its
    operation writes nothing when it fails. *)
Lemma prisma_throw_db A (op : Db -> Result A * Db) (w w' : World) (e : Exn) :
  (forall d, match op d with (Throw _, d') => d' = d | _ => True end) ->
  prisma op w = (Throw e, w') -> db w' = db w.
Proof.
  intros Hop. unfold prisma. specialize (Hop (db w)).
  destruct (faults w) as [|[c|] fs]; destruct (op (db w)) as [[a|e0] d'];
    intros H; inversion H; subst; simpl; auto.
Qed.

Lemma subscription_update_atomic (subscriptionId : string)
    (data : Subscription.t -> Subscription.t) (d : Db) :
  match PaymentsService.subscription_update subscriptionId data d with
  | (Throw _, d') => d' = d
  | _ => True
  end.
Proof.
  unfold PaymentsService.subscription_update, update.
  destruct (existsb _ _); [exact I|]. destruct d; reflexivity.
Qed.

(** The last step of cancel, reactivate and change: one update, then the
    returned value. *)
Lemma throws_clean_final_update A (subscriptionId : string)
    (data : Subscription.t -> Subscription.t) (v : A) :
  throws_clean (prisma (PaymentsService.subscription_update subscriptionId data) ;;; ret v).
Proof.
  intros w e w' H. apply bind_throw_inv in H as [H|(a & w1 & _ & H)].
  - eapply prisma_throw_db; [|exact H]. intros d. apply subscription_update_atomic.
  - inversion H.
Qed.

(** Splits an action along its read-only binds and its branches. *)
Ltac clean :=
  repeat first
    [ apply throws_clean_throw
    | apply throws_clean_await
    | apply throws_clean_final_update
    | apply throws_clean_bind; [solve [frame; table_op]|intros ?]
    | match goal with
      | |- throws_clean (match ?x with _ => _ end) => destruct x
      end ].

Lemma createPortalSession_clean stripeService appUrl userId :
  throws_clean (PaymentsService.createPortalSession stripeService appUrl userId).
Proof. unfold PaymentsService.createPortalSession. clean. Qed.

Lemma cancelSubscription_clean stripeService userId subscriptionId immediate :
  throws_clean (PaymentsService.cancelSubscription stripeService userId subscriptionId immediate).
Proof. unfold PaymentsService.cancelSubscription. clean. Qed.

Lemma reactivateSubscription_clean stripeService userId subscriptionId :
  throws_clean (PaymentsService.reactivateSubscription stripeService userId subscriptionId).
Proof. unfold PaymentsService.reactivateSubscription. clean. Qed.

Lemma changeSubscription_clean stripeService userId subscriptionId newPriceId :
  throws_clean (PaymentsService.changeSubscription stripeService userId subscriptionId newPriceId).
Proof. unfold PaymentsService.changeSubscription. clean. Qed.

Lemma user_update_stripeCustomerId_cases (userId customerId : string) (now : DateTime) (d : Db) :
  match PaymentsService.user_update_stripeCustomerId userId customerId now d with
  | (Throw _, d') => d' = d
  | (Ok _, d') => d' = linked userId customerId now d
  end.
Proof.
  unfold PaymentsService.user_update_stripeCustomerId.
  destruct (negb _); [reflexivity|]. destruct (existsb _ _); reflexivity.
Qed.

Lemma createCheckoutSession_on_error (stripeService : StripeService.t)
    (userId : string) (dto : CreateCheckoutSessionDto) (w w' : World) (e : Exn) :
  PaymentsService.createCheckoutSession stripeService userId dto w = (Throw e, w') ->
  db w' = db w
  \/ exists user customerId,
       PaymentsService.user_findUnique userId (db w) = Some user
       /\ truthy_opt_string (User.stripeCustomerId user) = false
       /\ db w' = linked userId customerId (clock w) (db w).
Proof.
  unfold PaymentsService.createCheckoutSession. intros H.
  apply bind_throw_inv in H as [H|(user & w0 & H0 & H)].
  { left. eapply keeps_all_inv; [|exact H]. frame; table_op. }
  apply prisma_ok_inv in H0 as (Hq & _ & Hclock). unfold query in Hq.
  inversion Hq as [[Huser Hdb0]]. clear Hq.
  destruct user as [user|]; [|left; inversion H; subst; auto].
  apply bind_throw_inv in H as [H|(cid & w2 & H2 & H)].
  - left. rewrite Hdb0.
    destruct (truthy_opt_string (User.stripeCustomerId user)); [inversion H|].
    apply bind_throw_inv in H as [H|(customer & w1 & H1 & H)].
    + inversion H; subst. reflexivity.
    + inversion H1; subst w1. clear H1.
      apply bind_throw_inv in H as [H|(u & w3 & _ & H)]; [|inversion H].
      unfold prisma_at in H. eapply prisma_throw_db; [|exact H].
      intros d. pose proof (user_update_stripeCustomerId_cases userId (Stripe.cus_id customer)
                              (clock w0) d) as Hc.
      destruct (PaymentsService.user_update_stripeCustomerId _ _ _ d) as [[|] ?]; auto.
  - assert (Hrest : db w' = db w2).
    { match type of H with
      | ?m w2 = _ => assert (Hk : keeps (fun d => d) m) by (frame; table_op)
      end.
      eapply keeps_all_inv; eassumption. }
    rewrite Hrest.
    destruct (truthy_opt_string (User.stripeCustomerId user)) eqn:Htruthy.
    + left. inversion H2; subst. auto.
    + unfold bind, await_stripe in H2.
      destruct (StripeService.createCustomer _ _ _) as [customer|e0]; [|discriminate].
      destruct (prisma_at _ w0) as [[[]|e0] w3] eqn:Hup; [|discriminate].
      inversion H2; subst w3 cid. clear H2.
      unfold prisma_at in Hup. apply prisma_ok_inv in Hup as (Hup & _).
      pose proof (user_update_stripeCustomerId_cases userId (Stripe.cus_id customer)
                    (clock w0) (db w0)) as Hc.
      rewrite Hup in Hc.
      right. exists user, (Stripe.cus_id customer). rewrite <- Hclock, Hdb0.
      rewrite Hdb0 in Huser. auto.
Qed.

(** C2 (amended). [createPortalSession], [cancelSubscription],
    [reactivateSubscription] and [changeSubscription] that end in an error
    leave the database exactly as it was.  [createCheckoutSession] that
    ends in an error leaves the database as it was, or as it was but for
    the link of the user to a newly created customer of the processor,
    which happens only for a user who had no such link. *)
Theorem local_actions_on_error :
  (forall stripeService appUrl userId,
      throws_clean (PaymentsService.createPortalSession stripeService appUrl userId))
  /\ (forall stripeService userId subscriptionId immediate,
        throws_clean (PaymentsService.cancelSubscription stripeService
                        userId subscriptionId immediate))
  /\ (forall stripeService userId subscriptionId,
        throws_clean (PaymentsService.reactivateSubscription stripeService
                        userId subscriptionId))
  /\ (forall stripeService userId subscriptionId newPriceId,
        throws_clean (PaymentsService.changeSubscription stripeService
                        userId subscriptionId newPriceId))
  /\ (forall stripeService userId dto w e w',
        PaymentsService.createCheckoutSession stripeService userId dto w = (Throw e, w') ->
        db w' = db w
        \/ exists user customerId,
             PaymentsService.user_findUnique userId (db w) = Some user
             /\ truthy_opt_string (User.stripeCustomerId user) = false
             /\ db w' = linked userId customerId (clock w) (db w)).
Proof.
  split; [|split; [|split; [|split]]].
  - intros. apply createPortalSession_clean.
  - intros. apply cancelSubscription_clean.
  - intros. apply reactivateSubscription_clean.
  - intros. apply changeSubscription_clean.
  - intros. eapply createCheckoutSession_on_error; eassumption.
Qed.

Lemma local_actions_on_error_witness :
  let w := Scenario.world0 (Scenario.sub_1 false None 9000) [] 6000 in
  let dto := Build_CreateCheckoutSessionDto "price_404" "https://app/ok" "https://app/no"
               None None in
  (forall e w',
      PaymentsService.cancelSubscription Scenario.stripe_ok "usr_2" "s_1" false w
      = (Throw e, w') -> db w' = db w)
  /\ (exists e w',
        PaymentsService.createCheckoutSession Scenario.stripe_ok "usr_2" dto w = (Throw e, w')
        /\ (db w' = db w
            \/ exists user customerId,
                 PaymentsService.user_findUnique "usr_2" (db w) = Some user
                 /\ truthy_opt_string (User.stripeCustomerId user) = false
                 /\ db w' = linked "usr_2" customerId (clock w) (db w))).
Proof.
  intros w dto. destruct local_actions_on_error as (_ & H2 & _ & _ & H5). split.
  - intros e w'. apply H2.
  - destruct (PaymentsService.createCheckoutSession Scenario.stripe_ok "usr_2" dto w)
      as [[session|e] w'] eqn:Hrun.
    + vm_compute in Hrun. discriminate Hrun.
    + exists e, w'. split; [reflexivity|]. apply (H5 _ _ _ _ _ _ Hrun).
Defined.

(** C2, as stated, fails: a checkout for a user without a customer link
    and with an unknown price ends in "Invalid or inactive price" after the
    link has been written. *)
Lemma createCheckoutSession_partial_write :
  ~ (forall stripeService userId dto w e w',
        PaymentsService.createCheckoutSession stripeService userId dto w = (Throw e, w') ->
        db w' = db w).
Proof.
  intros H.
  specialize (H Scenario.stripe_ok "usr_2"
                (Build_CreateCheckoutSessionDto "price_404" "https://app/ok" "https://app/no"
                   None None)
                (Scenario.world0 (Scenario.sub_1 false None 9000) [] 6000)
                (BadRequestException "Invalid or inactive price")
                (set_db (linked "usr_2" "cus_new" 6000
                           (db (Scenario.world0 (Scenario.sub_1 false None 9000) [] 6000)))
                   (Scenario.world0 (Scenario.sub_1 false None 9000) [] 6000))
                eq_refl).
  discriminate H.
Qed.

(* ------------------------------------------------------------------ *)
(** ** The claim step under concurrent deliveries *)

(** The stretches of the machine, run one after the other, are
    [handleWebhookEvent]. *)
Lemma run_alone_handleWebhookEvent (event : Stripe.Event) (w : World) :
  Concurrent.run_alone event w
  = (Concurrent.Finished (fst (WebhookService.handleWebhookEvent event w)),
     snd (WebhookService.handleWebhookEvent event w)).
Proof.
  unfold Concurrent.run_alone, WebhookService.handleWebhookEvent, bind. simpl.
  destruct (prisma (query _) w) as [[existing|e] w0]; [|reflexivity].
  destruct (WebhookService.isProcessed existing); [reflexivity|]. simpl.
  destruct (prisma_at _ w0) as [[[]|e] w1]; [|reflexivity]. simpl.
  unfold try_catch, bind.
  destruct (WebhookService.processEvent event w1) as [[[]|e] w2]; [|reflexivity]. simpl.
  unfold bind, new_Date.
  destruct (prisma _ w2) as [[[]|e] w3]; reflexivity.
Qed.

(** The first stretch only reads. *)
Lemma step_AtCheck_db (event : Stripe.Event) (w : World) :
  db (snd (Concurrent.step event Concurrent.AtCheck w)) = db w.
Proof.
  simpl.
  destruct (prisma_query_cases
              (WebhookService.webhookEvent_findUnique (Stripe.id event)) w)
    as [(e & fs & _ & ->)|(w0 & -> & Hdb0 & _)]; [reflexivity|].
  destruct (WebhookService.isProcessed _); assumption.
Qed.

(** On a ledger that holds the event as processed, a delivery at its
    start goes straight to its end. *)
Lemma step_AtCheck_processed (event : Stripe.Event) (w : World) :
  ledger_processed (Stripe.id event) (db w) = true ->
  exists r, fst (Concurrent.step event Concurrent.AtCheck w) = Concurrent.Finished r.
Proof.
  intros Hp. simpl.
  destruct (prisma_query_cases
              (WebhookService.webhookEvent_findUnique (Stripe.id event)) w)
    as [(e & fs & _ & ->)|(w0 & -> & Hdb0 & _)]; [eexists; reflexivity|].
  fold (ledger_processed (Stripe.id event) (db w)). rewrite Hp. eexists; reflexivity.
Qed.

Lemma run_cons (i : nat) (schedule : list nat) (s : Concurrent.System) :
  Concurrent.run (i :: schedule) s = Concurrent.run schedule (Concurrent.schedule_step s i).
Proof. reflexivity. Qed.

(** One scheduling step of a late delivery. *)
Lemma late_delivery_step (event : Stripe.Event) (w : World) (pc : Concurrent.Pc)
    (rec : list string) (i : nat) :
  ledger_processed (Stripe.id event) (db w) = true ->
  pc = Concurrent.AtCheck \/ (exists r, pc = Concurrent.Finished r) ->
  exists w' pc',
    Concurrent.schedule_step
      (Concurrent.Build_System w [Concurrent.Build_Delivery event pc] rec) i
    = Concurrent.Build_System w' [Concurrent.Build_Delivery event pc'] rec
    /\ db w' = db w
    /\ (pc' = Concurrent.AtCheck \/ (exists r, pc' = Concurrent.Finished r)).
Proof.
  intros Hp Hpc. destruct i as [|i].
  - unfold Concurrent.schedule_step. cbn [nth_error Concurrent.deliveries
      Concurrent.event Concurrent.pc Concurrent.world Concurrent.reconciled Concurrent.set_nth].
    destruct Hpc as [->|(r & ->)].
    + destruct (step_AtCheck_processed event w Hp) as (r & Hr).
      pose proof (step_AtCheck_db event w) as Hdb.
      destruct (Concurrent.step event Concurrent.AtCheck w) as [pc' w'].
      cbn [fst snd] in Hr, Hdb. subst pc'.
      exists w', (Concurrent.Finished r). cbn [Concurrent.is_AtProcess]. eauto.
    + cbn [Concurrent.step Concurrent.is_AtProcess].
      exists w, (Concurrent.Finished r). eauto.
  - exists w, pc. unfold Concurrent.schedule_step.
    cbn [nth_error Concurrent.deliveries]. destruct i; cbn [nth_error]; auto.
Qed.

Lemma late_delivery_skips (event : Stripe.Event) (schedule : list nat) :
  forall (w : World) (pc : Concurrent.Pc) (rec : list string),
    ledger_processed (Stripe.id event) (db w) = true ->
    pc = Concurrent.AtCheck \/ (exists r, pc = Concurrent.Finished r) ->
    Concurrent.reconciled
      (Concurrent.run schedule
         (Concurrent.Build_System w [Concurrent.Build_Delivery event pc] rec)) = rec
    /\ db (Concurrent.world
             (Concurrent.run schedule
                (Concurrent.Build_System w [Concurrent.Build_Delivery event pc] rec)))
       = db w.
Proof.
  induction schedule as [|i schedule IH]; intros w pc rec Hp Hpc; [split; reflexivity|].
  rewrite run_cons.
  destruct (late_delivery_step event w rec i Hp Hpc) as (w' & pc' & -> & Hdb & Hpc').
  rewrite <- Hdb in *. now apply IH.
Qed.

(** *** The processed flag under other deliveries *)

Lemma isProcessed_find_map (c : WebhookEvent.t -> bool) (g : WebhookEvent.t -> WebhookEvent.t)
    (rows : list WebhookEvent.t) :
  (forall r, c (g r) = c r) ->
  (forall r, WebhookEvent.processed r = true -> WebhookEvent.processed (g r) = true) ->
  WebhookService.isProcessed (find c rows) = true ->
  WebhookService.isProcessed (find c (map g rows)) = true.
Proof.
  intros Hc Hg. induction rows as [|r rows IH]; simpl; [auto|].
  rewrite Hc. destruct (c r); simpl; auto.
Qed.

Lemma isProcessed_find_app (c : WebhookEvent.t -> bool) (rows extra : list WebhookEvent.t) :
  WebhookService.isProcessed (find c rows) = true ->
  WebhookService.isProcessed (find c (rows ++ extra)) = true.
Proof.
  induction rows as [|r rows IH]; simpl; [discriminate|]. destruct (c r); auto.
Qed.

(** The upsert of any delivery keeps a set flag: [update] does not name
    [processed], and [create] only runs when the id has no entry. *)
Lemma webhookEvent_upsert_keeps_processed (stripeEventId : string) (event : Stripe.Event)
    (now : DateTime) (d : Db) :
  ledger_processed stripeEventId d = true ->
  ledger_processed stripeEventId (snd (WebhookService.webhookEvent_upsert event now d)) = true.
Proof.
  unfold ledger_processed, WebhookService.webhookEvent_findUnique,
    WebhookService.webhookEvent_upsert. cbv zeta. intros H.
  destruct (existsb _ (webhookEvents d)); simpl.
  - unfold updateMany. apply isProcessed_find_map; [| |exact H].
    + intros r. destruct (_ === Stripe.id event); reflexivity.
    + intros r Hr. destruct (_ === Stripe.id event); [simpl|]; exact Hr.
  - now apply isProcessed_find_app.
Qed.

Lemma webhookEvent_markProcessed_keeps_processed (stripeEventId marked : string)
    (t : DateTime) (d : Db) :
  ledger_processed stripeEventId d = true ->
  ledger_processed stripeEventId
    (snd (WebhookService.webhookEvent_markProcessed marked t d)) = true.
Proof.
  unfold ledger_processed, WebhookService.webhookEvent_findUnique,
    WebhookService.webhookEvent_markProcessed, update. intros H.
  destruct (existsb _ (webhookEvents d)); simpl; [|exact H].
  unfold updateMany. apply isProcessed_find_map; [| |exact H].
  - intros r. destruct (_ === marked); reflexivity.
  - intros r Hr. destruct (_ === marked); [reflexivity|exact Hr].
Qed.

Lemma prisma_keeps_processed A (stripeEventId : string) (op : Db -> Result A * Db)
    (w : World) :
  (forall d, ledger_processed stripeEventId d = true ->
             ledger_processed stripeEventId (snd (op d)) = true) ->
  ledger_processed stripeEventId (db w) = true ->
  ledger_processed stripeEventId (db (snd (prisma op w))) = true.
Proof.
  intros Hop H. destruct (prisma_db_cases op w) as [->| ->]; auto.
Qed.

(** No stretch of any delivery, of any event, clears a set flag. *)
Lemma step_keeps_processed (stripeEventId : string) (event : Stripe.Event)
    (pc : Concurrent.Pc) (w : World) :
  ledger_processed stripeEventId (db w) = true ->
  ledger_processed stripeEventId (db (snd (Concurrent.step event pc w))) = true.
Proof.
  intros H. destruct pc as [| | | |r].
  - now rewrite step_AtCheck_db.
  - pose proof (@prisma_keeps_processed _ stripeEventId
                  (WebhookService.webhookEvent_upsert event (clock w)) w
                  (fun d => @webhookEvent_upsert_keeps_processed stripeEventId event (clock w) d)
                  H) as Hk.
    unfold Concurrent.step, prisma_at.
    destruct (prisma _ w) as [[[]|e] w1]; exact Hk.
  - pose proof (processEvent_keeps_ledger event w) as Hk.
    unfold Concurrent.step, Concurrent.rethrow, bind, logger, throw.
    destruct (WebhookService.processEvent event w) as [[[]|e] w1]; cbn [fst snd db set_log] in *;
      unfold ledger_processed, WebhookService.webhookEvent_findUnique in *;
      rewrite Hk; exact H.
  - pose proof (@prisma_keeps_processed _ stripeEventId
                  (WebhookService.webhookEvent_markProcessed (Stripe.id event) (clock w)) w
                  (fun d => @webhookEvent_markProcessed_keeps_processed stripeEventId
                              (Stripe.id event) (clock w) d)
                  H) as Hk.
    unfold Concurrent.step, Concurrent.rethrow, bind, new_Date, logger, throw.
    destruct (prisma _ w) as [[[]|e] w1]; exact Hk.
  - exact H.
Qed.

Lemma schedule_step_keeps_processed (stripeEventId : string) (s : Concurrent.System)
    (i : nat) :
  ledger_processed stripeEventId (db (Concurrent.world s)) = true ->
  ledger_processed stripeEventId (db (Concurrent.world (Concurrent.schedule_step s i))) = true.
Proof.
  intros H. unfold Concurrent.schedule_step.
  destruct (nth_error (Concurrent.deliveries s) i) as [d|]; [|exact H].
  pose proof (@step_keeps_processed stripeEventId (Concurrent.event d) (Concurrent.pc d)
                (Concurrent.world s) H) as Hk.
  destruct (Concurrent.step _ _ _) as [pc' w']. exact Hk.
Qed.

Lemma run_keeps_processed (stripeEventId : string) (schedule : list nat) :
  forall s,
    ledger_processed stripeEventId (db (Concurrent.world s)) = true ->
    ledger_processed stripeEventId (db (Concurrent.world (Concurrent.run schedule s))) = true.
Proof.
  induction schedule as [|i schedule IH]; intros s H; [exact H|].
  rewrite run_cons. apply IH. now apply schedule_step_keeps_processed.
Qed.

Lemma nth_error_set_nth_eq A (i : nat) (x d : A) (l : list A) :
  nth_error l i = Some d -> nth_error (Concurrent.set_nth i x l) i = Some x.
Proof.
  revert i. induction l as [|y l IH]; intros [|i] H; simpl in *; try discriminate; auto.
Qed.

Lemma nth_error_set_nth_neq A (i j : nat) (x : A) (l : list A) :
  i <> j -> nth_error (Concurrent.set_nth j x l) i = nth_error l i.
Proof.
  revert i j. induction l as [|y l IH]; intros [|i] [|j] H; simpl; auto;
    try contradiction.
Qed.

(** A stretch that ends a delivery as resolved was the end already, or
    leaves the event marked processed. *)
Lemma step_resolved (event : Stripe.Event) (pc : Concurrent.Pc) (w w' : World) (u : unit) :
  Concurrent.step event pc w = (Concurrent.Finished (Ok u), w') ->
  (pc = Concurrent.Finished (Ok u) /\ w' = w)
  \/ ledger_processed (Stripe.id event) (db w') = true.
Proof.
  destruct pc as [| | | |r]; unfold Concurrent.step.
  - destruct (prisma_query_cases
                (WebhookService.webhookEvent_findUnique (Stripe.id event)) w)
      as [(e & fs & _ & ->)|(w0 & -> & Hdb0 & _)]; [discriminate|].
    fold (ledger_processed (Stripe.id event) (db w)).
    destruct (ledger_processed (Stripe.id event) (db w)) eqn:Hp; [|discriminate].
    unfold logger. intros H. injection H as _ <-. right. simpl. now rewrite Hdb0.
  - destruct (prisma_at _ w) as [[[]|e] w1]; discriminate.
  - unfold Concurrent.rethrow, bind, logger, throw.
    destruct (WebhookService.processEvent event w) as [[[]|e] w1]; discriminate.
  - unfold Concurrent.rethrow, bind, new_Date, logger, throw.
    destruct (prisma _ w) as [[[]|e] w1] eqn:Hmark; [|discriminate].
    intros H. injection H as _ <-. right. simpl.
    apply prisma_ok_inv in Hmark as (Hmark & _). now apply markProcessed_ok_inv in Hmark.
  - intros H. injection H as -> <-. now left.
Qed.

(** In a system whose deliveries all started at their first stretch,
    every delivery that has resolved has its event marked processed. *)
Lemma resolved_deliveries_are_marked (schedule : list nat) :
  forall s,
    (forall j d u,
        nth_error (Concurrent.deliveries s) j = Some d ->
        Concurrent.pc d = Concurrent.Finished (Ok u) ->
        ledger_processed (Stripe.id (Concurrent.event d)) (db (Concurrent.world s)) = true) ->
    forall j d u,
      nth_error (Concurrent.deliveries (Concurrent.run schedule s)) j = Some d ->
      Concurrent.pc d = Concurrent.Finished (Ok u) ->
      ledger_processed (Stripe.id (Concurrent.event d))
        (db (Concurrent.world (Concurrent.run schedule s))) = true.
Proof.
  induction schedule as [|i schedule IH]; intros s Inv; [exact Inv|].
  rewrite run_cons. apply IH. clear IH schedule.
  unfold Concurrent.schedule_step.
  destruct (nth_error (Concurrent.deliveries s) i) as [di|] eqn:Hi; [|exact Inv].
  pose proof (fun id H => @step_keeps_processed id (Concurrent.event di) (Concurrent.pc di)
                            (Concurrent.world s) H) as Hkeep.
  pose proof (@step_resolved (Concurrent.event di) (Concurrent.pc di) (Concurrent.world s))
    as Hres.
  destruct (Concurrent.step _ _ _) as [pc' w']. cbn [snd] in Hkeep.
  intros j d u Hj Hpc. cbn [Concurrent.deliveries Concurrent.world] in *.
  destruct (Nat.eq_dec j i) as [->|Hne].
  - rewrite (@nth_error_set_nth_eq _ _ _ _ _ Hi) in Hj. injection Hj as <-.
    cbn [Concurrent.pc Concurrent.event] in *. subst pc'.
    destruct (Hres w' u eq_refl) as [(Hpc & ->)|Hp]; [|exact Hp].
    apply (Inv i di u Hi Hpc).
  - rewrite nth_error_set_nth_neq in Hj by assumption.
    apply Hkeep. apply (Inv j d u Hj Hpc).
Qed.

(** One scheduling step of a system that holds a late delivery at
    place [i], among any other deliveries. *)
Lemma late_delivery_among_others (event : Stripe.Event) (i k : nat) (s : Concurrent.System) :
  ledger_processed (Stripe.id event) (db (Concurrent.world s)) = true ->
  (exists pc,
      nth_error (Concurrent.deliveries s) i = Some (Concurrent.Build_Delivery event pc)
      /\ (pc = Concurrent.AtCheck \/ exists r, pc = Concurrent.Finished r)) ->
  exists pc,
    nth_error (Concurrent.deliveries (Concurrent.schedule_step s k)) i
    = Some (Concurrent.Build_Delivery event pc)
    /\ (pc = Concurrent.AtCheck \/ exists r, pc = Concurrent.Finished r).
Proof.
  intros Hp (pc & Hi & Hpc). unfold Concurrent.schedule_step.
  destruct (nth_error (Concurrent.deliveries s) k) as [dk|] eqn:Hk; [|eauto].
  destruct (Nat.eq_dec i k) as [<-|Hne].
  - rewrite Hi in Hk. injection Hk as <-. cbn [Concurrent.event Concurrent.pc].
    destruct Hpc as [->|(r & ->)].
    + destruct (step_AtCheck_processed event (Concurrent.world s) Hp) as (r & Hr).
      destruct (Concurrent.step event Concurrent.AtCheck (Concurrent.world s)) as [pc' w'].
      cbn [fst] in Hr. subst pc'. cbn [Concurrent.deliveries].
      rewrite (@nth_error_set_nth_eq _ _ _ _ _ Hi). eauto.
    + cbn [Concurrent.step Concurrent.deliveries].
      rewrite (@nth_error_set_nth_eq _ _ _ _ _ Hi). eauto.
  - destruct (Concurrent.step _ _ _) as [pc' w']. cbn [Concurrent.deliveries].
    rewrite nth_error_set_nth_neq by assumption. eauto.
Qed.

Lemma late_delivery_stays_late (event : Stripe.Event) (i : nat) (schedule : list nat) :
  forall s,
    ledger_processed (Stripe.id event) (db (Concurrent.world s)) = true ->
    (exists pc,
        nth_error (Concurrent.deliveries s) i = Some (Concurrent.Build_Delivery event pc)
        /\ (pc = Concurrent.AtCheck \/ exists r, pc = Concurrent.Finished r)) ->
    exists pc,
      nth_error (Concurrent.deliveries (Concurrent.run schedule s)) i
      = Some (Concurrent.Build_Delivery event pc)
      /\ (pc = Concurrent.AtCheck \/ exists r, pc = Concurrent.Finished r).
Proof.
  induction schedule as [|k schedule IH]; intros s Hp Hi; [exact Hi|].
  rewrite run_cons. apply IH.
  - now apply schedule_step_keeps_processed.
  - now apply late_delivery_among_others.
Qed.

(** The stretch of a late delivery writes nothing and is not the
    reconciler. *)
Lemma late_delivery_stretch (event : Stripe.Event) (i : nat) (s : Concurrent.System) :
  ledger_processed (Stripe.id event) (db (Concurrent.world s)) = true ->
  (exists pc,
      nth_error (Concurrent.deliveries s) i = Some (Concurrent.Build_Delivery event pc)
      /\ (pc = Concurrent.AtCheck \/ exists r, pc = Concurrent.Finished r)) ->
  db (Concurrent.world (Concurrent.schedule_step s i)) = db (Concurrent.world s)
  /\ Concurrent.reconciled (Concurrent.schedule_step s i) = Concurrent.reconciled s.
Proof.
  intros Hp (pc & Hi & Hpc). unfold Concurrent.schedule_step. rewrite Hi.
  cbn [Concurrent.event Concurrent.pc].
  destruct Hpc as [->|(r & ->)].
  - pose proof (step_AtCheck_db event (Concurrent.world s)) as Hdb.
    destruct (Concurrent.step event Concurrent.AtCheck (Concurrent.world s)) as [pc' w'].
    split; [exact Hdb|reflexivity].
  - split; reflexivity.
Qed.

(** C1 (amended). [handleWebhookEvent] is its awaited stretches run one
    after the other, and its claim step is a ledger read followed by a
    separate upsert: the first stretch of a delivery writes nothing.  A
    delivery that starts once an earlier delivery of the same event has
    resolved never enters the reconciler and writes nothing, whatever the
    schedule: run alone (third part), and among any other deliveries in
    flight, of this or of other events (fourth and fifth part).  In a
    system whose deliveries all started at their first stretch, under any
    schedule, the event of every delivery that has resolved is marked
    processed; and once an event is marked processed, under any further
    schedule, whatever the other deliveries do, a delivery of that event
    that is at its first stretch stays at its first stretch or at its end,
    and each of its stretches leaves the database and the list of
    reconciler runs as they are.  Two deliveries of the same event that
    take turns at every [await] both find the event not yet processed and
    both run the reconciler. *)
Theorem claim_is_read_then_write :
  (forall event w,
      Concurrent.run_alone event w
      = (Concurrent.Finished (fst (WebhookService.handleWebhookEvent event w)),
         snd (WebhookService.handleWebhookEvent event w)))
  /\ (forall event w, db (snd (Concurrent.step event Concurrent.AtCheck w)) = db w)
  /\ (forall event w w1 w1' rec schedule,
        WebhookService.handleWebhookEvent event w = (Ok tt, w1) ->
        db w1' = db w1 ->
        Concurrent.reconciled
          (Concurrent.run schedule
             (Concurrent.Build_System w1'
                [Concurrent.Build_Delivery event Concurrent.AtCheck] rec)) = rec
        /\ db (Concurrent.world
                 (Concurrent.run schedule
                    (Concurrent.Build_System w1'
                       [Concurrent.Build_Delivery event Concurrent.AtCheck] rec)))
           = db w1)
  /\ (forall s schedule j d u,
        (forall d0, In d0 (Concurrent.deliveries s) ->
                    Concurrent.pc d0 = Concurrent.AtCheck) ->
        nth_error (Concurrent.deliveries (Concurrent.run schedule s)) j = Some d ->
        Concurrent.pc d = Concurrent.Finished (Ok u) ->
        ledger_processed (Stripe.id (Concurrent.event d))
          (db (Concurrent.world (Concurrent.run schedule s))) = true)
  /\ (forall s i event schedule,
        ledger_processed (Stripe.id event) (db (Concurrent.world s)) = true ->
        nth_error (Concurrent.deliveries s) i
        = Some (Concurrent.Build_Delivery event Concurrent.AtCheck) ->
        ledger_processed (Stripe.id event)
          (db (Concurrent.world (Concurrent.run schedule s))) = true
        /\ (exists pc,
               nth_error (Concurrent.deliveries (Concurrent.run schedule s)) i
               = Some (Concurrent.Build_Delivery event pc)
               /\ (pc = Concurrent.AtCheck \/ exists r, pc = Concurrent.Finished r))
        /\ db (Concurrent.world
                 (Concurrent.schedule_step (Concurrent.run schedule s) i))
           = db (Concurrent.world (Concurrent.run schedule s))
        /\ Concurrent.reconciled
             (Concurrent.schedule_step (Concurrent.run schedule s) i)
           = Concurrent.reconciled (Concurrent.run schedule s))
  /\ Concurrent.reconciled (Concurrent.run alternate race) = ["evt_1"; "evt_1"]%string.
Proof.
  split; [|split; [|split; [|split; [|split]]]].
  - apply run_alone_handleWebhookEvent.
  - apply step_AtCheck_db.
  - intros event w w1 w1' rec schedule Hrun Hdb.
    apply handleWebhookEvent_ok_processed in Hrun. rewrite <- Hdb in *.
    apply late_delivery_skips; auto.
  - intros s schedule j d u Hstart.
    apply resolved_deliveries_are_marked.
    intros j0 d0 u0 Hj0 Hpc0. apply nth_error_In in Hj0.
    rewrite (Hstart d0 Hj0) in Hpc0. discriminate.
  - intros s i event schedule Hp Hi.
    assert (Hlate : exists pc,
               nth_error (Concurrent.deliveries s) i
               = Some (Concurrent.Build_Delivery event pc)
               /\ (pc = Concurrent.AtCheck \/ exists r, pc = Concurrent.Finished r))
      by eauto.
    pose proof (@run_keeps_processed (Stripe.id event) schedule s Hp) as Hp'.
    pose proof (@late_delivery_stays_late event i schedule s Hp Hlate) as Hlate'.
    split; [exact Hp'|]. split; [exact Hlate'|].
    exact (@late_delivery_stretch event i (Concurrent.run schedule s) Hp' Hlate').
  - vm_compute. reflexivity.
Qed.

Lemma claim_is_read_then_write_witness :
  let w := Scenario.world0 (Scenario.sub_1 false None 9000) [] 6000 in
  let w1 := snd (WebhookService.handleWebhookEvent Scenario.evt_1 w) in
  let s := Concurrent.run [0; 0; 0; 0]%nat
             (Concurrent.Build_System (set_clock 7000 w1)
                [Concurrent.Build_Delivery Scenario.evt_1 Concurrent.AtCheck] ["evt_1"]%string) in
  let evt_2 :=
    Stripe.Build_Event "evt_2" "customer.subscription.updated"
      (Stripe.ObjSubscription Scenario.stripe_sub_1) in
  let crowd :=
    Concurrent.Build_System w
      [Concurrent.Build_Delivery Scenario.evt_1 Concurrent.AtCheck;
       Concurrent.Build_Delivery Scenario.evt_1 Concurrent.AtCheck;
       Concurrent.Build_Delivery evt_2 Concurrent.AtCheck] [] in
  let first_done := Concurrent.run [0; 2; 0; 0; 0]%nat crowd in
  let later := Concurrent.run [2; 1; 2; 2]%nat first_done in
  (Concurrent.reconciled s = ["evt_1"]%string /\ db (Concurrent.world s) = db w1)
  /\ ledger_processed "evt_1" (db (Concurrent.world first_done)) = true
  /\ db (Concurrent.world (Concurrent.schedule_step later 1)) = db (Concurrent.world later)
  /\ Concurrent.reconciled (Concurrent.schedule_step later 1) = Concurrent.reconciled later.
Proof.
  intros w w1 s evt_2 crowd first_done later.
  destruct claim_is_read_then_write as (_ & _ & H2 & H3 & H4 & _).
  split; [|split].
  - apply (H2 Scenario.evt_1 w w1 (set_clock 7000 w1)); reflexivity.
  - apply (H3 crowd [0; 2; 0; 0; 0]%nat 0%nat
              (Concurrent.Build_Delivery Scenario.evt_1 (Concurrent.Finished (Ok tt))) tt).
    + intros d0 [<-|[<-|[<-|[]]]]; reflexivity.
    + vm_compute. reflexivity.
    + reflexivity.
  - apply (H4 first_done 1%nat Scenario.evt_1 [2; 1; 2; 2]%nat).
    + vm_compute. reflexivity.
    + vm_compute. reflexivity.
Defined.

(** C1, as stated, fails: with the two deliveries of [race] taking turns,
    the reconciler runs twice for the one event id. *)
Lemma concurrent_deliveries_both_reconcile :
  ~ (forall (event : Stripe.Event) (w : World) (schedule : list nat),
        (length (Concurrent.reconciled
                   (Concurrent.run schedule
                      (Concurrent.Build_System w
                         [Concurrent.Build_Delivery event Concurrent.AtCheck;
                          Concurrent.Build_Delivery event Concurrent.AtCheck] [])))
         <= 1)%nat).
Proof.
  intros H.
  specialize (H Scenario.evt_1 (Scenario.world0 (Scenario.sub_1 false None 9000) [] 6000)
                [0; 1; 0; 1; 0; 1; 0; 1]%nat).
  vm_compute in H. lia.
Qed.

(* ================================================================== *)
(** * Further properties of the code *)

(* ------------------------------------------------------------------ *)
(** ** The router's default branch *)

Lemma processEvent_unhandled (event : Stripe.Event) (w : World) :
  ~ In (Stripe.type event) handled_types ->
  WebhookService.processEvent event w
  = (Ok tt,
     set_log (log w ++ [(LOG, ("Unhandled webhook event type: "
                               ++ Stripe.type event)%string)]) w).
Proof.
  intros Hn. unfold WebhookService.processEvent. cbv zeta.
  repeat match goal with
         | |- context [String.eqb (Stripe.type event) ?k] =>
             destruct (String.eqb_spec (Stripe.type event) k) as [E|_];
             [exfalso; apply Hn; rewrite E; simpl; tauto|]
         end.
  reflexivity.
Qed.

(** X1. An event whose type tag the router has no case for is taken
    without action: the router resolves, and the only trace is the
    "Unhandled webhook event type" log line.  A first delivery of such an
    event, on storage that accepts the calls, resolves with the event marked
    processed and every entity table as it was. *)
Theorem unhandled_event_is_acknowledged :
  forall event w,
    ~ In (Stripe.type event) handled_types ->
    WebhookService.processEvent event w
    = (Ok tt,
       set_log (log w ++ [(LOG, ("Unhandled webhook event type: "
                                 ++ Stripe.type event)%string)]) w)
    /\ (faults w = [] ->
        ledger_processed (Stripe.id event) (db w) = false ->
        exists w',
          WebhookService.handleWebhookEvent event w = (Ok tt, w')
          /\ ledger_processed (Stripe.id event) (db w') = true
          /\ same_entities (db w) (db w')).
Proof.
  intros event w Hn. split; [now apply processEvent_unhandled|].
  intros Hf Hp.
  destruct (webhookEvent_upsert_spec event (clock w) (db w)) as (d1 & Hup & Hs1 & _ & _).
  pose proof (@processEvent_unhandled event (set_db d1 w) Hn) as Hproc.
  destruct (@handleWebhookEvent_fresh event w d1 _ Hf Hp Hup Hproc Hf)
    as (d3 & Hrun & Hs3 & Hp3).
  eexists. split; [exact Hrun|]. split; [exact Hp3|].
  simpl in Hs3. unfold same_entities in *. simpl.
  destruct Hs1 as (A1 & A2 & A3 & A4 & A5). destruct Hs3 as (B1 & B2 & B3 & B4 & B5).
  repeat split; congruence.
Qed.

Lemma unhandled_event_is_acknowledged_witness :
  let event := Stripe.Build_Event "evt_9" "charge.succeeded" Stripe.ObjOther in
  let w := Scenario.world0 (Scenario.sub_1 false None 9000) [] 6000 in
  exists w',
    WebhookService.handleWebhookEvent event w = (Ok tt, w')
    /\ ledger_processed "evt_9" (db w') = true
    /\ same_entities (db w) (db w').
Proof.
  intros event w.
  refine (proj2 (@unhandled_event_is_acknowledged event w _) eq_refl eq_refl).
  simpl. intros H. repeat (destruct H as [H|H]; [discriminate H|]). exact H.
Defined.

(* ------------------------------------------------------------------ *)
(** ** The endpoint before the ledger *)

(** X2. The webhook endpoint rejects with status 400, without a single
    call to storage, a request that has no signature header, a request
    that has no body, and a request whose signature the processor's library
    does not accept: the world is as it was but, in the last two cases, for
    the "Webhook error:" log line. *)
Theorem webhook_rejected_before_ledger :
  forall stripeService rawBody signature w,
    (truthy_opt_string signature = false ->
     PaymentsController.handleWebhook stripeService rawBody signature w
     = (Throw (BadRequestException "Missing stripe-signature header"), w))
    /\ (truthy_opt_string signature = true -> rawBody = None ->
        PaymentsController.handleWebhook stripeService rawBody signature w
        = (Throw (BadRequestException "Missing request body"),
           set_log (log w ++ [(ERROR, "Webhook error:"%string)]) w))
    /\ (forall payload e,
          truthy_opt_string signature = true -> rawBody = Some payload ->
          StripeService.constructWebhookEvent stripeService payload (js_string signature)
          = Throw e ->
          PaymentsController.handleWebhook stripeService rawBody signature w
          = (Throw (BadRequestException (exn_message e)),
             set_log (log w ++ [(ERROR, "Webhook error:"%string)]) w))
    /\ (forall r w',
          PaymentsController.handleWebhook stripeService rawBody signature w = (r, w') ->
          PaymentsController.statusCode r = 200%nat
          \/ PaymentsController.statusCode r = 400%nat).
Proof.
  intros stripeService rawBody signature w. unfold PaymentsController.handleWebhook.
  split; [|split; [|split]].
  - intros ->. reflexivity.
  - intros -> ->. reflexivity.
  - intros payload e -> -> Hev. simpl. unfold try_catch, bind, await_stripe.
    rewrite Hev. reflexivity.
  - intros r w'. destruct (negb (truthy_opt_string signature)).
    + intros H; inversion H; subst. right. reflexivity.
    + unfold try_catch.
      match goal with
      | |- context [match ?m w with _ => _ end] => destruct (m w) as [[a|e] w1]
      end; intros H; inversion H; subst; [left|right]; reflexivity.
Qed.

Lemma webhook_rejected_before_ledger_witness :
  let w := Scenario.world0 (Scenario.sub_1 false None 9000) [] 6000 in
  let forged :=
    StripeService.Build_t
      (StripeService.createCustomer Scenario.stripe_ok)
      (StripeService.createCheckoutSession Scenario.stripe_ok)
      (StripeService.createPortalSession Scenario.stripe_ok)
      (StripeService.cancelSubscription Scenario.stripe_ok)
      (StripeService.reactivateSubscription Scenario.stripe_ok)
      (StripeService.updateSubscription Scenario.stripe_ok)
      (fun payload signature =>
         Throw (StripeError "No signatures found matching the expected signature")) in
  PaymentsController.handleWebhook forged (Some "{}"%string) None w
  = (Throw (BadRequestException "Missing stripe-signature header"), w)
  /\ PaymentsController.handleWebhook forged None (Some "t=1,v1=00"%string) w
     = (Throw (BadRequestException "Missing request body"),
        set_log (log w ++ [(ERROR, "Webhook error:"%string)]) w)
  /\ PaymentsController.handleWebhook forged (Some "{}"%string) (Some "t=1,v1=00"%string) w
     = (Throw (BadRequestException "No signatures found matching the expected signature"),
        set_log (log w ++ [(ERROR, "Webhook error:"%string)]) w).
Proof.
  intros w forged.
  split; [|split].
  - apply (proj1 (webhook_rejected_before_ledger forged (Some "{}"%string) None w)).
    reflexivity.
  - apply (proj1 (proj2 (webhook_rejected_before_ledger forged None
                           (Some "t=1,v1=00"%string) w))); reflexivity.
  - apply (proj1 (proj2 (proj2 (webhook_rejected_before_ledger forged (Some "{}"%string)
                                  (Some "t=1,v1=00"%string) w))) "{}"%string
             (StripeError "No signatures found matching the expected signature"));
      reflexivity.
Defined.

(* ------------------------------------------------------------------ *)
(** ** Invariants of the database *)

Section Preservation.
Variable P : Db -> Prop.

Lemma preserves_ret A (a : A) : preserves P (ret a).
Proof. intros w H; exact H. Qed.

Lemma preserves_throw A (e : Exn) : preserves P (@throw A e).
Proof. intros w H; exact H. Qed.

Lemma preserves_new_Date : preserves P new_Date.
Proof. intros w H; exact H. Qed.

Lemma preserves_logger (l : LogLevel) (msg : string) : preserves P (logger l msg).
Proof. intros w H; exact H. Qed.

Lemma preserves_await A (r : Result A) : preserves P (await_stripe r).
Proof. intros w H; exact H. Qed.

Lemma preserves_bind A B (m : M A) (k : A -> M B) :
  preserves P m -> (forall a, preserves P (k a)) -> preserves P (bind m k).
Proof.
  intros Hm Hk w H. unfold bind. specialize (Hm w H).
  destruct (m w) as [[a|e] w']; simpl in *; [now apply Hk|assumption].
Qed.

Lemma preserves_try_catch A (m : M A) (h : Exn -> M A) :
  preserves P m -> (forall e, preserves P (h e)) -> preserves P (try_catch m h).
Proof.
  intros Hm Hh w H. unfold try_catch. specialize (Hm w H).
  destruct (m w) as [[a|e] w']; simpl in *; [assumption|now apply Hh].
Qed.

Lemma preserves_prisma A (op : Db -> Result A * Db) :
  (forall d, P d -> P (snd (op d))) -> preserves P (prisma op).
Proof.
  intros Hop w H. destruct (prisma_db_cases op w) as [-> | ->]; auto.
Qed.

Lemma preserves_prisma_at A (op : DateTime -> Db -> Result A * Db) :
  (forall now d, P d -> P (snd (op now d))) -> preserves P (prisma_at op).
Proof.
  intros Hop w H. unfold prisma_at.
  apply (@preserves_prisma A (op (clock w))); [apply Hop|exact H].
Qed.

Lemma preserves_query A (f : Db -> A) : preserves P (prisma (query f)).
Proof. apply preserves_prisma. intros d H; exact H. Qed.

End Preservation.

#[local] Hint Resolve preserves_ret preserves_throw preserves_new_Date preserves_logger
  preserves_await preserves_query : frame.

(** Splits a handler along its binds and branches, down to the Prisma
    calls that write. *)
Ltac invariant :=
  repeat first
    [ solve [auto with frame]
    | apply preserves_bind; [|intros ?]
    | apply preserves_try_catch; [|intros ?]
    | apply preserves_prisma; intros ? ?
    | apply preserves_prisma_at; intros ? ? ?
    | match goal with
      | |- preserves _ (match ?x with _ => _ end) => destruct x
      end ].

(** The reconcilers, unfolded to their binds. *)
Ltac open_reconcilers :=
  unfold WebhookService.processEvent, WebhookService.bad_shape,
    WebhookService.handleSubscriptionUpdated, WebhookService.handleSubscriptionDeleted,
    WebhookService.handleInvoicePaymentSucceeded, WebhookService.handleInvoicePaymentFailed,
    WebhookService.handleCustomerCreated, WebhookService.handleCustomerUpdated,
    WebhookService.handleProductUpdated, WebhookService.handleProductDeleted,
    WebhookService.handlePriceUpdated, WebhookService.handlePriceDeleted,
    WebhookService.handlePaymentMethodAttached, WebhookService.handlePaymentMethodDetached.

(** The table operations, unfolded to their branches, each branch with
    the test that selects it. *)
Ltac open_table_op :=
  unfold WebhookService.webhookEvent_upsert, WebhookService.webhookEvent_markProcessed,
    WebhookService.subscription_upsert, WebhookService.user_link_by_email,
    WebhookService.product_upsert, WebhookService.price_upsert,
    WebhookService.paymentMethod_upsert, WebhookService.paymentMethod_delete,
    PaymentsService.user_update_stripeCustomerId, PaymentsService.subscription_update;
  unfold query, exec, update, delete;
  cbv zeta;
  repeat match goal with
         | |- context [if ?b then _ else _] => destruct b eqn:?
         end;
  cbn [fst snd].

Lemma map_updateMany_key R K (k : R -> K) (c : R -> bool) (f : R -> R) (rows : list R) :
  (forall r, k (f r) = k r) -> map k (updateMany c f rows) = map k rows.
Proof.
  intros Hk. unfold updateMany. rewrite map_map. apply map_ext.
  intros r. destruct (c r); auto.
Qed.

Lemma NoDup_app_new R (k : R -> string) (rows : list R) (x : R) :
  NoDup (map k rows) ->
  existsb (fun r => k r === k x) rows = false ->
  NoDup (map k (rows ++ [x])).
Proof.
  intros Hnd Hex. rewrite map_app. simpl.
  apply NoDup_app; [assumption|repeat constructor; intros []|].
  intros y Hy [<-|[]]. apply in_map_iff in Hy as (r & Hr & Hin).
  assert (existsb (fun r => k r === k x) rows = true); [|congruence].
  apply existsb_exists. exists r. split; [assumption|]. now apply String.eqb_eq.
Qed.

Lemma NoDup_map_filter R K (k : R -> K) (c : R -> bool) (rows : list R) :
  NoDup (map k rows) -> NoDup (map k (filter c rows)).
Proof.
  induction rows as [|r rows IH]; simpl; intros H; [constructor|].
  inversion H as [|? ? Hn Hnd]; subst. destruct (c r); simpl; auto.
  constructor; auto. intros Hin. apply Hn.
  apply in_map_iff in Hin as (y & Hy & Hin). apply filter_In in Hin as (Hin & _).
  apply in_map_iff. eauto.
Qed.

(** Closes one branch of a table operation under [unique_external_ids]. *)
Ltac unique_branch :=
  match goal with
  | H : unique_external_ids _ |- _ =>
      destruct H as (? & ? & ? & ? & ?); unfold unique_external_ids; simpl;
      repeat split; try assumption;
      first [ rewrite map_updateMany_key by reflexivity; assumption
            | apply NoDup_app_new; assumption
            | apply NoDup_map_filter; assumption ]
  end.

Lemma processEvent_unique (event : Stripe.Event) :
  preserves unique_external_ids (WebhookService.processEvent event).
Proof.
  open_reconcilers. invariant; open_table_op; try assumption; unique_branch.
Qed.

Lemma handleWebhookEvent_unique (event : Stripe.Event) :
  preserves unique_external_ids (WebhookService.handleWebhookEvent event).
Proof.
  unfold WebhookService.handleWebhookEvent. invariant.
  - open_table_op; unique_branch.
  - apply processEvent_unique.
  - open_table_op; try assumption; unique_branch.
Qed.

Lemma deliver_all_preserves (P : Db -> Prop) :
  (forall event, preserves P (WebhookService.handleWebhookEvent event)) ->
  forall events w, P (db w) -> P (db (deliver_all events w)).
Proof.
  intros HP events. unfold deliver_all.
  induction events as [|event events IH]; intros w H; simpl; [assumption|].
  apply IH. now apply HP.
Qed.

(** X3. Every table keyed by an external id (products, prices,
    subscriptions, payment methods, ledger) keeps at most one row per
    external id: if that holds before a delivery it holds after, for every
    event, whatever the delivery returns or throws and whatever storage
    does.  So from an empty database no sequence of deliveries ever gives
    one external id two rows. *)
Theorem deliveries_never_duplicate :
  (forall event w,
      unique_external_ids (db w) ->
      unique_external_ids (db (snd (WebhookService.handleWebhookEvent event w))))
  /\ (forall events w,
        db w = empty_db -> unique_external_ids (db (deliver_all events w))).
Proof.
  split.
  - intros event w. apply handleWebhookEvent_unique.
  - intros events w Hw. apply deliver_all_preserves.
    + apply handleWebhookEvent_unique.
    + rewrite Hw. repeat split; constructor.
Qed.

Lemma deliveries_never_duplicate_witness :
  let w := Scenario.world0 (Scenario.sub_1 false None 9000) [None; Some P1001] 6000 in
  unique_external_ids
    (db (snd (WebhookService.handleWebhookEvent
                (Stripe.Build_Event "evt_4" "product.updated"
                   (Stripe.ObjProduct (Stripe.Build_Product "prod_1" "Pro+" None [] true)))
                w)))
  /\ unique_external_ids
       (db (deliver_all [Scenario.evt_1; Scenario.evt_1]
              (Build_World empty_db [] [] 6000))).
Proof.
  intros w. split.
  - apply (proj1 deliveries_never_duplicate).
    repeat split; simpl; repeat constructor; simpl; intuition.
  - apply (proj2 deliveries_never_duplicate). reflexivity.
Defined.

(* ------------------------------------------------------------------ *)
(** ** Rows are retained *)

Lemma extends_refl A (l : list A) : extends l l.
Proof. exists []. now rewrite app_nil_r. Qed.

Lemma extends_app A (l0 l x : list A) : extends l0 l -> extends l0 (l ++ x).
Proof. intros (e & ->). exists (e ++ x). now rewrite app_assoc. Qed.

Lemma retains_refl (d : Db) : retains d d.
Proof. repeat split; apply extends_refl. Qed.

(** Closes one branch of a table operation under [retains]. *)
Ltac retains_branch :=
  match goal with
  | H : retains _ _ |- _ =>
      destruct H as (? & ? & ? & ? & ?); unfold retains; simpl;
      repeat split; try assumption;
      first [ rewrite map_updateMany_key by reflexivity; assumption
            | rewrite map_app; apply extends_app; assumption ]
  end.

Lemma processEvent_retains (d0 : Db) (event : Stripe.Event) :
  preserves (retains d0) (WebhookService.processEvent event).
Proof.
  open_reconcilers. invariant; open_table_op; try assumption; retains_branch.
Qed.

Lemma handleWebhookEvent_retains (d0 : Db) (event : Stripe.Event) :
  preserves (retains d0) (WebhookService.handleWebhookEvent event).
Proof.
  unfold WebhookService.handleWebhookEvent. invariant.
  - open_table_op; retains_branch.
  - apply processEvent_retains.
  - open_table_op; try assumption; retains_branch.
Qed.

(** X4. No delivery removes a user, product, price, subscription or
    ledger row, moves it, or changes its local id: after any sequence of
    deliveries, the local ids of each of these tables are the ids it had,
    in their order, followed by the ids of the rows created since.  This
    holds for every event and whatever storage does. *)
Theorem deliveries_retain_rows :
  forall events w, retains (db w) (db (deliver_all events w)).
Proof.
  intros events w. apply deliver_all_preserves.
  - intros event. apply handleWebhookEvent_retains.
  - apply retains_refl.
Qed.

(* ------------------------------------------------------------------ *)
(** ** Referential integrity *)

Lemma extends_In A (l l' : list A) (x : A) : extends l l' -> In x l -> In x l'.
Proof. intros (e & ->) H. apply in_or_app. now left. Qed.

(** A step that keeps the ids of users and prices and the references of
    the subscription rows keeps referential integrity. *)
Lemma fk_ok_step (d d' : Db) :
  fk_ok d ->
  extends (map User.id (users d)) (map User.id (users d')) ->
  extends (map Price.id (prices d)) (map Price.id (prices d')) ->
  (forall s', In s' (subscriptions d') ->
     exists s, In s (subscriptions d)
               /\ Subscription.userId s' = Subscription.userId s
               /\ Subscription.priceId s' = Subscription.priceId s) ->
  fk_ok d'.
Proof.
  intros Hfk Hu Hp Hs s' Hin. destruct (Hs s' Hin) as (s & Hs0 & -> & ->).
  destruct (Hfk s Hs0) as ((u & Hu0 & Hu1) & (p & Hp0 & Hp1)). split.
  - assert (Hi : In (Subscription.userId s) (map User.id (users d'))).
    { eapply extends_In; [exact Hu|]. rewrite <- Hu1. now apply in_map. }
    apply in_map_iff in Hi as (u' & A & B). eauto.
  - assert (Hi : In (Subscription.priceId s) (map Price.id (prices d'))).
    { eapply extends_In; [exact Hp|]. rewrite <- Hp1. now apply in_map. }
    apply in_map_iff in Hi as (p' & A & B). eauto.
Qed.

(** Closes one branch of a table operation under [fk_ok], for the
    operations that leave the references of subscription rows alone. *)
Ltac fk_branch :=
  match goal with
  | H : fk_ok ?d |- _ =>
      apply (@fk_ok_step d _ H); simpl;
      [ first [ apply extends_refl
              | rewrite map_updateMany_key by reflexivity; apply extends_refl ]
      | first [ apply extends_refl
              | rewrite map_updateMany_key by reflexivity; apply extends_refl
              | rewrite map_app; apply extends_app, extends_refl ]
      | first [ intros s' Hin; exists s'; solve [auto]
              | intros s' Hin; apply In_updateMany in Hin as (r & Hr & ->);
                exists r;
                match goal with
                | |- context [if ?b then _ else _] => destruct b
                end; auto ] ]
  end.

(** Through a read: the continuation runs on the same database, with the
    answer of the read on it. *)
Lemma bind_query_db A B (f : Db -> A) (k : A -> M B) (w : World) (P : Db -> Prop) :
  (forall w0, db w0 = db w -> P (db (snd (k (f (db w)) w0)))) ->
  P (db w) ->
  P (db (snd (bind (prisma (query f)) k w))).
Proof.
  intros Hk H. unfold bind.
  destruct (prisma_query_cases f w) as [(e & fs & _ & ->)|(w0 & -> & Hdb0 & _)];
    [assumption|].
  now apply Hk.
Qed.

Lemma handleSubscriptionUpdated_fk (sub : Stripe.Subscription) :
  preserves fk_ok (WebhookService.handleSubscriptionUpdated sub).
Proof.
  intros w Hfk. unfold WebhookService.handleSubscriptionUpdated.
  apply bind_query_db; [|assumption]. intros w0 Hdb0.
  destruct (WebhookService.user_findUnique_stripeCustomerId _ (db w)) as [u|] eqn:Hu;
    [|simpl; now rewrite Hdb0].
  destruct (WebhookService.first_price_id sub) as [pid|]; [|simpl; now rewrite Hdb0].
  apply bind_query_db; [|now rewrite Hdb0]. intros w1 Hdb1.
  destruct (WebhookService.price_findUnique pid (db w0)) as [p|] eqn:Hp;
    [|simpl; now rewrite Hdb1, Hdb0].
  unfold bind, new_Date, prisma_at.
  apply find_some in Hu as (Hu & _). apply find_some in Hp as (Hp & _).
  rewrite <- Hdb0 in Hu. rewrite <- Hdb1 in Hu, Hp.
  assert (Hfk1 : fk_ok (db w1)) by now rewrite Hdb1, Hdb0.
  match goal with
  | |- fk_ok (db (snd (prisma ?op w1))) =>
      destruct (prisma_db_cases op w1) as [->| ->]; [assumption|]
  end.
  now apply subscription_upsert_fk.
Qed.

#[local] Hint Resolve handleSubscriptionUpdated_fk : frame.

Lemma processEvent_fk (event : Stripe.Event) :
  preserves fk_ok (WebhookService.processEvent event).
Proof.
  unfold WebhookService.processEvent, WebhookService.bad_shape,
    WebhookService.handleSubscriptionDeleted,
    WebhookService.handleInvoicePaymentSucceeded, WebhookService.handleInvoicePaymentFailed,
    WebhookService.handleCustomerCreated, WebhookService.handleCustomerUpdated,
    WebhookService.handleProductUpdated, WebhookService.handleProductDeleted,
    WebhookService.handlePriceUpdated, WebhookService.handlePriceDeleted,
    WebhookService.handlePaymentMethodAttached, WebhookService.handlePaymentMethodDetached.
  invariant; open_table_op; try assumption; fk_branch.
Qed.

Lemma handleWebhookEvent_fk (event : Stripe.Event) :
  preserves fk_ok (WebhookService.handleWebhookEvent event).
Proof.
  unfold WebhookService.handleWebhookEvent. invariant.
  - open_table_op; fk_branch.
  - apply processEvent_fk.
  - open_table_op; try assumption; fk_branch.
Qed.

Lemma changeSubscription_fk stripeService userId subscriptionId newPriceId :
  preserves fk_ok
    (PaymentsService.changeSubscription stripeService userId subscriptionId newPriceId).
Proof.
  intros w Hfk. unfold PaymentsService.changeSubscription.
  apply bind_query_db; [|assumption]. intros w0 Hdb0.
  destruct (PaymentsService.subscription_findFirst _ _ (db w)) as [s|];
    [|simpl; now rewrite Hdb0].
  apply bind_query_db; [|now rewrite Hdb0]. intros w1 Hdb1.
  assert (Hfk1 : fk_ok (db w1)) by now rewrite Hdb1, Hdb0.
  destruct (WebhookService.price_findUnique newPriceId (db w0)) as [p|] eqn:Hp;
    [|exact Hfk1].
  destruct (negb (Price.active p)); [exact Hfk1|].
  apply find_some in Hp as (Hp & _). rewrite <- Hdb1 in Hp.
  unfold bind, await_stripe, new_Date.
  destruct (StripeService.updateSubscription _ _ _) as [u|e]; [|exact Hfk1].
  match goal with
  | |- context [prisma ?op w1] =>
      pose proof (prisma_db_cases op w1) as Hc; destruct (prisma op w1) as [[[]|e] w2]
  end; simpl in *; destruct Hc as [->| ->]; try assumption.
  all: unfold PaymentsService.subscription_update, update;
    destruct (existsb _ _); simpl; [|now destruct (db w1)].
  all: intros s' Hin; simpl in *; apply In_updateMany in Hin as (r & Hr & ->);
    destruct (Hfk1 r Hr) as (Hu1 & Hp1);
    destruct (_ === _); simpl; split; eauto.
Qed.

(** X5. Referential integrity is an invariant of the whole payment core:
    if every subscription row points to a user row and a price row, it
    still does after any delivery of any event and after any of the five
    local actions, whatever they return or throw and whatever storage and
    the processor do. *)
Theorem referential_integrity_is_kept :
  (forall events w, fk_ok (db w) -> fk_ok (db (deliver_all events w)))
  /\ (forall stripeService appUrl userId dto w,
        fk_ok (db w) ->
        fk_ok (db (snd (PaymentsService.createCheckoutSession stripeService userId dto w)))
        /\ fk_ok (db (snd (PaymentsService.createPortalSession stripeService appUrl userId w))))
  /\ (forall stripeService userId subscriptionId immediate newPriceId w,
        fk_ok (db w) ->
        fk_ok (db (snd (PaymentsService.cancelSubscription stripeService
                          userId subscriptionId immediate w)))
        /\ fk_ok (db (snd (PaymentsService.reactivateSubscription stripeService
                             userId subscriptionId w)))
        /\ fk_ok (db (snd (PaymentsService.changeSubscription stripeService
                             userId subscriptionId newPriceId w)))).
Proof.
  split; [|split].
  - intros events w. apply deliver_all_preserves. apply handleWebhookEvent_fk.
  - intros stripeService appUrl userId dto w Hfk. split.
    + revert w Hfk.
      change (preserves fk_ok (PaymentsService.createCheckoutSession stripeService userId dto)).
      unfold PaymentsService.createCheckoutSession.
      invariant; open_table_op; try assumption; fk_branch.
    + revert w Hfk.
      change (preserves fk_ok (PaymentsService.createPortalSession stripeService appUrl userId)).
      unfold PaymentsService.createPortalSession. invariant.
  - intros stripeService userId subscriptionId immediate newPriceId w Hfk.
    split; [|split].
    + revert w Hfk.
      change (preserves fk_ok (PaymentsService.cancelSubscription stripeService
                                 userId subscriptionId immediate)).
      unfold PaymentsService.cancelSubscription.
      invariant; open_table_op; try assumption; fk_branch.
    + revert w Hfk.
      change (preserves fk_ok (PaymentsService.reactivateSubscription stripeService
                                 userId subscriptionId)).
      unfold PaymentsService.reactivateSubscription.
      invariant; open_table_op; try assumption; fk_branch.
    + now apply changeSubscription_fk.
Qed.

Lemma referential_integrity_is_kept_witness :
  let w := Scenario.world0 (Scenario.sub_1 false None 9000) [] 6000 in
  fk_ok (db (deliver_all
               [Stripe.Build_Event "evt_5" "customer.subscription.updated"
                  (Stripe.ObjSubscription Scenario.stripe_sub_1);
                Scenario.evt_1] w))
  /\ fk_ok (db (snd (PaymentsService.changeSubscription Scenario.stripe_ok
                       "usr_1" "s_1" "price_1" w))).
Proof.
  intros w.
  assert (Hfk : fk_ok (db w)).
  { intros s [<-|[]]. split.
    - exists Scenario.alice. split; [left|]; reflexivity.
    - exists Scenario.monthly. split; [left|]; reflexivity. }
  destruct referential_integrity_is_kept as (H1 & _ & H3). split.
  - now apply H1.
  - apply (H3 Scenario.stripe_ok "usr_1" "s_1" false "price_1" w Hfk).
Defined.

(* ------------------------------------------------------------------ *)
(** ** What a resolved delivery records *)

Section Clock.

Lemma keeps_clock_ret A (a : A) : keeps_clock (ret a).
Proof. intros w; reflexivity. Qed.

Lemma keeps_clock_throw A (e : Exn) : keeps_clock (@throw A e).
Proof. intros w; reflexivity. Qed.

Lemma keeps_clock_new_Date : keeps_clock new_Date.
Proof. intros w; reflexivity. Qed.

Lemma keeps_clock_logger (l : LogLevel) (msg : string) : keeps_clock (logger l msg).
Proof. intros w; reflexivity. Qed.

Lemma keeps_clock_prisma A (op : Db -> Result A * Db) : keeps_clock (prisma op).
Proof.
  intros w. unfold prisma.
  destruct (faults w) as [|[e|] fs]; try reflexivity; destruct (op (db w)); reflexivity.
Qed.

Lemma keeps_clock_prisma_at A (op : DateTime -> Db -> Result A * Db) :
  keeps_clock (prisma_at op).
Proof. intros w. unfold prisma_at. apply keeps_clock_prisma. Qed.

Lemma keeps_clock_bind A B (m : M A) (k : A -> M B) :
  keeps_clock m -> (forall a, keeps_clock (k a)) -> keeps_clock (bind m k).
Proof.
  intros Hm Hk w. unfold bind. specialize (Hm w).
  destruct (m w) as [[a|e] w']; simpl in *; [now rewrite Hk|assumption].
Qed.

Lemma keeps_clock_try_catch A (m : M A) (h : Exn -> M A) :
  keeps_clock m -> (forall e, keeps_clock (h e)) -> keeps_clock (try_catch m h).
Proof.
  intros Hm Hh w. unfold try_catch. specialize (Hm w).
  destruct (m w) as [[a|e] w']; simpl in *; [assumption|now rewrite Hh].
Qed.

End Clock.

#[local] Hint Resolve keeps_clock_ret keeps_clock_throw keeps_clock_new_Date
  keeps_clock_logger keeps_clock_prisma keeps_clock_prisma_at : frame.

Ltac clocks :=
  repeat first
    [ solve [auto with frame]
    | apply keeps_clock_bind; [|intros ?]
    | apply keeps_clock_try_catch; [|intros ?]
    | match goal with
      | |- keeps_clock (match ?x with _ => _ end) => destruct x
      end ].

Lemma processEvent_keeps_clock (event : Stripe.Event) :
  keeps_clock (WebhookService.processEvent event).
Proof. open_reconcilers. clocks. Qed.

Lemma webhookEvent_upsert_entry (event : Stripe.Event) (now : DateTime) (d : Db) :
  exists r,
    WebhookService.webhookEvent_findUnique (Stripe.id event)
      (snd (WebhookService.webhookEvent_upsert event now d)) = Some r
    /\ WebhookEvent.type r = Stripe.type event
    /\ WebhookEvent.data r = Stripe.data_object event.
Proof.
  unfold WebhookService.webhookEvent_upsert, WebhookService.webhookEvent_findUnique.
  destruct (existsb _ (webhookEvents d)) eqn:E; simpl.
  - rewrite find_updateMany by reflexivity. rewrite <- is_some_find in E.
    destruct (find _ (webhookEvents d)); [|discriminate]. eexists. repeat split.
  - rewrite (find_app_new _ _ _ E) by apply String.eqb_refl. eexists. repeat split.
Qed.

(** X6. A first delivery that resolves leaves in the ledger, under the
    event's id, the event's type tag and payload, marked processed and
    stamped with the time of the delivery. *)
Theorem resolved_delivery_is_recorded :
  forall event w w',
    ledger_processed (Stripe.id event) (db w) = false ->
    WebhookService.handleWebhookEvent event w = (Ok tt, w') ->
    exists r,
      WebhookService.webhookEvent_findUnique (Stripe.id event) (db w') = Some r
      /\ WebhookEvent.stripeEventId r = Stripe.id event
      /\ WebhookEvent.type r = Stripe.type event
      /\ WebhookEvent.data r = Stripe.data_object event
      /\ WebhookEvent.processed r = true
      /\ WebhookEvent.processedAt r = Some (clock w).
Proof.
  intros event w w' Hp. unfold WebhookService.handleWebhookEvent, bind.
  destruct (prisma_query_cases
              (WebhookService.webhookEvent_findUnique (Stripe.id event)) w)
    as [(e & fs & _ & ->)|(w0 & -> & Hdb0 & _ & Hc0 & _)]; [discriminate|].
  fold (ledger_processed (Stripe.id event) (db w)). rewrite Hp.
  destruct (prisma_at _ w0) as [[[]|e] w1] eqn:Hup; [|discriminate].
  unfold try_catch, bind.
  destruct (WebhookService.processEvent event w1) as [[[]|e] w2] eqn:Hproc.
  2:{ unfold logger, throw. discriminate. }
  unfold new_Date.
  destruct (prisma _ w2) as [[[]|e] w3] eqn:Hmark.
  2:{ unfold logger, throw. discriminate. }
  unfold logger. intros H; inversion H; subst w'. clear H. simpl.
  unfold prisma_at in Hup. apply prisma_ok_inv in Hup as (Hup & _ & Hc1).
  apply prisma_ok_inv in Hmark as (Hmark & _).
  pose proof (processEvent_keeps_ledger event w1) as Hk. rewrite Hproc in Hk. simpl in Hk.
  pose proof (processEvent_keeps_clock event w1) as Hc2. rewrite Hproc in Hc2. simpl in Hc2.
  destruct (webhookEvent_upsert_entry event (clock w0) (db w0)) as (r1 & Hr1 & Ht & Hd).
  rewrite Hup in Hr1. simpl in Hr1.
  unfold WebhookService.webhookEvent_markProcessed, update in Hmark.
  destruct (existsb _ (webhookEvents (db w2))); [|discriminate].
  inversion Hmark as [Hdb3]. unfold WebhookService.webhookEvent_findUnique. simpl.
  rewrite find_updateMany by reflexivity. rewrite Hk.
  unfold WebhookService.webhookEvent_findUnique in Hr1. rewrite Hr1. simpl.
  eexists. split; [reflexivity|]. simpl.
  apply find_some in Hr1 as (_ & Hkey). apply String.eqb_eq in Hkey.
  repeat split; try assumption. congruence.
Qed.

Lemma resolved_delivery_is_recorded_witness :
  let w := Scenario.world0 (Scenario.sub_1 false None 9000) [] 6000 in
  exists r,
    WebhookService.webhookEvent_findUnique "evt_1"
      (db (snd (WebhookService.handleWebhookEvent Scenario.evt_1 w))) = Some r
    /\ WebhookEvent.stripeEventId r = "evt_1"%string
    /\ WebhookEvent.type r = "customer.subscription.deleted"%string
    /\ WebhookEvent.data r = Stripe.ObjSubscription Scenario.stripe_sub_1
    /\ WebhookEvent.processed r = true
    /\ WebhookEvent.processedAt r = Some 6000.
Proof.
  intros w.
  apply (@resolved_delivery_is_recorded Scenario.evt_1 w
           (snd (WebhookService.handleWebhookEvent Scenario.evt_1 w)));
    reflexivity.
Defined.

(* ------------------------------------------------------------------ *)
(** ** Upserts *)

Lemma find_upsert_rows R (key : R -> bool) (data : R -> R) (created : R) (rows : list R) :
  key created = true -> (forall r, key (data r) = key r) ->
  find key (upsert_rows key data created rows)
  = Some (match find key rows with Some r0 => data r0 | None => created end).
Proof.
  intros Hc Hk. unfold upsert_rows. destruct (existsb key rows) eqn:E.
  - rewrite find_updateMany by assumption. rewrite <- is_some_find in E.
    destruct (find key rows); [reflexivity|discriminate].
  - rewrite (find_app_new _ _ _ E Hc). rewrite <- is_some_find in E.
    destruct (find key rows); [discriminate|reflexivity].
Qed.

Lemma upsert_rows_found R (key : R -> bool) (data : R -> R) (created : R)
    (rows : list R) (r0 : R) :
  find key rows = Some r0 ->
  upsert_rows key data created rows = updateMany key data rows.
Proof.
  intros H. unfold upsert_rows. rewrite <- is_some_find, H. reflexivity.
Qed.

Lemma upsert_rows_fresh R (key : R -> bool) (data : R -> R) (created : R) (rows : list R) :
  find key rows = None ->
  upsert_rows key data created rows = rows ++ [created].
Proof.
  intros H. unfold upsert_rows. rewrite <- is_some_find, H. reflexivity.
Qed.

Lemma updateMany_ext_in R (c : R -> bool) (f g : R -> R) (rows : list R) :
  (forall r, In r rows -> c r = true -> f r = g r) ->
  updateMany c f rows = updateMany c g rows.
Proof.
  intros H. unfold updateMany. apply map_ext_in. intros r Hin.
  destruct (c r) eqn:E; auto.
Qed.

(** The rows an upsert has written: each is the created row or a
    rewritten one. *)
Lemma In_upsert_rows_key R (key : R -> bool) (data : R -> R) (created : R)
    (rows : list R) (r : R) :
  In r (upsert_rows key data created rows) -> key r = true ->
  r = created \/ exists r0, r = data r0.
Proof.
  unfold upsert_rows. destruct (existsb key rows) eqn:E; intros Hin Hk.
  - apply In_updateMany in Hin as (r0 & Hr0 & ->). destruct (key r0) eqn:E0; [eauto|].
    congruence.
  - apply in_app_or in Hin as [Hin|[<-|[]]]; [|auto].
    assert (existsb key rows = true); [|congruence].
    apply existsb_exists. eauto.
Qed.

Lemma product_upsert_rows (product : Stripe.Product) (t now : DateTime) (d : Db) :
  fst (WebhookService.product_upsert product t now d) = Ok tt
  /\ products (snd (WebhookService.product_upsert product t now d))
     = upsert_rows (fun p => Product.stripeProductId p === Stripe.prod_id product)
         (fun p => Product.Build_t (Product.id p) (Product.stripeProductId p)
                     (Stripe.prod_name product) (Stripe.prod_description product)
                     (Stripe.prod_metadata product) (Stripe.prod_active product)
                     (Product.createdAt p) t)
         (Product.Build_t (cuid (nextId d)) (Stripe.prod_id product)
            (Stripe.prod_name product) (Stripe.prod_description product)
            (Stripe.prod_metadata product) (Stripe.prod_active product) now now)
         (products d)
  /\ users (snd (WebhookService.product_upsert product t now d)) = users d
  /\ prices (snd (WebhookService.product_upsert product t now d)) = prices d
  /\ subscriptions (snd (WebhookService.product_upsert product t now d)) = subscriptions d
  /\ paymentMethods (snd (WebhookService.product_upsert product t now d)) = paymentMethods d
  /\ webhookEvents (snd (WebhookService.product_upsert product t now d)) = webhookEvents d.
Proof.
  unfold WebhookService.product_upsert, upsert_rows.
  destruct (existsb _ (products d)); repeat split.
Qed.

Lemma handleProductUpdated_run (product : Stripe.Product) (w : World) :
  faults w = [] ->
  WebhookService.handleProductUpdated product w
  = (Ok tt,
     set_db (snd (WebhookService.product_upsert product (clock w) (clock w) (db w))) w).
Proof.
  intros Hf. unfold WebhookService.handleProductUpdated, bind, new_Date, prisma_at.
  rewrite prisma_no_fault by assumption.
  now rewrite (proj1 (product_upsert_rows product (clock w) (clock w) (db w))).
Qed.

(** X7. [handleProductUpdated] is an upsert keyed by the external product
    id.  On storage that accepts the call it resolves, and the row then
    found under that id carries the name, description, metadata and active
    flag of the payload and the time of the delivery as update stamp.  An
    existing row keeps its local id and creation stamp and no row is added;
    otherwise exactly one row is appended.  A redelivery of the same
    payload at a later time [t] changes nothing but the update stamp of
    that row. *)
Theorem handleProductUpdated_upserts :
  forall product w,
    faults w = [] ->
    exists w1 r,
      WebhookService.handleProductUpdated product w = (Ok tt, w1)
      /\ WebhookService.product_findUnique (Stripe.prod_id product) (db w1) = Some r
      /\ Product.name r = Stripe.prod_name product
      /\ Product.description r = Stripe.prod_description product
      /\ Product.metadata r = Stripe.prod_metadata product
      /\ Product.active r = Stripe.prod_active product
      /\ Product.updatedAt r = clock w
      /\ (forall r0,
            WebhookService.product_findUnique (Stripe.prod_id product) (db w) = Some r0 ->
            Product.id r = Product.id r0 /\ Product.createdAt r = Product.createdAt r0
            /\ map Product.id (products (db w1)) = map Product.id (products (db w)))
      /\ (WebhookService.product_findUnique (Stripe.prod_id product) (db w) = None ->
          products (db w1) = products (db w) ++ [r])
      /\ (forall t,
            exists w2,
              WebhookService.handleProductUpdated product (set_clock t w1) = (Ok tt, w2)
              /\ products (db w2)
                 = updateMany
                     (fun p => Product.stripeProductId p === Stripe.prod_id product)
                     (product_stamped t) (products (db w1))
              /\ same_entities
                   (set_products (products (db w2)) (db w1)) (db w2)
              /\ nextId (db w2) = nextId (db w1)).
Proof.
  intros product w Hf.
  destruct (product_upsert_rows product (clock w) (clock w) (db w))
    as (_ & Hrows & _).
  set (key := fun p => Product.stripeProductId p === Stripe.prod_id product) in *.
  assert (Hfind := @find_upsert_rows _ key
            (fun p => Product.Build_t (Product.id p) (Product.stripeProductId p)
                        (Stripe.prod_name product) (Stripe.prod_description product)
                        (Stripe.prod_metadata product) (Stripe.prod_active product)
                        (Product.createdAt p) (clock w))
            (Product.Build_t (cuid (nextId (db w))) (Stripe.prod_id product)
               (Stripe.prod_name product) (Stripe.prod_description product)
               (Stripe.prod_metadata product) (Stripe.prod_active product)
               (clock w) (clock w))
            (products (db w)) (String.eqb_refl _) (fun r => eq_refl)).
  rewrite <- Hrows in Hfind.
  eexists _, _. split; [now apply handleProductUpdated_run|].
  split; [exact Hfind|]. simpl.
  unfold WebhookService.product_findUnique. fold key.
  split; [destruct (find key (products (db w))); reflexivity|].
  split; [destruct (find key (products (db w))); reflexivity|].
  split; [destruct (find key (products (db w))); reflexivity|].
  split; [destruct (find key (products (db w))); reflexivity|].
  split; [destruct (find key (products (db w))); reflexivity|].
  split; [|split].
  - intros r0 E0. rewrite E0. split; [reflexivity|]. split; [reflexivity|].
    rewrite Hrows. erewrite upsert_rows_found by exact E0. now apply map_updateMany_key.
  - intros E0. rewrite E0. rewrite Hrows. now apply upsert_rows_fresh.
  - intros t.
    destruct (product_upsert_rows product t t
                (snd (WebhookService.product_upsert product (clock w) (clock w) (db w))))
      as (_ & Hrows2 & Hrest).
    eexists. split; [apply handleProductUpdated_run; exact Hf|]. simpl.
    split; [|split].
    + rewrite Hrows2. fold key. erewrite upsert_rows_found by exact Hfind.
      apply updateMany_ext_in. intros r Hin Hk.
      rewrite Hrows in Hin.
      apply In_upsert_rows_key in Hin as [->|(r1 & ->)]; [| |exact Hk]; reflexivity.
    + destruct Hrest as (A & B & C & D & E). repeat split; assumption.
    + set (d1 := snd (WebhookService.product_upsert product (clock w) (clock w) (db w)))
        in *.
      unfold WebhookService.product_upsert. fold key.
      rewrite <- is_some_find, Hfind. reflexivity.
Qed.

Lemma handleProductUpdated_upserts_witness :
  let w := Scenario.world0 (Scenario.sub_1 false None 9000) [] 6000 in
  let product := Stripe.Build_Product "prod_1" "Pro+" (Some "More") [] true in
  exists w1 r,
    WebhookService.handleProductUpdated product w = (Ok tt, w1)
    /\ WebhookService.product_findUnique "prod_1" (db w1) = Some r
    /\ Product.name r = "Pro+"%string
    /\ Product.id r = "prd_1"%string
    /\ map Product.id (products (db w1)) = ["prd_1"%string].
Proof.
  intros w product.
  destruct (@handleProductUpdated_upserts product w eq_refl)
    as (w1 & r & Hrun & Hfind & Hname & _ & _ & _ & _ & Hold & _).
  destruct (Hold Scenario.pro eq_refl) as (Hid & _ & Hids).
  exists w1, r. repeat split; assumption.
Defined.

(* ------------------------------------------------------------------ *)
(** ** Deletion events of the catalog *)

Lemma set_subscriptions_same (d : Db) : set_subscriptions (subscriptions d) d = d.
Proof. destruct d; reflexivity. Qed.

Lemma updateMany_none R (c : R -> bool) (f : R -> R) (rows : list R) :
  (forall r, In r rows -> c r = false) -> updateMany c f rows = rows.
Proof.
  intros H. unfold updateMany. rewrite <- (map_id rows) at 2.
  apply map_ext_in. intros r Hin. now rewrite (H r Hin).
Qed.

(** X8. [product.deleted] and [price.deleted] are soft deletes.  Whatever
    storage does, the handler removes no row of its table and changes no
    local id, and it leaves the other catalog table and the subscriptions
    as they are.  On storage that accepts the call it resolves, every row
    under the external id is then inactive, and every other row is
    untouched. *)
Theorem catalog_deletions_are_soft :
  (forall product w,
      map Product.id (products (db (snd (WebhookService.handleProductDeleted product w))))
      = map Product.id (products (db w))
      /\ prices (db (snd (WebhookService.handleProductDeleted product w))) = prices (db w)
      /\ subscriptions (db (snd (WebhookService.handleProductDeleted product w)))
         = subscriptions (db w))
  /\ (forall product w,
        faults w = [] ->
        fst (WebhookService.handleProductDeleted product w) = Ok tt
        /\ (forall p, In p (products (db (snd (WebhookService.handleProductDeleted product w)))) ->
                      Product.stripeProductId p = Stripe.prod_id product ->
                      Product.active p = false)
        /\ (forall p, In p (products (db w)) ->
                      Product.stripeProductId p <> Stripe.prod_id product ->
                      In p (products (db (snd (WebhookService.handleProductDeleted product w))))))
  /\ (forall price w,
        map Price.id (prices (db (snd (WebhookService.handlePriceDeleted price w))))
        = map Price.id (prices (db w))
        /\ products (db (snd (WebhookService.handlePriceDeleted price w))) = products (db w)
        /\ subscriptions (db (snd (WebhookService.handlePriceDeleted price w)))
           = subscriptions (db w))
  /\ (forall price w,
        faults w = [] ->
        fst (WebhookService.handlePriceDeleted price w) = Ok tt
        /\ (forall p, In p (prices (db (snd (WebhookService.handlePriceDeleted price w)))) ->
                      Price.stripePriceId p = Stripe.pr_id price ->
                      Price.active p = false)
        /\ (forall p, In p (prices (db w)) ->
                      Price.stripePriceId p <> Stripe.pr_id price ->
                      In p (prices (db (snd (WebhookService.handlePriceDeleted price w)))))).
Proof.
  split; [|split; [|split]].
  - intros product w. unfold WebhookService.handleProductDeleted, prisma_at.
    match goal with
    | |- context [prisma ?op w] => destruct (prisma_db_cases op w) as [->| ->]
    end; simpl; repeat split.
    now apply map_updateMany_key.
  - intros product w Hf. unfold WebhookService.handleProductDeleted, prisma_at.
    rewrite prisma_no_fault by assumption. simpl. split; [reflexivity|]. split.
    + intros p Hin Hid. apply In_updateMany in Hin as (r & Hr & ->).
      destruct (String.eqb_spec (Product.stripeProductId r) (Stripe.prod_id product));
        [reflexivity|contradiction].
    + intros p Hin Hid. apply In_updateMany. exists p. split; [assumption|].
      destruct (String.eqb_spec (Product.stripeProductId p) (Stripe.prod_id product));
        [contradiction|reflexivity].
  - intros price w. unfold WebhookService.handlePriceDeleted, prisma_at.
    match goal with
    | |- context [prisma ?op w] => destruct (prisma_db_cases op w) as [->| ->]
    end; simpl; repeat split.
    now apply map_updateMany_key.
  - intros price w Hf. unfold WebhookService.handlePriceDeleted, prisma_at.
    rewrite prisma_no_fault by assumption. simpl. split; [reflexivity|]. split.
    + intros p Hin Hid. apply In_updateMany in Hin as (r & Hr & ->).
      destruct (String.eqb_spec (Price.stripePriceId r) (Stripe.pr_id price));
        [reflexivity|contradiction].
    + intros p Hin Hid. apply In_updateMany. exists p. split; [assumption|].
      destruct (String.eqb_spec (Price.stripePriceId p) (Stripe.pr_id price));
        [contradiction|reflexivity].
Qed.

Lemma catalog_deletions_are_soft_witness :
  let w := Scenario.world0 (Scenario.sub_1 false None 9000) [] 6000 in
  let price :=
    Stripe.Build_Price "price_1" "prod_1" "recurring" None None "usd" (Some 1900) [] true in
  fst (WebhookService.handlePriceDeleted price w) = Ok tt
  /\ (forall p, In p (prices (db (snd (WebhookService.handlePriceDeleted price w)))) ->
                Price.stripePriceId p = "price_1"%string -> Price.active p = false)
  /\ map Price.id (prices (db (snd (WebhookService.handlePriceDeleted price w))))
     = ["prc_1"%string].
Proof.
  intros w price. destruct catalog_deletions_are_soft as (_ & _ & H3 & H4).
  destruct (H4 price w eq_refl) as (A & B & _).
  split; [exact A|]. split; [exact B|]. apply (H3 price w).
Defined.

(* ------------------------------------------------------------------ *)
(** ** Invoice events *)

Lemma find_map_preserving R (key : R -> bool) (g : R -> R) (rows : list R) :
  (forall r, key (g r) = key r) ->
  find key (map g rows) = option_map g (find key rows).
Proof.
  intros Hk. induction rows as [|r rows IH]; simpl; [reflexivity|].
  rewrite Hk. destruct (key r); auto.
Qed.

(** X9. [invoice.payment_succeeded], on storage that accepts the calls.
    When the invoice names a locally known subscription that is not
    ACTIVE, the handler resolves, the subscription found under that
    external id is then ACTIVE with the time of the delivery as update
    stamp, and no row is added or removed.  When the invoice names no
    subscription, an unknown one, or one that is already ACTIVE, the
    handler resolves and the world is exactly as it was: nothing is
    written, not even an update stamp. *)
Theorem handleInvoicePaymentSucceeded_promotes :
  forall invoice w,
    faults w = [] ->
    (forall sid s,
        Stripe.subscription invoice = Some sid -> truthy_string sid = true ->
        WebhookService.subscription_findUnique sid (db w) = Some s ->
        Subscription.status s <> ACTIVE ->
        exists w',
          WebhookService.handleInvoicePaymentSucceeded invoice w = (Ok tt, w')
          /\ WebhookService.subscription_findUnique sid (db w')
             = Some (Subscription.set_updatedAt (clock w) (Subscription.set_status ACTIVE s))
          /\ map Subscription.id (subscriptions (db w'))
             = map Subscription.id (subscriptions (db w)))
    /\ (Stripe.subscription invoice = None ->
        WebhookService.handleInvoicePaymentSucceeded invoice w = (Ok tt, w))
    /\ (forall sid,
          Stripe.subscription invoice = Some sid ->
          truthy_string sid = false
          \/ WebhookService.subscription_findUnique sid (db w) = None
          \/ (exists s, WebhookService.subscription_findUnique sid (db w) = Some s
                        /\ Subscription.status s = ACTIVE) ->
          WebhookService.handleInvoicePaymentSucceeded invoice w = (Ok tt, w)).
Proof.
  intros invoice w Hf. unfold WebhookService.handleInvoicePaymentSucceeded.
  split; [|split].
  - intros sid s -> -> Hs Hst. unfold bind.
    rewrite prisma_query_no_fault by assumption. rewrite Hs.
    assert (Hne : negb (SubscriptionStatus_eqb (Subscription.status s) ACTIVE) = true).
    { apply negb_true_iff, not_true_is_false. now rewrite SubscriptionStatus_eqb_eq. }
    rewrite Hne. unfold prisma_at. rewrite prisma_no_fault by assumption.
    pose proof (find_some _ _ Hs) as (Hin & _).
    rewrite update_ok.
    2:{ apply existsb_exists. exists s. split; [assumption|apply String.eqb_refl]. }
    simpl. eexists. split; [reflexivity|]. simpl. split.
    + unfold WebhookService.subscription_findUnique, updateMany. simpl.
      rewrite find_map_preserving.
      * unfold WebhookService.subscription_findUnique in Hs. rewrite Hs. simpl.
        now rewrite String.eqb_refl.
      * intros r. destruct (Subscription.id r === Subscription.id s); reflexivity.
    + now apply map_updateMany_key.
  - intros ->. reflexivity.
  - intros sid -> [Hfalsy|[Hnone|(s & Hs & Hst)]].
    + now rewrite Hfalsy.
    + destruct (truthy_string sid); [|reflexivity]. unfold bind.
      rewrite prisma_query_no_fault by assumption. now rewrite Hnone.
    + destruct (truthy_string sid); [|reflexivity]. unfold bind.
      rewrite prisma_query_no_fault by assumption. rewrite Hs, Hst. reflexivity.
Qed.

Lemma handleInvoicePaymentSucceeded_promotes_witness :
  let past_due :=
    Subscription.set_status PAST_DUE (Scenario.sub_1 false None 9000) in
  let w := Scenario.world0 past_due [] 6000 in
  let invoice := Stripe.Build_Invoice (Some "sub_1"%string) in
  (exists w',
      WebhookService.handleInvoicePaymentSucceeded invoice w = (Ok tt, w')
      /\ WebhookService.subscription_findUnique "sub_1" (db w')
         = Some (Subscription.set_updatedAt 6000 (Scenario.sub_1 false None 9000)))
  /\ WebhookService.handleInvoicePaymentSucceeded invoice
       (Scenario.world0 (Scenario.sub_1 false None 9000) [] 6000)
     = (Ok tt, Scenario.world0 (Scenario.sub_1 false None 9000) [] 6000).
Proof.
  intros past_due w invoice. split.
  - destruct (proj1 (@handleInvoicePaymentSucceeded_promotes invoice w eq_refl)
                "sub_1"%string past_due eq_refl eq_refl eq_refl)
      as (w' & Hrun & Hfind & _); [discriminate|].
    exists w'. split; [exact Hrun|exact Hfind].
  - apply (proj2 (proj2 (@handleInvoicePaymentSucceeded_promotes invoice
                           (Scenario.world0 (Scenario.sub_1 false None 9000) [] 6000)
                           eq_refl)) "sub_1"%string eq_refl).
    right. right. eexists. split; reflexivity.
Defined.

(** X10. [invoice.payment_failed], on storage that accepts the call.  The
    handler resolves; every row of the subscription the invoice names is
    then PAST_DUE with the time of the delivery as update stamp, whatever
    its status was, and every other row is untouched; no row is added or
    removed.  When the invoice names no subscription or an unknown one the
    world is exactly as it was. *)
Theorem handleInvoicePaymentFailed_demotes :
  forall invoice w,
    faults w = [] ->
    (forall sid,
        Stripe.subscription invoice = Some sid -> truthy_string sid = true ->
        exists w',
          WebhookService.handleInvoicePaymentFailed invoice w = (Ok tt, w')
          /\ map Subscription.id (subscriptions (db w'))
             = map Subscription.id (subscriptions (db w))
          /\ (forall s, In s (subscriptions (db w)) ->
                Subscription.stripeSubscriptionId s = sid ->
                In (Subscription.set_updatedAt (clock w) (Subscription.set_status PAST_DUE s))
                   (subscriptions (db w')))
          /\ (forall s, In s (subscriptions (db w)) ->
                Subscription.stripeSubscriptionId s <> sid ->
                In s (subscriptions (db w')))
          /\ ((forall s, In s (subscriptions (db w)) ->
                 Subscription.stripeSubscriptionId s <> sid) -> w' = w))
    /\ (truthy_opt_string (Stripe.subscription invoice) = false ->
        WebhookService.handleInvoicePaymentFailed invoice w = (Ok tt, w)).
Proof.
  intros invoice w Hf. unfold WebhookService.handleInvoicePaymentFailed. split.
  - intros sid -> ->. unfold prisma_at. rewrite prisma_no_fault by assumption. simpl.
    eexists. split; [reflexivity|]. simpl. split; [|split; [|split]].
    + now apply map_updateMany_key.
    + intros s Hin Hid. apply In_updateMany. exists s. split; [assumption|].
      rewrite Hid, String.eqb_refl. reflexivity.
    + intros s Hin Hid. apply In_updateMany. exists s. split; [assumption|].
      now destruct (String.eqb_spec (Subscription.stripeSubscriptionId s) sid).
    + intros Hnone. rewrite updateMany_none.
      * now rewrite set_subscriptions_same, set_db_same.
      * intros r Hin.
        destruct (String.eqb_spec (Subscription.stripeSubscriptionId r) sid);
          [|reflexivity].
        now apply Hnone in Hin.
  - destruct (Stripe.subscription invoice) as [sid|]; simpl; [|reflexivity].
    now intros ->.
Qed.

Lemma handleInvoicePaymentFailed_demotes_witness :
  let canceled :=
    Subscription.set_status CANCELED (Scenario.sub_1 false None 9000) in
  let w := Scenario.world0 canceled [] 6000 in
  exists w',
    WebhookService.handleInvoicePaymentFailed
      (Stripe.Build_Invoice (Some "sub_1"%string)) w = (Ok tt, w')
    /\ In (Subscription.set_updatedAt 6000 (Subscription.set_status PAST_DUE canceled))
          (subscriptions (db w')).
Proof.
  intros canceled w.
  destruct (proj1 (@handleInvoicePaymentFailed_demotes
                     (Stripe.Build_Invoice (Some "sub_1"%string)) w eq_refl)
              "sub_1"%string eq_refl eq_refl)
    as (w' & Hrun & _ & Hin & _).
  exists w'. split; [exact Hrun|]. apply Hin; [left|]; reflexivity.
Defined.

(* ------------------------------------------------------------------ *)
(** ** Customer events *)

Lemma link_condition_linked (email : string) (u : User.t) :
  is_some (User.stripeCustomerId u) = true ->
  (User.email u === email) && negb (is_some (User.stripeCustomerId u)) = false.
Proof. intros ->. apply andb_false_r. Qed.

(** X11. The customer reconcilers never change an existing linkage.
    Whatever storage does, [customer.created] leaves every user row that
    has a processor customer id exactly as it is, and neither it nor
    [customer.updated] adds, removes or renames a user or changes an
    email; [customer.updated] changes no customer id at all.  On storage
    that accepts the call, [customer.created] links the unlinked user whose
    email is the customer's, unless another user already holds that
    customer id, in which case it throws P2002 and writes nothing. *)
Theorem customer_events_keep_linkage :
  (forall customer w u,
      In u (users (db w)) -> is_some (User.stripeCustomerId u) = true ->
      In u (users (db (snd (WebhookService.handleCustomerCreated customer w)))))
  /\ (forall customer w,
        map (fun u => (User.id u, User.email u))
            (users (db (snd (WebhookService.handleCustomerCreated customer w))))
        = map (fun u => (User.id u, User.email u)) (users (db w)))
  /\ (forall customer w,
        map (fun u => (User.id u, User.email u, User.stripeCustomerId u))
            (users (db (snd (WebhookService.handleCustomerUpdated customer w))))
        = map (fun u => (User.id u, User.email u, User.stripeCustomerId u)) (users (db w)))
  /\ (forall customer email w u,
        faults w = [] ->
        Stripe.cus_email customer = Some email -> truthy_string email = true ->
        In u (users (db w)) -> User.email u = email -> User.stripeCustomerId u = None ->
        (existsb (fun v => opt_string_eqb (User.stripeCustomerId v) (Stripe.cus_id customer))
                 (users (db w)) = false ->
         exists w',
           WebhookService.handleCustomerCreated customer w = (Ok tt, w')
           /\ In (User.set_stripeCustomerId (Some (Stripe.cus_id customer)) (clock w) u)
                 (users (db w')))
        /\ (existsb (fun v => opt_string_eqb (User.stripeCustomerId v) (Stripe.cus_id customer))
                    (users (db w)) = true ->
            WebhookService.handleCustomerCreated customer w
            = (Throw (PrismaClientKnownRequestError P2002), w))).
Proof.
  split; [|split; [|split]].
  - intros customer w u Hin Hl. unfold WebhookService.handleCustomerCreated.
    destruct (Stripe.cus_email customer) as [email|]; [|assumption].
    destruct (truthy_string email); [|assumption]. unfold prisma_at.
    match goal with
    | |- context [prisma ?op w] => destruct (prisma_db_cases op w) as [->| ->]
    end; [assumption|].
    unfold WebhookService.user_link_by_email.
    destruct (_ && _); [assumption|]. simpl.
    apply In_updateMany. exists u. split; [assumption|].
    now rewrite link_condition_linked.
  - intros customer w. unfold WebhookService.handleCustomerCreated.
    destruct (Stripe.cus_email customer) as [email|]; [|reflexivity].
    destruct (truthy_string email); [|reflexivity]. unfold prisma_at.
    match goal with
    | |- context [prisma ?op w] => destruct (prisma_db_cases op w) as [->| ->]
    end; [reflexivity|].
    unfold WebhookService.user_link_by_email.
    destruct (_ && _); [reflexivity|]. simpl. now apply map_updateMany_key.
  - intros customer w. unfold WebhookService.handleCustomerUpdated.
    destruct (truthy_opt_string _); [|reflexivity]. unfold bind, new_Date.
    match goal with
    | |- context [prisma ?op w] => destruct (prisma_db_cases op w) as [->| ->]
    end; [reflexivity|].
    simpl. now apply map_updateMany_key.
  - intros customer email w u Hf He Ht Hin Hemail Hnone.
    unfold WebhookService.handleCustomerCreated. rewrite He, Ht. unfold prisma_at.
    rewrite prisma_no_fault by assumption.
    unfold WebhookService.user_link_by_email.
    assert (Hc : (User.email u === email)
                 && negb (is_some (User.stripeCustomerId u)) = true).
    { rewrite Hnone, Hemail, String.eqb_refl. reflexivity. }
    assert (Hex : existsb (fun v => (User.email v === email)
                                    && negb (is_some (User.stripeCustomerId v)))
                    (users (db w)) = true).
    { apply existsb_exists. eauto. }
    rewrite Hex. split; intros ->; simpl.
    + eexists. split; [reflexivity|]. simpl. apply In_updateMany.
      exists u. split; [assumption|]. now rewrite Hc.
    + now rewrite set_db_same.
Qed.

Lemma customer_events_keep_linkage_witness :
  let w := Scenario.world0 (Scenario.sub_1 false None 9000) [] 6000 in
  In Scenario.alice
     (users (db (snd (WebhookService.handleCustomerCreated
                        (Stripe.Build_Customer "cus_2" (Some "alice@example.com"%string)) w))))
  /\ (exists w',
        WebhookService.handleCustomerCreated
          (Stripe.Build_Customer "cus_2" (Some "bob@example.com"%string)) w = (Ok tt, w')
        /\ In (User.set_stripeCustomerId (Some "cus_2"%string) 6000 Scenario.bob)
              (users (db w')))
  /\ WebhookService.handleCustomerCreated
       (Stripe.Build_Customer "cus_1" (Some "bob@example.com"%string)) w
     = (Throw (PrismaClientKnownRequestError P2002), w).
Proof.
  intros w. destruct customer_events_keep_linkage as (H1 & _ & _ & H4).
  split; [|split].
  - apply H1; [left; reflexivity|reflexivity].
  - apply (proj1 (H4 (Stripe.Build_Customer "cus_2" (Some "bob@example.com"%string))
                    "bob@example.com"%string w Scenario.bob
                    eq_refl eq_refl eq_refl (or_intror (or_introl eq_refl))
                    eq_refl eq_refl)).
    reflexivity.
  - apply (proj2 (H4 (Stripe.Build_Customer "cus_1" (Some "bob@example.com"%string))
                    "bob@example.com"%string w Scenario.bob
                    eq_refl eq_refl eq_refl (or_intror (or_introl eq_refl))
                    eq_refl eq_refl)).
    reflexivity.
Defined.

(* ------------------------------------------------------------------ *)
(** ** Payment-method events *)

Lemma set_paymentMethods_same (d : Db) : set_paymentMethods (paymentMethods d) d = d.
Proof. destruct d; reflexivity. Qed.

Lemma filter_none R (c : R -> bool) (rows : list R) :
  (forall r, In r rows -> c r = true) -> filter c rows = rows.
Proof.
  induction rows as [|r rows IH]; simpl; intros H; [reflexivity|].
  rewrite (H r) by auto. f_equal. apply IH. auto.
Qed.

Lemma handlePaymentMethodAttached_run (pm : Stripe.PaymentMethod) (customer : string)
    (user : User.t) (w : World) :
  faults w = [] ->
  Stripe.pm_customer pm = Some customer -> truthy_string customer = true ->
  WebhookService.user_findUnique_stripeCustomerId customer (db w) = Some user ->
  WebhookService.handlePaymentMethodAttached pm w
  = (Ok tt,
     set_db (snd (WebhookService.paymentMethod_upsert pm user (clock w) (clock w) (db w))) w).
Proof.
  intros Hf Hc Ht Hu. unfold WebhookService.handlePaymentMethodAttached.
  rewrite Hc, Ht. unfold bind. rewrite prisma_query_no_fault by assumption.
  rewrite Hu. unfold new_Date, prisma_at. rewrite prisma_no_fault by assumption.
  unfold WebhookService.paymentMethod_upsert.
  destruct (existsb _ (paymentMethods (db w))); reflexivity.
Qed.

Lemma handlePaymentMethodDetached_run (pm : Stripe.PaymentMethod) (w : World) :
  faults w = [] ->
  WebhookService.handlePaymentMethodDetached pm w
  = (Ok tt,
     set_db (set_paymentMethods
               (filter (fun p => negb (PaymentMethod.stripePaymentMethodId p
                                       === Stripe.pm_id pm))
                  (paymentMethods (db w))) (db w)) w).
Proof.
  intros Hf. unfold WebhookService.handlePaymentMethodDetached, try_catch.
  rewrite prisma_no_fault by assumption.
  unfold WebhookService.paymentMethod_delete, delete.
  destruct (existsb _ (paymentMethods (db w))) eqn:E; simpl; [reflexivity|].
  rewrite filter_none; [reflexivity|].
  intros r Hin. apply negb_true_iff. apply not_true_is_false. intros Hk.
  assert (existsb (fun p => PaymentMethod.stripePaymentMethodId p === Stripe.pm_id pm)
            (paymentMethods (db w)) = true); [|congruence].
  apply existsb_exists. eauto.
Qed.

(** X12. [payment_method.attached], on storage that accepts the calls.
    A method with no customer, or with a customer no local user is linked
    to, is skipped: the handler resolves and the world is exactly as it
    was.  Otherwise the handler resolves and the row found under the
    external id carries the type of the payload and the brand, last four
    digits and expiry of its card, all null when the method has no card;
    a row that existed keeps its local id, its owner and its default flag,
    and a created row is owned by the linked user and is not the default. *)
Theorem handlePaymentMethodAttached_upserts :
  forall pm w,
    faults w = [] ->
    ((truthy_opt_string (Stripe.pm_customer pm) = false
      \/ (exists c, Stripe.pm_customer pm = Some c
                    /\ WebhookService.user_findUnique_stripeCustomerId c (db w) = None)) ->
     WebhookService.handlePaymentMethodAttached pm w = (Ok tt, w))
    /\ (forall c user,
          Stripe.pm_customer pm = Some c -> truthy_string c = true ->
          WebhookService.user_findUnique_stripeCustomerId c (db w) = Some user ->
          exists w' r,
            WebhookService.handlePaymentMethodAttached pm w = (Ok tt, w')
            /\ find (fun p => PaymentMethod.stripePaymentMethodId p === Stripe.pm_id pm)
                    (paymentMethods (db w')) = Some r
            /\ PaymentMethod.type r = Stripe.pm_type pm
            /\ PaymentMethod.brand r = option_map Stripe.brand (Stripe.pm_card pm)
            /\ PaymentMethod.last4 r = option_map Stripe.last4 (Stripe.pm_card pm)
            /\ PaymentMethod.expiryMonth r = option_map Stripe.exp_month (Stripe.pm_card pm)
            /\ PaymentMethod.expiryYear r = option_map Stripe.exp_year (Stripe.pm_card pm)
            /\ (forall r0,
                  find (fun p => PaymentMethod.stripePaymentMethodId p === Stripe.pm_id pm)
                       (paymentMethods (db w)) = Some r0 ->
                  PaymentMethod.id r = PaymentMethod.id r0
                  /\ PaymentMethod.userId r = PaymentMethod.userId r0
                  /\ PaymentMethod.isDefault r = PaymentMethod.isDefault r0)
            /\ (find (fun p => PaymentMethod.stripePaymentMethodId p === Stripe.pm_id pm)
                     (paymentMethods (db w)) = None ->
                PaymentMethod.userId r = User.id user
                /\ PaymentMethod.isDefault r = false
                /\ paymentMethods (db w') = paymentMethods (db w) ++ [r])).
Proof.
  intros pm w Hf. split.
  - unfold WebhookService.handlePaymentMethodAttached.
    intros [Hfalsy|(c & Hc & Hnone)].
    + destruct (Stripe.pm_customer pm) as [c|]; [|reflexivity].
      simpl in Hfalsy. now rewrite Hfalsy.
    + rewrite Hc. destruct (truthy_string c); [|reflexivity].
      unfold bind. rewrite prisma_query_no_fault by assumption. now rewrite Hnone.
  - intros c user Hc Ht Hu.
    rewrite (@handlePaymentMethodAttached_run pm c user w Hf Hc Ht Hu).
    set (key := fun p => PaymentMethod.stripePaymentMethodId p === Stripe.pm_id pm).
    unfold WebhookService.paymentMethod_upsert. fold key. cbv zeta.
    destruct (existsb key (paymentMethods (db w))) eqn:E;
      rewrite <- is_some_find in E;
      destruct (find key (paymentMethods (db w))) as [r0|] eqn:E0; try discriminate;
      eexists _, _; (split; [reflexivity|]); simpl.
    + rewrite find_updateMany by reflexivity. rewrite E0. simpl.
      split; [reflexivity|]. repeat split; try discriminate.
      all: inversion H; subst; reflexivity.
    + erewrite find_app_new; [| |apply String.eqb_refl].
      2:{ rewrite <- is_some_find. fold key. now rewrite E0. }
      split; [reflexivity|]. repeat split; discriminate.
Qed.

Lemma handlePaymentMethodAttached_upserts_witness :
  let w := Scenario.world0 (Scenario.sub_1 false None 9000) [] 6000 in
  let pm :=
    Stripe.Build_PaymentMethod "pm_1" (Some "cus_1"%string) "sepa_debit" None in
  WebhookService.handlePaymentMethodAttached
    (Stripe.Build_PaymentMethod "pm_2" (Some "cus_404"%string) "card" None) w = (Ok tt, w)
  /\ exists w' r,
       WebhookService.handlePaymentMethodAttached pm w = (Ok tt, w')
       /\ find (fun p => PaymentMethod.stripePaymentMethodId p === "pm_1")
               (paymentMethods (db w')) = Some r
       /\ PaymentMethod.type r = "sepa_debit"%string
       /\ PaymentMethod.brand r = None
       /\ PaymentMethod.userId r = "usr_1"%string
       /\ PaymentMethod.isDefault r = true.
Proof.
  intros w pm. split.
  - apply (proj1 (@handlePaymentMethodAttached_upserts _ w eq_refl)).
    right. eexists. split; reflexivity.
  - destruct (proj2 (@handlePaymentMethodAttached_upserts pm w eq_refl)
                "cus_1"%string Scenario.alice eq_refl eq_refl eq_refl)
      as (w' & r & Hrun & Hfind & Ht & Hb & _ & _ & _ & Hold & _).
    destruct (Hold Scenario.card_1 eq_refl) as (_ & Hu & Hd).
    exists w', r. repeat split; assumption.
Defined.

(** X13. [payment_method.detached], on storage that accepts the call:
    the handler resolves, no row is left under the external id, the other
    rows are kept in their order, and no other table is touched; when no
    row was under that id the world is exactly as it was.  An attach of a
    method not yet known locally followed by its detach gives back the
    payment-method table as it was. *)
Theorem handlePaymentMethodDetached_deletes :
  forall pm w,
    faults w = [] ->
    (exists w',
        WebhookService.handlePaymentMethodDetached pm w = (Ok tt, w')
        /\ paymentMethods (db w')
           = filter (fun p => negb (PaymentMethod.stripePaymentMethodId p === Stripe.pm_id pm))
               (paymentMethods (db w))
        /\ find (fun p => PaymentMethod.stripePaymentMethodId p === Stripe.pm_id pm)
                (paymentMethods (db w')) = None
        /\ same_entities (set_paymentMethods (paymentMethods (db w')) (db w)) (db w')
        /\ (find (fun p => PaymentMethod.stripePaymentMethodId p === Stripe.pm_id pm)
                 (paymentMethods (db w)) = None -> w' = w))
    /\ (forall c user,
          Stripe.pm_customer pm = Some c -> truthy_string c = true ->
          WebhookService.user_findUnique_stripeCustomerId c (db w) = Some user ->
          find (fun p => PaymentMethod.stripePaymentMethodId p === Stripe.pm_id pm)
               (paymentMethods (db w)) = None ->
          paymentMethods
            (db (snd (WebhookService.handlePaymentMethodDetached pm
                        (snd (WebhookService.handlePaymentMethodAttached pm w)))))
          = paymentMethods (db w)).
Proof.
  intros pm w Hf.
  set (key := fun p => PaymentMethod.stripePaymentMethodId p === Stripe.pm_id pm).
  assert (Hkeep : forall rows, find key rows = None ->
                    filter (fun p => negb (PaymentMethod.stripePaymentMethodId p
                                           === Stripe.pm_id pm)) rows = rows).
  { intros rows Hn. apply filter_none. intros r Hin.
    fold (key r). now rewrite (find_none _ _ Hn r Hin). }
  split.
  - rewrite (@handlePaymentMethodDetached_run pm w Hf). fold key.
    eexists. split; [reflexivity|]. simpl. split; [reflexivity|]. split; [|split].
    + apply find_none_of. intros r Hin. apply filter_In in Hin as (_ & Hk).
      now apply negb_true_iff in Hk.
    + repeat split.
    + intros Hn. rewrite (Hkeep _ Hn). now rewrite set_paymentMethods_same, set_db_same.
  - intros c user Hc Ht Hu Hn.
    rewrite (@handlePaymentMethodAttached_run pm c user w Hf Hc Ht Hu).
    rewrite handlePaymentMethodDetached_run by exact Hf. fold key. simpl.
    unfold WebhookService.paymentMethod_upsert. fold key. cbv zeta.
    rewrite <- is_some_find, Hn. simpl.
    rewrite filter_app. simpl. rewrite String.eqb_refl. simpl.
    rewrite app_nil_r. now apply Hkeep.
Qed.

Lemma handlePaymentMethodDetached_deletes_witness :
  let w := Scenario.world0 (Scenario.sub_1 false None 9000) [] 6000 in
  (exists w',
      WebhookService.handlePaymentMethodDetached
        (Stripe.Build_PaymentMethod "pm_1" (Some "cus_1"%string) "card" None) w = (Ok tt, w')
      /\ paymentMethods (db w') = [])
  /\ paymentMethods
       (db (snd (WebhookService.handlePaymentMethodDetached
                   (Stripe.Build_PaymentMethod "pm_2" (Some "cus_1"%string) "card" None)
                   (snd (WebhookService.handlePaymentMethodAttached
                           (Stripe.Build_PaymentMethod "pm_2" (Some "cus_1"%string) "card" None)
                           w)))))
     = [Scenario.card_1].
Proof.
  intros w. split.
  - destruct (proj1 (@handlePaymentMethodDetached_deletes
                       (Stripe.Build_PaymentMethod "pm_1" (Some "cus_1"%string) "card" None)
                       w eq_refl)) as (w' & Hrun & Hrows & _).
    exists w'. split; [exact Hrun|]. rewrite Hrows. reflexivity.
  - apply (proj2 (@handlePaymentMethodDetached_deletes
                    (Stripe.Build_PaymentMethod "pm_2" (Some "cus_1"%string) "card" None)
                    w eq_refl) "cus_1"%string Scenario.alice); reflexivity.
Defined.

(* ------------------------------------------------------------------ *)
(** ** The subscription upsert, resolved *)

Lemma handleSubscriptionUpdated_run (sub : Stripe.Subscription) (w : World)
    (user : User.t) (pid : string) (price : Price.t) :
  faults w = [] ->
  WebhookService.user_findUnique_stripeCustomerId (Stripe.customer sub) (db w) = Some user ->
  WebhookService.first_price_id sub = Some pid ->
  WebhookService.price_findUnique pid (db w) = Some price ->
  WebhookService.handleSubscriptionUpdated sub w
  = (Ok tt,
     set_db (snd (WebhookService.subscription_upsert sub user price
                    (mapSubscriptionStatus (Stripe.status sub))
                    (clock w) (clock w) (db w))) w).
Proof.
  intros Hf Hu Hfirst Hp. unfold WebhookService.handleSubscriptionUpdated, bind.
  rewrite prisma_query_no_fault by assumption. rewrite Hu, Hfirst.
  rewrite prisma_query_no_fault by assumption. rewrite Hp.
  unfold new_Date, prisma_at. rewrite prisma_no_fault by assumption.
  unfold WebhookService.subscription_upsert.
  destruct (existsb _ (subscriptions (db w))); reflexivity.
Qed.

(** X14. The subscription upsert with both references resolved, on
    storage that accepts the calls: the reconciler resolves, and the row
    then found under the external subscription id is the one the payload
    determines (status through the status mapping, epoch seconds as
    milliseconds, absent or zero timestamps as null).  A row that existed
    keeps its local id, its user, its price and its creation stamp, so a
    payload that names another price does not move the row to it; a
    created row belongs to the resolved user and price and is the only row
    added. *)
Theorem handleSubscriptionUpdated_upserts :
  forall sub w user pid price,
    faults w = [] ->
    WebhookService.user_findUnique_stripeCustomerId (Stripe.customer sub) (db w) = Some user ->
    WebhookService.first_price_id sub = Some pid ->
    WebhookService.price_findUnique pid (db w) = Some price ->
    exists w',
      WebhookService.handleSubscriptionUpdated sub w = (Ok tt, w')
      /\ (forall s0,
            WebhookService.subscription_findUnique (Stripe.sub_id sub) (db w) = Some s0 ->
            WebhookService.subscription_findUnique (Stripe.sub_id sub) (db w')
            = Some (synced_subscription sub (Subscription.id s0)
                      (Subscription.stripeSubscriptionId s0)
                      (Subscription.userId s0) (Subscription.priceId s0)
                      (Subscription.createdAt s0) (clock w))
            /\ map Subscription.id (subscriptions (db w'))
               = map Subscription.id (subscriptions (db w)))
      /\ (WebhookService.subscription_findUnique (Stripe.sub_id sub) (db w) = None ->
          WebhookService.subscription_findUnique (Stripe.sub_id sub) (db w')
          = Some (synced_subscription sub (cuid (nextId (db w))) (Stripe.sub_id sub)
                    (User.id user) (Price.id price) (clock w) (clock w))
          /\ subscriptions (db w')
             = subscriptions (db w)
               ++ [synced_subscription sub (cuid (nextId (db w))) (Stripe.sub_id sub)
                     (User.id user) (Price.id price) (clock w) (clock w)])
      /\ same_entities (set_subscriptions (subscriptions (db w')) (db w)) (db w').
Proof.
  intros sub w user pid price Hf Hu Hfirst Hp.
  rewrite (@handleSubscriptionUpdated_run sub w user pid price Hf Hu Hfirst Hp).
  eexists. split; [reflexivity|]. simpl.
  set (key := fun s => Subscription.stripeSubscriptionId s === Stripe.sub_id sub).
  unfold WebhookService.subscription_upsert, WebhookService.subscription_findUnique.
  fold key. cbv zeta.
  split; [|split].
  - intros s0 E0. rewrite <- is_some_find, E0. simpl.
    rewrite find_updateMany by reflexivity. rewrite E0. simpl.
    split; [reflexivity|]. now apply map_updateMany_key.
  - intros E0. rewrite <- is_some_find, E0. simpl.
    erewrite find_app_new; [| |apply String.eqb_refl].
    2:{ rewrite <- is_some_find. now rewrite E0. }
    split; reflexivity.
  - destruct (existsb key (subscriptions (db w))); repeat split.
Qed.

Lemma handleSubscriptionUpdated_upserts_witness :
  let w := Scenario.world0 (Scenario.sub_1 false None 9000) [] 6000 in
  let moved :=
    Stripe.Build_Subscription "sub_1" "cus_1" [Stripe.Build_SubscriptionItem "price_1"]
      "past_due" true (Some 0) None 2 12 None None None [] in
  exists w' s,
    WebhookService.handleSubscriptionUpdated moved w = (Ok tt, w')
    /\ WebhookService.subscription_findUnique "sub_1" (db w') = Some s
    /\ Subscription.status s = PAST_DUE
    /\ Subscription.currentPeriodEnd s = 12000
    /\ Subscription.cancelAt s = None
    /\ Subscription.priceId s = "prc_1"%string.
Proof.
  intros w moved.
  destruct (@handleSubscriptionUpdated_upserts moved w Scenario.alice "price_1"%string
              Scenario.monthly eq_refl eq_refl eq_refl eq_refl)
    as (w' & Hrun & Hold & _).
  destruct (Hold (Scenario.sub_1 false None 9000) eq_refl) as (Hfind & _).
  exists w'. eexists. split; [exact Hrun|]. split; [exact Hfind|]. repeat split.
Defined.

(* ------------------------------------------------------------------ *)
(** ** The price upsert and its product *)













(* ------------------------------------------------------------------ *)
(** ** Local actions on subscriptions *)

Lemma not_owned_findFirst (userId subscriptionId : string) (d : Db) :
  (forall s, In s (subscriptions d) -> Subscription.id s = subscriptionId ->
             Subscription.userId s <> userId) ->
  PaymentsService.subscription_findFirst subscriptionId userId d = None.
Proof.
  intros H. apply find_none_of. intros s Hin.
  destruct (String.eqb_spec (Subscription.id s) subscriptionId) as [E|]; [|reflexivity].
  destruct (String.eqb_spec (Subscription.userId s) userId) as [E'|]; [|reflexivity].
  now apply H in E.
Qed.

(** X16. The three subscription actions act on the caller's own
    subscriptions only.  On storage that accepts the read, when no
    subscription with the given id belongs to the caller (it does not
    exist, or it is someone else's), each of [cancelSubscription],
    [reactivateSubscription] and [changeSubscription] throws a
    NotFoundException and leaves the world exactly as it was, for every
    processor: the processor's answer is never looked at. *)
Theorem subscription_actions_require_ownership :
  forall stripeService userId subscriptionId immediate newPriceId w,
    faults w = [] ->
    (forall s, In s (subscriptions (db w)) -> Subscription.id s = subscriptionId ->
               Subscription.userId s <> userId) ->
    PaymentsService.cancelSubscription stripeService userId subscriptionId immediate w
    = (Throw (NotFoundException "Subscription not found"), w)
    /\ PaymentsService.reactivateSubscription stripeService userId subscriptionId w
       = (Throw (NotFoundException
                   "Subscription not found or not eligible for reactivation"), w)
    /\ PaymentsService.changeSubscription stripeService userId subscriptionId newPriceId w
       = (Throw (NotFoundException "Subscription not found"), w).
Proof.
  intros stripeService userId subscriptionId immediate newPriceId w Hf Hown.
  pose proof (@not_owned_findFirst userId subscriptionId (db w) Hown) as Hnone.
  split; [|split].
  - unfold PaymentsService.cancelSubscription, bind.
    rewrite prisma_query_no_fault by assumption. now rewrite Hnone.
  - unfold PaymentsService.reactivateSubscription, bind.
    rewrite prisma_query_no_fault by assumption.
    rewrite find_none_of; [reflexivity|].
    intros s Hin.
    destruct (String.eqb_spec (Subscription.id s) subscriptionId) as [E|]; [|reflexivity].
    destruct (String.eqb_spec (Subscription.userId s) userId) as [E'|]; [|reflexivity].
    now apply Hown in E.
  - unfold PaymentsService.changeSubscription, bind.
    rewrite prisma_query_no_fault by assumption. now rewrite Hnone.
Qed.

Lemma subscription_actions_require_ownership_witness :
  let w := Scenario.world0 (Scenario.sub_1 true (Some 9000) 9000) [] 6000 in
  PaymentsService.cancelSubscription Scenario.stripe_ok "usr_2" "s_1" true w
  = (Throw (NotFoundException "Subscription not found"), w)
  /\ PaymentsService.reactivateSubscription Scenario.stripe_ok "usr_2" "s_1" w
     = (Throw (NotFoundException
                 "Subscription not found or not eligible for reactivation"), w)
  /\ PaymentsService.changeSubscription Scenario.stripe_ok "usr_2" "s_1" "price_1" w
     = (Throw (NotFoundException "Subscription not found"), w).
Proof.
  intros w.
  apply (@subscription_actions_require_ownership Scenario.stripe_ok
           "usr_2" "s_1" true "price_1" w eq_refl).
  intros s [<-|[]] _. discriminate.
Defined.

Lemma NoDup_map_eq R K (k : R -> K) (rows : list R) (a b : R) :
  NoDup (map k rows) -> In a rows -> In b rows -> k a = k b -> a = b.
Proof.
  induction rows as [|r rows IH]; simpl; intros Hnd Ha Hb Hk; [contradiction|].
  inversion Hnd as [|? ? Hn Hnd']; subst.
  destruct Ha as [->|Ha], Hb as [->|Hb]; auto.
  - exfalso. apply Hn. rewrite Hk. now apply in_map.
  - exfalso. apply Hn. rewrite <- Hk. now apply in_map.
Qed.

Lemma existsb_ext_in R (p q : R -> bool) (rows : list R) :
  (forall r, In r rows -> p r = q r) -> existsb p rows = existsb q rows.
Proof.
  induction rows as [|r rows IH]; simpl; intros H; [reflexivity|].
  rewrite (H r) by auto. f_equal. apply IH. auto.
Qed.

Lemma cancelSubscription_run stripeService userId subscriptionId immediate w s u :
  faults w = [] ->
  PaymentsService.subscription_findFirst subscriptionId userId (db w) = Some s ->
  StripeService.cancelSubscription stripeService
    (Subscription.stripeSubscriptionId s) immediate = Ok u ->
  PaymentsService.cancelSubscription stripeService userId subscriptionId immediate w
  = (Ok (true, immediate),
     set_db
       (set_subscriptions
          (updateMany (fun r => Subscription.id r === subscriptionId)
             (fun r =>
                Subscription.set_updatedAt (clock w)
                  (Subscription.set_status
                     (if immediate then CANCELED else Subscription.status s)
                     (Subscription.set_cancelAt (epoch_or_null (Stripe.cancel_at u))
                        (Subscription.set_cancelAtPeriodEnd
                           (Stripe.cancel_at_period_end u) r))))
             (subscriptions (db w))) (db w)) w).
Proof.
  intros Hf Hs Hu. unfold PaymentsService.cancelSubscription, bind.
  rewrite prisma_query_no_fault by assumption. rewrite Hs.
  unfold await_stripe. rewrite Hu. unfold new_Date.
  rewrite prisma_no_fault by assumption.
  unfold PaymentsService.subscription_update. rewrite update_ok; [reflexivity|].
  apply find_some in Hs as (Hin & Hk). apply andb_true_iff in Hk as (Hk & _).
  apply existsb_exists. eauto.
Qed.

(** X17. [cancelSubscription] of a subscription of the caller, when the
    processor accepts the call and storage the calls, local ids being
    unique.  It returns success; the row carries the processor's
    [cancel_at_period_end] and [cancel_at] and every other subscription row
    is untouched.  A cancellation at period end keeps the status, so the
    entitlement of every user is what it was; an immediate cancellation
    sets the status to CANCELED. *)
Theorem cancelSubscription_applies_the_processor_answer :
  forall stripeService userId subscriptionId immediate w s u,
    faults w = [] ->
    NoDup (map Subscription.id (subscriptions (db w))) ->
    PaymentsService.subscription_findFirst subscriptionId userId (db w) = Some s ->
    StripeService.cancelSubscription stripeService
      (Subscription.stripeSubscriptionId s) immediate = Ok u ->
    exists w' s',
      PaymentsService.cancelSubscription stripeService userId subscriptionId immediate w
      = (Ok (true, immediate), w')
      /\ PaymentsService.subscription_findFirst subscriptionId userId (db w') = Some s'
      /\ Subscription.cancelAtPeriodEnd s' = Stripe.cancel_at_period_end u
      /\ Subscription.cancelAt s' = epoch_or_null (Stripe.cancel_at u)
      /\ Subscription.status s' = (if immediate then CANCELED else Subscription.status s)
      /\ Subscription.currentPeriodEnd s' = Subscription.currentPeriodEnd s
      /\ (forall r, In r (subscriptions (db w)) -> Subscription.id r <> subscriptionId ->
                    In r (subscriptions (db w')))
      /\ (immediate = false ->
          forall anyUser,
            fst (PaymentsService.hasActiveSubscription anyUser w')
            = fst (PaymentsService.hasActiveSubscription anyUser w)).
Proof.
  intros stripeService userId subscriptionId immediate w s u Hf Hnd Hs Hu.
  rewrite (@cancelSubscription_run stripeService userId subscriptionId immediate w s u
             Hf Hs Hu).
  pose proof (find_some _ _ Hs) as (Hin & Hk).
  apply andb_true_iff in Hk as (Hid & Huid).
  eexists _, _. split; [reflexivity|]. simpl. split.
  - unfold PaymentsService.subscription_findFirst, updateMany. simpl.
    rewrite find_map_preserving.
    + unfold PaymentsService.subscription_findFirst in Hs. rewrite Hs. simpl.
      rewrite Hid. reflexivity.
    + intros r. destruct (Subscription.id r === subscriptionId) eqn:E;
        simpl; rewrite ?E; reflexivity.
  - simpl. do 4 (split; [reflexivity|]). split.
    + intros r Hr Hne. apply In_updateMany. exists r. split; [assumption|].
      now destruct (String.eqb_spec (Subscription.id r) subscriptionId).
    + intros -> anyUser. rewrite !hasActiveSubscription_no_fault by assumption. simpl.
      f_equal. unfold updateMany. rewrite existsb_map. apply existsb_ext_in.
      intros r Hr.
      destruct (String.eqb_spec (Subscription.id r) subscriptionId) as [E|]; [|reflexivity].
      assert (r = s) as ->.
      { eapply NoDup_map_eq; [exact Hnd|exact Hr|exact Hin|].
        apply String.eqb_eq in Hid. congruence. }
      reflexivity.
Qed.

Lemma cancelSubscription_applies_the_processor_answer_witness :
  let w := Scenario.world0 (Scenario.sub_1 false None 9000) [] 6000 in
  exists w' s',
    PaymentsService.cancelSubscription Scenario.stripe_ok "usr_1" "s_1" false w
    = (Ok (true, false), w')
    /\ PaymentsService.subscription_findFirst "s_1" "usr_1" (db w') = Some s'
    /\ Subscription.status s' = ACTIVE
    /\ fst (PaymentsService.hasActiveSubscription "usr_1" w') = Ok true.
Proof.
  intros w.
  destruct (@cancelSubscription_applies_the_processor_answer Scenario.stripe_ok
              "usr_1" "s_1" false w (Scenario.sub_1 false None 9000) Scenario.stripe_sub_1
              eq_refl)
    as (w' & s' & Hrun & Hfind & _ & _ & Hst & _ & _ & Hent);
    [repeat constructor; intros []|reflexivity|reflexivity|].
  exists w', s'. split; [exact Hrun|]. split; [exact Hfind|]. split; [exact Hst|].
  rewrite (Hent eq_refl "usr_1"%string). reflexivity.
Defined.

(** X18. [changeSubscription] of a subscription of the caller, on storage
    that accepts the calls.  A new price that is unknown locally or
    inactive is refused with "Invalid or inactive price" before the
    processor is called, and the world is exactly as it was; when the
    processor refuses the change, its error is thrown and the world is
    exactly as it was.  Otherwise the action returns success, the rows
    with that id point to the local id of the new price, every other row
    is untouched and no row is added or removed. *)
Theorem changeSubscription_validates_the_price :
  forall stripeService userId subscriptionId newPriceId w s,
    faults w = [] ->
    PaymentsService.subscription_findFirst subscriptionId userId (db w) = Some s ->
    ((WebhookService.price_findUnique newPriceId (db w) = None
      \/ (exists p, WebhookService.price_findUnique newPriceId (db w) = Some p
                    /\ Price.active p = false)) ->
     PaymentsService.changeSubscription stripeService userId subscriptionId newPriceId w
     = (Throw (BadRequestException "Invalid or inactive price"), w))
    /\ (forall p e,
          WebhookService.price_findUnique newPriceId (db w) = Some p ->
          Price.active p = true ->
          StripeService.updateSubscription stripeService
            (Subscription.stripeSubscriptionId s) newPriceId = Throw e ->
          PaymentsService.changeSubscription stripeService userId subscriptionId newPriceId w
          = (Throw e, w))
    /\ (forall p u,
          WebhookService.price_findUnique newPriceId (db w) = Some p ->
          Price.active p = true ->
          StripeService.updateSubscription stripeService
            (Subscription.stripeSubscriptionId s) newPriceId = Ok u ->
          exists w',
            PaymentsService.changeSubscription stripeService userId subscriptionId newPriceId w
            = (Ok true, w')
            /\ (forall r, In r (subscriptions (db w)) -> Subscription.id r = subscriptionId ->
                  In (Subscription.set_updatedAt (clock w)
                        (Subscription.set_priceId (Price.id p) r))
                     (subscriptions (db w')))
            /\ (forall r, In r (subscriptions (db w)) -> Subscription.id r <> subscriptionId ->
                  In r (subscriptions (db w')))
            /\ map Subscription.id (subscriptions (db w'))
               = map Subscription.id (subscriptions (db w))).
Proof.
  intros stripeService userId subscriptionId newPriceId w s Hf Hs.
  unfold PaymentsService.changeSubscription, bind.
  rewrite prisma_query_no_fault by assumption. rewrite Hs.
  rewrite prisma_query_no_fault by assumption.
  split; [|split].
  - intros [->|(p & -> & Ha)]; [reflexivity|]. now rewrite Ha.
  - intros p e -> -> He. simpl. unfold await_stripe. now rewrite He.
  - intros p u -> -> Hu. simpl. unfold await_stripe. rewrite Hu. unfold new_Date.
    rewrite prisma_no_fault by assumption.
    unfold PaymentsService.subscription_update. rewrite update_ok.
    2:{ apply find_some in Hs as (Hin & Hk). apply andb_true_iff in Hk as (Hk & _).
        apply existsb_exists. eauto. }
    eexists. split; [reflexivity|]. simpl. split; [|split].
    + intros r Hr Hid. apply In_updateMany. exists r. split; [assumption|].
      rewrite Hid, String.eqb_refl. reflexivity.
    + intros r Hr Hne. apply In_updateMany. exists r. split; [assumption|].
      now destruct (String.eqb_spec (Subscription.id r) subscriptionId).
    + now apply map_updateMany_key.
Qed.

Lemma changeSubscription_validates_the_price_witness :
  let w := Scenario.world0 (Scenario.sub_1 false None 9000) [] 6000 in
  PaymentsService.changeSubscription Scenario.stripe_ok "usr_1" "s_1" "price_404" w
  = (Throw (BadRequestException "Invalid or inactive price"), w)
  /\ exists w',
       PaymentsService.changeSubscription Scenario.stripe_ok "usr_1" "s_1" "price_1" w
       = (Ok true, w')
       /\ map Subscription.id (subscriptions (db w')) = ["s_1"%string].
Proof.
  intros w. split.
  - apply (proj1 (@changeSubscription_validates_the_price Scenario.stripe_ok
                    "usr_1" "s_1" "price_404" w _ eq_refl eq_refl)).
    left. reflexivity.
  - destruct (proj2 (proj2 (@changeSubscription_validates_the_price Scenario.stripe_ok
                              "usr_1" "s_1" "price_1" w _ eq_refl eq_refl))
                Scenario.monthly Scenario.stripe_sub_1 eq_refl eq_refl eq_refl)
      as (w' & Hrun & _ & _ & Hids).
    exists w'. split; [exact Hrun|exact Hids].
Defined.

(* ------------------------------------------------------------------ *)
(** ** Sessions *)

(** X19. Sessions of a user who is linked to a processor customer, on
    storage that accepts the reads: both actions leave the world exactly as
    it was and create no customer.  [createPortalSession] returns what the
    processor answers for the stored customer id and the return URL
    [appUrl + "/dashboard"].  [createCheckoutSession] refuses a price that
    is unknown locally or inactive with "Invalid or inactive price";
    otherwise it returns what the processor answers for the stored customer
    id, the URLs and trial days of the request, and the request's metadata
    followed by the caller's user id and the local id of the price.  A user
    id that is unknown makes both throw a NotFoundException. *)
Theorem sessions_of_a_linked_user :
  forall stripeService appUrl userId dto w,
    faults w = [] ->
    (forall user c,
        PaymentsService.user_findUnique userId (db w) = Some user ->
        User.stripeCustomerId user = Some c -> truthy_string c = true ->
        PaymentsService.createPortalSession stripeService appUrl userId w
        = (StripeService.createPortalSession stripeService c
             ((match appUrl with Some u => u | None => "undefined" end) ++ "/dashboard")%string,
           w)
        /\ (forall price,
              WebhookService.price_findUnique (dto_priceId dto) (db w) = Some price ->
              Price.active price = true ->
              PaymentsService.createCheckoutSession stripeService userId dto w
              = (StripeService.createCheckoutSession stripeService
                   (StripeService.Build_CheckoutParams
                      (dto_priceId dto) c (dto_successUrl dto) (dto_cancelUrl dto)
                      (dto_trialPeriodDays dto)
                      ((match dto_metadata dto with Some m => m | None => [] end)
                         ++ [("userId", userId); ("priceId", Price.id price)]%string)),
                 w))
        /\ ((WebhookService.price_findUnique (dto_priceId dto) (db w) = None
             \/ (exists price,
                    WebhookService.price_findUnique (dto_priceId dto) (db w) = Some price
                    /\ Price.active price = false)) ->
            PaymentsService.createCheckoutSession stripeService userId dto w
            = (Throw (BadRequestException "Invalid or inactive price"), w)))
    /\ (PaymentsService.user_findUnique userId (db w) = None ->
        PaymentsService.createPortalSession stripeService appUrl userId w
        = (Throw (NotFoundException "User or Stripe customer not found"), w)
        /\ PaymentsService.createCheckoutSession stripeService userId dto w
           = (Throw (NotFoundException "User not found"), w))
    /\ (forall user,
          PaymentsService.user_findUnique userId (db w) = Some user ->
          truthy_opt_string (User.stripeCustomerId user) = false ->
          PaymentsService.createPortalSession stripeService appUrl userId w
          = (Throw (NotFoundException "User or Stripe customer not found"), w)).
Proof.
  intros stripeService appUrl userId dto w Hf.
  unfold PaymentsService.createPortalSession, PaymentsService.createCheckoutSession, bind.
  rewrite !prisma_query_no_fault by assumption.
  split; [|split].
  - intros user c -> Hc Ht. rewrite Hc. simpl. rewrite Ht. simpl.
    split; [reflexivity|].
    rewrite !prisma_query_no_fault by assumption. split.
    + intros price -> ->. reflexivity.
    + intros [->|(price & -> & ->)]; reflexivity.
  - intros ->. split; reflexivity.
  - intros user -> ->. reflexivity.
Qed.

Lemma sessions_of_a_linked_user_witness :
  let w := Scenario.world0 (Scenario.sub_1 false None 9000) [] 6000 in
  let dto := Build_CreateCheckoutSessionDto "price_1" "https://app/ok" "https://app/no"
               (Some 14) (Some [("plan", "pro")]%string) in
  PaymentsService.createPortalSession Scenario.stripe_ok (Some "https://app"%string) "usr_1" w
  = (Ok (Stripe.Build_Session "bps_1" "https://billing.example/bps_1"), w)
  /\ PaymentsService.createCheckoutSession Scenario.stripe_ok "usr_1" dto w
     = (Ok (Stripe.Build_Session "cs_1" "https://checkout.example/cs_1"), w)
  /\ PaymentsService.createPortalSession Scenario.stripe_ok None "usr_2" w
     = (Throw (NotFoundException "User or Stripe customer not found"), w).
Proof.
  intros w dto.
  destruct (@sessions_of_a_linked_user Scenario.stripe_ok (Some "https://app"%string)
              "usr_1" dto w eq_refl) as (H1 & _).
  destruct (H1 Scenario.alice "cus_1"%string eq_refl eq_refl eq_refl) as (A & B & _).
  split; [exact A|]. split; [exact (B Scenario.monthly eq_refl eq_refl)|].
  destruct (@sessions_of_a_linked_user Scenario.stripe_ok None "usr_2" dto w eq_refl)
    as (_ & _ & H3).
  exact (H3 Scenario.bob eq_refl eq_refl).
Defined.

Lemma find_updateMany_id (userId : string) (f : User.t -> User.t) (rows : list User.t) :
  (forall u, User.id (f u) = User.id u) ->
  find (fun u => User.id u === userId)
       (updateMany (fun u => User.id u === userId) f rows)
  = option_map f (find (fun u => User.id u === userId) rows).
Proof.
  intros Hid. apply find_updateMany. intros r. now rewrite Hid.
Qed.

(** X20. The first checkout of a user who is not yet linked, when the
    processor creates the customer, no other user holds the new customer
    id, the price is known and active, and storage accepts the calls.  The
    action returns what the processor answers for the new customer id, and
    the database is the one it was with that user linked to the new
    customer: the user row carries the new id and the time of the call as
    update stamp, and every other user row is untouched. *)
Theorem first_checkout_links_the_user :
  forall stripeService userId dto w user customer price,
    faults w = [] ->
    PaymentsService.user_findUnique userId (db w) = Some user ->
    truthy_opt_string (User.stripeCustomerId user) = false ->
    (forall name,
        StripeService.createCustomer stripeService (User.email user) name = Ok customer) ->
    existsb (fun u => negb (User.id u === userId)
                      && opt_string_eqb (User.stripeCustomerId u) (Stripe.cus_id customer))
            (users (db w)) = false ->
    WebhookService.price_findUnique (dto_priceId dto) (db w) = Some price ->
    Price.active price = true ->
    exists w',
      PaymentsService.createCheckoutSession stripeService userId dto w
      = (StripeService.createCheckoutSession stripeService
           (StripeService.Build_CheckoutParams
              (dto_priceId dto) (Stripe.cus_id customer)
              (dto_successUrl dto) (dto_cancelUrl dto) (dto_trialPeriodDays dto)
              ((match dto_metadata dto with Some m => m | None => [] end)
                 ++ [("userId", userId); ("priceId", Price.id price)]%string)),
         w')
      /\ db w' = linked userId (Stripe.cus_id customer) (clock w) (db w)
      /\ PaymentsService.user_findUnique userId (db w')
         = Some (User.set_stripeCustomerId (Some (Stripe.cus_id customer)) (clock w) user)
      /\ (forall u, In u (users (db w)) -> User.id u <> userId -> In u (users (db w'))).
Proof.
  intros stripeService userId dto w user customer price Hf Hu Hun Hc Hfree Hp Ha.
  unfold PaymentsService.createCheckoutSession, bind.
  rewrite prisma_query_no_fault by assumption. rewrite Hu, Hun.
  unfold await_stripe. rewrite Hc. unfold prisma_at.
  rewrite prisma_no_fault by assumption.
  unfold PaymentsService.user_update_stripeCustomerId.
  assert (Hex : existsb (fun u => User.id u === userId) (users (db w)) = true).
  { rewrite <- is_some_find. unfold PaymentsService.user_findUnique in Hu. now rewrite Hu. }
  rewrite Hex, Hfree. cbn [negb fst snd ret].
  rewrite prisma_query_no_fault by exact Hf.
  unfold WebhookService.price_findUnique in *. cbn [db set_db prices set_users].
  rewrite Hp, Ha. cbn [negb].
  eexists. split; [reflexivity|]. cbn [db set_db]. split; [reflexivity|]. split.
  - unfold PaymentsService.user_findUnique, linked. cbn [users set_users].
    rewrite find_updateMany_id by reflexivity.
    unfold PaymentsService.user_findUnique in Hu. now rewrite Hu.
  - intros u Hin Hne. unfold linked. cbn [users set_users].
    apply In_updateMany. exists u. split; [assumption|].
    now destruct (String.eqb_spec (User.id u) userId).
Qed.

Lemma first_checkout_links_the_user_witness :
  let w := Scenario.world0 (Scenario.sub_1 false None 9000) [] 6000 in
  let dto := Build_CreateCheckoutSessionDto "price_1" "https://app/ok" "https://app/no"
               None None in
  exists w',
    PaymentsService.createCheckoutSession Scenario.stripe_ok "usr_2" dto w
    = (Ok (Stripe.Build_Session "cs_1" "https://checkout.example/cs_1"), w')
    /\ PaymentsService.user_findUnique "usr_2" (db w')
       = Some (User.set_stripeCustomerId (Some "cus_new"%string) 6000 Scenario.bob)
    /\ In Scenario.alice (users (db w')).
Proof.
  intros w dto.
  destruct (@first_checkout_links_the_user Scenario.stripe_ok "usr_2" dto w Scenario.bob
              (Stripe.Build_Customer "cus_new" (Some "bob@example.com"%string))
              Scenario.monthly eq_refl eq_refl eq_refl (fun _ => eq_refl)
              eq_refl eq_refl eq_refl)
    as (w' & Hrun & _ & Hfind & Hothers).
  exists w'. split; [exact Hrun|]. split; [exact Hfind|].
  apply Hothers; [left; reflexivity|discriminate].
Defined.

(* ------------------------------------------------------------------ *)
(** ** The plan of a user and the guard *)

Lemma newest_none (rows : list Subscription.t) :
  PaymentsServiceReads.newest rows = None <-> rows = [].
Proof.
  destruct rows as [|r rows]; simpl; [tauto|].
  split; [|discriminate].
  destruct (PaymentsServiceReads.newest rows) as [m|]; [|discriminate].
  destruct (_ <? _); discriminate.
Qed.

Lemma newest_spec (rows : list Subscription.t) (m : Subscription.t) :
  PaymentsServiceReads.newest rows = Some m ->
  In m rows
  /\ forall r, In r rows -> Subscription.createdAt r <= Subscription.createdAt m.
Proof.
  revert m. induction rows as [|r rows IH]; simpl; intros m H; [discriminate|].
  destruct (PaymentsServiceReads.newest rows) as [b|] eqn:E.
  - destruct (IH b eq_refl) as (Hin & Hmax).
    destruct (Z.ltb_spec (Subscription.createdAt r) (Subscription.createdAt b));
      inversion H; subst; split; auto.
    + intros x [<-|Hx]; [lia|auto].
    + intros x [<-|Hx]; [lia|]. specialize (Hmax x Hx). lia.
  - inversion H; subst. apply newest_none in E. subst rows. split; [now left|].
    intros x [<-|[]]. lia.
Qed.

Lemma filter_nil_existsb R (p : R -> bool) (rows : list R) :
  filter p rows = [] <-> existsb p rows = false.
Proof.
  induction rows as [|r rows IH]; simpl; [tauto|].
  destruct (p r); simpl; [split; discriminate|exact IH].
Qed.

(** X21. [getUserPlan] never writes, and it agrees with the status oracle
    on every world: it resolves to null exactly when
    [hasActiveSubscription] resolves to false, and where it resolves to a
    plan the oracle resolves to true.  The subscription of the plan is a
    row of the user that is ACTIVE or TRIALING with its period end after the
    current time, and no such row of the user is newer; exactly one of
    [isActive] and [isTrial] holds; the price and the product of the plan
    are the rows the subscription and the price point to. *)
Theorem getUserPlan_agrees_with_the_oracle :
  (forall userId w, db (snd (PaymentsServiceReads.getUserPlan userId w)) = db w)
  /\ (forall userId w,
        fst (PaymentsServiceReads.getUserPlan userId w) = Ok None
        <-> fst (PaymentsService.hasActiveSubscription userId w) = Ok false)
  /\ (forall userId w plan w',
        PaymentsServiceReads.getUserPlan userId w = (Ok (Some plan), w') ->
        fst (PaymentsService.hasActiveSubscription userId w) = Ok true
        /\ In (PaymentsServiceReads.subscription plan) (subscriptions (db w))
        /\ PaymentsService.entitled userId (clock w)
             (PaymentsServiceReads.subscription plan) = true
        /\ (forall s, In s (subscriptions (db w)) ->
              PaymentsService.entitled userId (clock w) s = true ->
              Subscription.createdAt s
              <= Subscription.createdAt (PaymentsServiceReads.subscription plan))
        /\ PaymentsServiceReads.isActive plan = negb (PaymentsServiceReads.isTrial plan)
        /\ (PaymentsServiceReads.isActive plan = true
            <-> Subscription.status (PaymentsServiceReads.subscription plan) = ACTIVE)
        /\ In (PaymentsServiceReads.price plan) (prices (db w))
        /\ Price.id (PaymentsServiceReads.price plan)
           = Subscription.priceId (PaymentsServiceReads.subscription plan)
        /\ In (PaymentsServiceReads.product plan) (products (db w))
        /\ Product.id (PaymentsServiceReads.product plan)
           = Price.productId (PaymentsServiceReads.price plan)
        /\ PaymentsServiceReads.currentPeriodEnd plan
           = Subscription.currentPeriodEnd (PaymentsServiceReads.subscription plan)
        /\ PaymentsServiceReads.cancelAtPeriodEnd plan
           = Subscription.cancelAtPeriodEnd (PaymentsServiceReads.subscription plan)).
Proof.
  split; [|split].
  - intros userId w. unfold PaymentsServiceReads.getUserPlan, bind, new_Date.
    match goal with
    | |- context [prisma ?op w] =>
        pose proof (prisma_db_cases op w) as Hc; destruct (prisma op w) as [[found|e] w1]
    end; simpl in *.
    + assert (Hdb : db w1 = db w).
      { destruct Hc as [->|Hc]; [reflexivity|]. rewrite Hc.
        unfold PaymentsServiceReads.subscription_findFirst_with_price.
        destruct (PaymentsServiceReads.newest _); [|reflexivity].
        destruct (find _ (prices (db w))); [|reflexivity].
        destruct (find _ (products (db w))); reflexivity. }
      destruct found as [[[s p] q]|]; exact Hdb.
    + destruct Hc as [->|Hc]; [reflexivity|]. rewrite Hc.
      unfold PaymentsServiceReads.subscription_findFirst_with_price.
      destruct (PaymentsServiceReads.newest _); [|reflexivity].
      destruct (find _ (prices (db w))); [|reflexivity].
      destruct (find _ (products (db w))); reflexivity.
  - intros userId w.
    unfold PaymentsServiceReads.getUserPlan, PaymentsService.hasActiveSubscription,
      bind, new_Date, prisma, query, ret.
    destruct (faults w) as [|[e|] fs]; simpl.
    2:{ split; discriminate. }
    all: rewrite is_some_find;
      unfold PaymentsServiceReads.subscription_findFirst_with_price;
      destruct (PaymentsServiceReads.newest
                  (filter (PaymentsService.entitled userId (clock w)) (subscriptions (db w))))
        as [s|] eqn:E.
    all: try (apply newest_none, filter_nil_existsb in E; rewrite E; simpl; tauto).
    all: assert (Hex : existsb (PaymentsService.entitled userId (clock w))
                         (subscriptions (db w)) = true)
      by (apply not_false_is_true; intros Hn; apply filter_nil_existsb in Hn;
          rewrite Hn in E; discriminate);
      rewrite Hex;
      destruct (find _ (prices (db w))) as [p|]; simpl; [|split; discriminate];
      destruct (find _ (products (db w))) as [q|]; simpl; split; discriminate.
  - intros userId w plan w'.
    unfold PaymentsServiceReads.getUserPlan, PaymentsService.hasActiveSubscription,
      bind, new_Date, prisma, query, ret.
    destruct (faults w) as [|[e|] fs]; simpl; try discriminate.
    all: rewrite is_some_find;
      unfold PaymentsServiceReads.subscription_findFirst_with_price;
      destruct (PaymentsServiceReads.newest
                  (filter (PaymentsService.entitled userId (clock w)) (subscriptions (db w))))
        as [s|] eqn:E; simpl; try discriminate;
      destruct (find (fun p => Price.id p === Subscription.priceId s) (prices (db w)))
        as [p|] eqn:Ep; simpl; try discriminate;
      destruct (find (fun q => Product.id q === Price.productId p) (products (db w)))
        as [q|] eqn:Eq; simpl; try discriminate;
      intros H; inversion H; subst; simpl;
      apply newest_spec in E as (Hin & Hmax);
      apply filter_In in Hin as (Hin & Hent);
      apply find_some in Ep as (Hp & Hpid); apply String.eqb_eq in Hpid;
      apply find_some in Eq as (Hq & Hqid); apply String.eqb_eq in Hqid;
      (split; [f_equal; apply existsb_exists; eauto|]);
      (split; [assumption|]); (split; [assumption|]);
      (split; [intros r Hr He; apply Hmax; apply filter_In; auto|]);
      (split; [pose proof (proj1 (entitled_spec userId (clock w) s) Hent)
                 as (_ & [Hs|Hs] & _); rewrite Hs; reflexivity|]);
      (split; [apply SubscriptionStatus_eqb_eq|]);
      repeat split; assumption.
Qed.

Lemma getUserPlan_agrees_with_the_oracle_witness :
  let w := Scenario.world0 (Scenario.sub_1 true (Some 9000) 9000) [] 6000 in
  exists plan,
    PaymentsServiceReads.getUserPlan "usr_1" w = (Ok (Some plan), w)
    /\ fst (PaymentsService.hasActiveSubscription "usr_1" w) = Ok true
    /\ PaymentsServiceReads.isActive plan = true
    /\ PaymentsServiceReads.isTrial plan = false
    /\ Price.id (PaymentsServiceReads.price plan) = "prc_1"%string
    /\ Product.id (PaymentsServiceReads.product plan) = "prd_1"%string.
Proof.
  intros w.
  destruct (PaymentsServiceReads.getUserPlan "usr_1" w) as [[[plan|]|e] w'] eqn:Hrun;
    try (vm_compute in Hrun; discriminate Hrun).
  assert (Hw : w' = w) by (vm_compute in Hrun; now inversion Hrun).
  subst w'.
  destruct (proj2 (proj2 getUserPlan_agrees_with_the_oracle) "usr_1"%string w plan w Hrun)
    as (Hor & _ & _ & _ & Hflags & _ & _ & Hpid & _ & Hqid & _).
  exists plan. split; [reflexivity|]. split; [exact Hor|].
  vm_compute in Hrun. inversion Hrun; subst plan. repeat split.
Defined.

(** X22. [SubscriptionGuard.canActivate] never writes and never returns
    false: it returns true or throws.  A request without a user is refused
    with "User not authenticated" without any call to storage.  For an
    authenticated user, on storage that accepts the read, the guard returns
    true exactly when some subscription of the user is ACTIVE or TRIALING
    with its period end after the current time, and otherwise throws the
    ForbiddenException "Active subscription required to access this
    feature"; an exception of the status oracle passes through. *)
Theorem canActivate_lets_in_the_entitled :
  (forall w,
      SubscriptionGuard.canActivate None w
      = (SubscriptionGuard.ForbiddenException "User not authenticated", w))
  /\ (forall user w, db (snd (SubscriptionGuard.canActivate user w)) = db w)
  /\ (forall user w b w',
        SubscriptionGuard.canActivate user w = (SubscriptionGuard.Returns b, w') -> b = true)
  /\ (forall user w,
        faults w = [] ->
        (SubscriptionGuard.canActivate (Some user) w = (SubscriptionGuard.Returns true, w)
         <-> exists s, In s (subscriptions (db w))
                       /\ Subscription.userId s = User.id user
                       /\ (Subscription.status s = ACTIVE \/ Subscription.status s = TRIALING)
                       /\ clock w < Subscription.currentPeriodEnd s)
        /\ (SubscriptionGuard.canActivate (Some user) w = (SubscriptionGuard.Returns true, w)
            \/ SubscriptionGuard.canActivate (Some user) w
               = (SubscriptionGuard.ForbiddenException
                    "Active subscription required to access this feature", w)))
  /\ (forall user w e w',
        PaymentsService.hasActiveSubscription (User.id user) w = (Throw e, w') ->
        SubscriptionGuard.canActivate (Some user) w = (SubscriptionGuard.Rejects e, w')).
Proof.
  split; [|split; [|split; [|split]]].
  - reflexivity.
  - intros [user|] w; [|reflexivity]. unfold SubscriptionGuard.canActivate.
    destruct (hasActiveSubscription_cases (User.id user) w) as [(e & w1 & H)|(w1 & H)].
    + rewrite H.
      unfold PaymentsService.hasActiveSubscription, bind, new_Date in H.
      match type of H with
      | context [prisma ?op w] =>
          pose proof (@keeps_prisma _ (fun d => d) _ op (fun d => eq_refl) w) as Hk;
          destruct (prisma op w) as [[a|e0] w2]
      end; simpl in *; inversion H; subst; assumption.
    + rewrite H.
      unfold PaymentsService.hasActiveSubscription, bind, new_Date in H.
      match type of H with
      | context [prisma ?op w] =>
          pose proof (@keeps_prisma _ (fun d => d) _ op (fun d => eq_refl) w) as Hk;
          destruct (prisma op w) as [[a|e0] w2]
      end; simpl in *; inversion H; subst.
      destruct (negb _); assumption.
  - intros [user|] w b w'; unfold SubscriptionGuard.canActivate; [|discriminate].
    destruct (PaymentsService.hasActiveSubscription (User.id user) w) as [[[|]|e] w1];
      simpl; intros H; inversion H; reflexivity.
  - intros user w Hf. unfold SubscriptionGuard.canActivate.
    rewrite hasActiveSubscription_no_fault by assumption.
    destruct (existsb _ (subscriptions (db w))) eqn:E; simpl.
    + split; [|now left]. split; [|reflexivity]. intros _.
      apply existsb_exists in E as (s & Hin & He). exists s. split; [assumption|].
      now apply entitled_spec.
    + split; [|now right]. split; [discriminate|].
      intros (s & Hin & He). apply entitled_spec in He.
      assert (existsb (PaymentsService.entitled (User.id user) (clock w))
                (subscriptions (db w)) = true); [|congruence].
      apply existsb_exists. eauto.
  - intros user w e w' H. unfold SubscriptionGuard.canActivate. now rewrite H.
Qed.

Lemma canActivate_lets_in_the_entitled_witness :
  let w := Scenario.world0 (Scenario.sub_1 true (Some 9000) 9000) [] 6000 in
  SubscriptionGuard.canActivate (Some Scenario.alice) w = (SubscriptionGuard.Returns true, w)
  /\ SubscriptionGuard.canActivate (Some Scenario.bob) w
     = (SubscriptionGuard.ForbiddenException
          "Active subscription required to access this feature", w)
  /\ SubscriptionGuard.canActivate (Some Scenario.alice)
       (Scenario.world0 (Scenario.sub_1 false None 9000) [Some P1001] 6000)
     = (SubscriptionGuard.Rejects (PrismaClientKnownRequestError P1001),
        Scenario.world0 (Scenario.sub_1 false None 9000) [] 6000).
Proof.
  intros w. destruct canActivate_lets_in_the_entitled as (_ & _ & _ & H4 & H5).
  split; [|split].
  - apply (proj1 (H4 Scenario.alice w eq_refl)).
    eexists. split; [left; reflexivity|]. simpl. repeat split; auto.
  - destruct (proj2 (H4 Scenario.bob w eq_refl)) as [H|H]; [|exact H].
    vm_compute in H. discriminate H.
  - apply H5. reflexivity.
Defined.

(* ------------------------------------------------------------------ *)
(** ** The catalog sync *)

Lemma keeps_for_each X (g : Db -> X) A (f : A -> M unit) (xs : list A) :
  (forall x, keeps g (f x)) -> keeps g (StripeServiceSync.for_each xs f).
Proof.
  intros Hf. induction xs as [|x xs IH]; simpl; [apply keeps_ret|].
  apply keeps_bind; [apply Hf|intros _; exact IH].
Qed.

Lemma preserves_for_each (P : Db -> Prop) A (f : A -> M unit) (xs : list A) :
  (forall x, preserves P (f x)) -> preserves P (StripeServiceSync.for_each xs f).
Proof.
  intros Hf. induction xs as [|x xs IH]; simpl; [apply preserves_ret|].
  apply preserves_bind; [apply Hf|intros _; exact IH].
Qed.

Lemma upsertProduct_is_handleProductUpdated (stripeProduct : Stripe.Product) :
  StripeServiceSync.upsertProduct stripeProduct
  = WebhookService.handleProductUpdated stripeProduct.
Proof. reflexivity. Qed.

Ltac open_sync :=
  unfold StripeServiceSync.syncProducts, StripeServiceSync.upsertProduct,
    StripeServiceSync.upsertPrice.

Lemma syncProducts_unique (stripe : StripeServiceSync.Listings) :
  preserves unique_external_ids (StripeServiceSync.syncProducts stripe).
Proof.
  open_sync. invariant.
  apply preserves_for_each; intros p. invariant.
  - open_table_op; unique_branch.
  - apply preserves_for_each; intros q. invariant. open_table_op; unique_branch.
Qed.

Lemma syncProducts_retains (d0 : Db) (stripe : StripeServiceSync.Listings) :
  preserves (retains d0) (StripeServiceSync.syncProducts stripe).
Proof.
  open_sync. invariant.
  apply preserves_for_each; intros p. invariant.
  - open_table_op; retains_branch.
  - apply preserves_for_each; intros q. invariant. open_table_op; retains_branch.
Qed.

Lemma syncProducts_fk (stripe : StripeServiceSync.Listings) :
  preserves fk_ok (StripeServiceSync.syncProducts stripe).
Proof.
  open_sync. invariant.
  apply preserves_for_each; intros p. invariant.
  - open_table_op; fk_branch.
  - apply preserves_for_each; intros q. invariant. open_table_op; fk_branch.
Qed.

Lemma syncProducts_catalog_only (stripe : StripeServiceSync.Listings) :
  keeps (fun d => (users d, subscriptions d, paymentMethods d, webhookEvents d))
        (StripeServiceSync.syncProducts stripe).
Proof.
  open_sync. frame.
  apply keeps_for_each; intros p. frame.
  - table_op.
  - apply keeps_for_each; intros q. frame; table_op.
Qed.

(** X23. The catalog sync writes to the product and price tables only,
    and only by upsert: whatever the processor lists and whatever storage
    does, after [syncProducts] the tables of users, subscriptions, payment
    methods and ledger entries are what they were; no product or price row
    has been removed or has changed its local id; external ids that had at
    most one row each still have; and subscription rows that pointed to
    existing users and prices still do. *)
Theorem syncProducts_only_upserts_the_catalog :
  forall stripe w,
    let w' := snd (StripeServiceSync.syncProducts stripe w) in
    users (db w') = users (db w)
    /\ subscriptions (db w') = subscriptions (db w)
    /\ paymentMethods (db w') = paymentMethods (db w)
    /\ webhookEvents (db w') = webhookEvents (db w)
    /\ retains (db w) (db w')
    /\ (unique_external_ids (db w) -> unique_external_ids (db w'))
    /\ (fk_ok (db w) -> fk_ok (db w')).
Proof.
  intros stripe w w'. subst w'.
  pose proof (syncProducts_catalog_only stripe w) as Hk. simpl in Hk.
  injection Hk as H1 H2 H3 H4.
  pose proof (@syncProducts_retains (db w) stripe w (retains_refl _)) as Hr.
  pose proof (@syncProducts_unique stripe w) as Hu.
  pose proof (@syncProducts_fk stripe w) as Hfk.
  do 4 (split; [assumption|]). split; [exact Hr|]. split; [exact Hu|exact Hfk].
Qed.

Lemma syncProducts_only_upserts_the_catalog_witness :
  let w := Scenario.world0 (Scenario.sub_1 false None 9000) [] 6000 in
  let stripe :=
    StripeServiceSync.Build_Listings
      (Ok [Stripe.Build_Product "prod_1" "Pro" None [] true;
           Stripe.Build_Product "prod_2" "Team" None [] true])
      (fun productId =>
         Ok [Stripe.Build_Price "price_2" productId "one_time" None None "usd"
               (Some 500) [] true]) in
  subscriptions (db (snd (StripeServiceSync.syncProducts stripe w))) = subscriptions (db w)
  /\ unique_external_ids (db (snd (StripeServiceSync.syncProducts stripe w)))
  /\ fk_ok (db (snd (StripeServiceSync.syncProducts stripe w))).
Proof.
  intros w stripe.
  destruct (syncProducts_only_upserts_the_catalog stripe w)
    as (_ & H2 & _ & _ & _ & Hu & Hfk).
  split; [exact H2|]. split.
  - apply Hu. repeat split; simpl; repeat constructor; simpl; intuition.
  - apply Hfk. intros s [<-|[]]. split.
    + exists Scenario.alice. split; [left|]; reflexivity.
    + exists Scenario.monthly. split; [left|]; reflexivity.
Defined.

Lemma bind_ok_inv A B (m : M A) (k : A -> M B) (w w' : World) (b : B) :
  bind m k w = (Ok b, w') ->
  exists a w1, m w = (Ok a, w1) /\ k a w1 = (Ok b, w').
Proof.
  unfold bind. destruct (m w) as [[a|e] w1]; intros H; [eauto|discriminate].
Qed.

(** What a loop that resolves has established for each of its items,
    under an invariant [I] of the loop. *)
Lemma for_each_post A (I : Db -> Prop) (Post : A -> Db -> Prop) (f : A -> M unit) :
  (forall y, preserves I (f y)) ->
  (forall x y, preserves (Post x) (f y)) ->
  (forall x w w1, I (db w) -> f x w = (Ok tt, w1) -> Post x (db w1)) ->
  forall xs w w',
    I (db w) -> StripeServiceSync.for_each xs f w = (Ok tt, w') ->
    forall x, In x xs -> Post x (db w').
Proof.
  intros HI HP Hpost xs. induction xs as [|y xs IH]; intros w w' Hw Hrun x Hin;
    [contradiction|].
  simpl in Hrun. apply bind_ok_inv in Hrun as ([] & w1 & Hy & Hrest).
  assert (Hw1 : I (db w1)).
  { pose proof (HI y w Hw) as H. now rewrite Hy in H. }
  destruct Hin as [<-|Hin].
  - pose proof (@preserves_for_each (Post y) A f xs (HP y) w1 (Hpost y w w1 Hw Hy)) as H.
    now rewrite Hrest in H.
  - apply (IH w1 w' Hw1 Hrest x Hin).
Qed.

Lemma find_present_map R (key : R -> bool) (g : R -> R) (rows : list R) :
  (forall r, key (g r) = key r) -> find key rows <> None -> find key (map g rows) <> None.
Proof.
  intros Hk H. rewrite find_map_preserving by assumption.
  destruct (find key rows); [discriminate|contradiction].
Qed.

Lemma find_present_app R (key : R -> bool) (rows extra : list R) :
  find key rows <> None -> find key (rows ++ extra) <> None.
Proof.
  intros H. induction rows as [|r rows IH]; simpl in *; [contradiction|].
  destruct (key r); [discriminate|auto].
Qed.

Ltac present_key :=
  match goal with
  | |- context [if ?c then _ else _] => destruct c; reflexivity
  end.

(** Closes one branch of a table operation under [product_present] or
    [price_present]. *)
Ltac present_branch :=
  match goal with
  | H : product_present _ _ |- _ =>
      unfold product_present, WebhookService.product_findUnique, updateMany in *; simpl;
      first [ assumption
            | apply find_present_map; [intros r0; cbv beta; present_key|assumption]
            | apply find_present_app; assumption ]
  | H : price_present _ _ |- _ =>
      unfold price_present, WebhookService.price_findUnique, updateMany in *; simpl;
      first [ assumption
            | apply find_present_map; [intros r0; cbv beta; present_key|assumption]
            | apply find_present_app; assumption ]
  end.

Lemma upsertProduct_keeps_product (id : string) (p : Stripe.Product) :
  preserves (product_present id) (StripeServiceSync.upsertProduct p).
Proof. open_sync. invariant. open_table_op; present_branch. Qed.

Lemma upsertProduct_keeps_price (id : string) (p : Stripe.Product) :
  preserves (price_present id) (StripeServiceSync.upsertProduct p).
Proof. open_sync. invariant. open_table_op; present_branch. Qed.

Lemma upsertPrice_keeps_product (id : string) (q : Stripe.Price) (productStripeId : string) :
  preserves (product_present id) (StripeServiceSync.upsertPrice q productStripeId).
Proof. open_sync. invariant. open_table_op; present_branch. Qed.

Lemma upsertPrice_keeps_price (id : string) (q : Stripe.Price) (productStripeId : string) :
  preserves (price_present id) (StripeServiceSync.upsertPrice q productStripeId).
Proof. open_sync. invariant. open_table_op; present_branch. Qed.

Lemma sync_body_keeps_product (id : string) (stripe : StripeServiceSync.Listings)
    (p : Stripe.Product) :
  preserves (product_present id)
    (StripeServiceSync.upsertProduct p ;;;
       prices <- await_stripe (StripeServiceSync.prices_list stripe (Stripe.prod_id p)) ;;
       StripeServiceSync.for_each prices
         (fun q => StripeServiceSync.upsertPrice q (Stripe.prod_id p))).
Proof.
  apply preserves_bind; [apply upsertProduct_keeps_product|intros _].
  apply preserves_bind; [apply preserves_await|intros prices].
  apply preserves_for_each. intros q. apply upsertPrice_keeps_product.
Qed.

Lemma sync_body_keeps_price (id : string) (stripe : StripeServiceSync.Listings)
    (p : Stripe.Product) :
  preserves (price_present id)
    (StripeServiceSync.upsertProduct p ;;;
       prices <- await_stripe (StripeServiceSync.prices_list stripe (Stripe.prod_id p)) ;;
       StripeServiceSync.for_each prices
         (fun q => StripeServiceSync.upsertPrice q (Stripe.prod_id p))).
Proof.
  apply preserves_bind; [apply upsertProduct_keeps_price|intros _].
  apply preserves_bind; [apply preserves_await|intros prices].
  apply preserves_for_each. intros q. apply upsertPrice_keeps_price.
Qed.

Lemma upsertProduct_establishes (p : Stripe.Product) (w w1 : World) :
  StripeServiceSync.upsertProduct p w = (Ok tt, w1) ->
  product_present (Stripe.prod_id p) (db w1).
Proof.
  unfold StripeServiceSync.upsertProduct, bind, new_Date, prisma_at. intros H.
  apply prisma_ok_inv in H as (H & _).
  destruct (product_upsert_rows p (clock w) (clock w) (db w)) as (_ & Hrows & _).
  rewrite H in Hrows. simpl in Hrows.
  unfold product_present, WebhookService.product_findUnique. rewrite Hrows.
  rewrite find_upsert_rows; [discriminate|apply String.eqb_refl|reflexivity].
Qed.

Lemma upsertPrice_establishes (q : Stripe.Price) (productStripeId : string) (w w1 : World) :
  product_present productStripeId (db w) ->
  StripeServiceSync.upsertPrice q productStripeId w = (Ok tt, w1) ->
  price_present (Stripe.pr_id q) (db w1).
Proof.
  unfold StripeServiceSync.upsertPrice. intros Hp H.
  apply bind_ok_inv in H as (found & w0 & Hq & H).
  apply prisma_ok_inv in Hq as (Hq & _). unfold query in Hq.
  injection Hq as Hfound Hdb0.
  destruct found as [product|]; [|exfalso; exact (Hp Hfound)].
  unfold bind, new_Date, prisma_at in H. apply prisma_ok_inv in H as (H & _).
  unfold price_present, WebhookService.price_findUnique.
  unfold WebhookService.price_upsert in H. cbv zeta in H.
  destruct (existsb _ (prices (db w0))) eqn:E; injection H as H; rewrite <- H; simpl.
  - rewrite find_updateMany by reflexivity. rewrite <- is_some_find in E.
    destruct (find _ (prices (db w0))); [discriminate|discriminate E].
  - erewrite find_app_new; [discriminate|exact E|apply String.eqb_refl].
Qed.

Section Resolving.

Lemma resolves_ret A (a : A) : resolves (ret a).
Proof. intros w Hf. exists a, w. split; [reflexivity|exact Hf]. Qed.

Lemma resolves_logger (l : LogLevel) (msg : string) : resolves (logger l msg).
Proof. intros w Hf. eexists _, _. split; [reflexivity|exact Hf]. Qed.

Lemma resolves_new_Date : resolves new_Date.
Proof. intros w Hf. eexists _, _. split; [reflexivity|exact Hf]. Qed.

Lemma resolves_bind A B (m : M A) (k : A -> M B) :
  resolves m -> (forall a, resolves (k a)) -> resolves (bind m k).
Proof.
  intros Hm Hk w Hf. destruct (Hm w Hf) as (a & w1 & H1 & Hf1).
  destruct (Hk a w1 Hf1) as (b & w2 & H2 & Hf2).
  exists b, w2. unfold bind. rewrite H1. auto.
Qed.

Lemma resolves_prisma A (op : Db -> Result A * Db) :
  (forall d, exists a, fst (op d) = Ok a) -> resolves (prisma op).
Proof.
  intros Hop w Hf. rewrite prisma_no_fault by assumption.
  destruct (Hop (db w)) as (a & Ha). rewrite Ha. eexists _, _. split; [reflexivity|exact Hf].
Qed.

Lemma resolves_prisma_at A (op : DateTime -> Db -> Result A * Db) :
  (forall now d, exists a, fst (op now d) = Ok a) -> resolves (prisma_at op).
Proof. intros Hop w. unfold prisma_at. now apply resolves_prisma. Qed.

Lemma resolves_await_bind A B (r : Result A) (a : A) (k : A -> M B) :
  r = Ok a -> resolves (k a) -> resolves (bind (await_stripe r) k).
Proof. intros -> Hk w Hf. unfold bind, await_stripe. apply Hk. exact Hf. Qed.

Lemma resolves_for_each A (f : A -> M unit) (xs : list A) :
  (forall x, In x xs -> resolves (f x)) -> resolves (StripeServiceSync.for_each xs f).
Proof.
  induction xs as [|x xs IH]; intros Hf; simpl; [apply resolves_ret|].
  apply resolves_bind; [apply Hf; now left|].
  intros _. apply IH. intros y Hy. apply Hf. now right.
Qed.

End Resolving.

Lemma upsertProduct_resolves (p : Stripe.Product) :
  resolves (StripeServiceSync.upsertProduct p).
Proof.
  unfold StripeServiceSync.upsertProduct.
  apply resolves_bind; [apply resolves_new_Date|]. intros t.
  apply resolves_prisma_at. intros now d. exists tt.
  apply (proj1 (product_upsert_rows p t now d)).
Qed.

Lemma upsertPrice_resolves (q : Stripe.Price) (productStripeId : string) :
  resolves (StripeServiceSync.upsertPrice q productStripeId).
Proof.
  unfold StripeServiceSync.upsertPrice.
  apply resolves_bind; [apply resolves_prisma; intros d; eexists; reflexivity|].
  intros [product|]; [|apply resolves_logger].
  apply resolves_bind; [apply resolves_new_Date|]. intros t.
  apply resolves_prisma_at. intros now d. exists tt.
  unfold WebhookService.price_upsert. cbv zeta.
  destruct (existsb _ (prices d)); reflexivity.
Qed.

(** X24. The catalog sync covers what the processor lists.  When the
    listing of products is rejected the sync throws that error having
    written nothing.  When the sync resolves, every listed product has a
    row under its external id and every price listed for a listed product
    has a row under its external id.  And the sync does resolve whenever
    storage accepts every call and the processor answers every listing. *)
Theorem syncProducts_covers_the_listing :
  (forall stripe w e,
      StripeServiceSync.products_list stripe = Throw e ->
      StripeServiceSync.syncProducts stripe w
      = (Throw e,
         set_log (log w ++ [(LOG, "Starting product sync from Stripe..."%string)]) w))
  /\ (forall stripe w w' products,
        StripeServiceSync.products_list stripe = Ok products ->
        StripeServiceSync.syncProducts stripe w = (Ok tt, w') ->
        (forall p, In p products -> product_present (Stripe.prod_id p) (db w'))
        /\ (forall p prices q,
              In p products ->
              StripeServiceSync.prices_list stripe (Stripe.prod_id p) = Ok prices ->
              In q prices ->
              price_present (Stripe.pr_id q) (db w')))
  /\ (forall stripe w products,
        faults w = [] ->
        StripeServiceSync.products_list stripe = Ok products ->
        (forall p, In p products ->
           exists prices, StripeServiceSync.prices_list stripe (Stripe.prod_id p) = Ok prices) ->
        exists w', StripeServiceSync.syncProducts stripe w = (Ok tt, w')).
Proof.
  split; [|split].
  - intros stripe w e He. unfold StripeServiceSync.syncProducts, bind, await_stripe.
    simpl. now rewrite He.
  - intros stripe w w' products Hl Hrun.
    unfold StripeServiceSync.syncProducts in Hrun.
    apply bind_ok_inv in Hrun as ([] & w0 & _ & Hrun).
    apply bind_ok_inv in Hrun as (ps & w0' & Hps & Hrun).
    unfold await_stripe in Hps. rewrite Hl in Hps. injection Hps as <- <-.
    apply bind_ok_inv in Hrun as ([] & w1 & Hloop & Hlog).
    unfold logger in Hlog. injection Hlog as <-. simpl. split.
    + intros p Hin.
      refine (@for_each_post _ (fun _ => True) (fun p d => product_present (Stripe.prod_id p) d)
                _ _ _ _ products w0 w1 I Hloop p Hin).
      * intros y w2 _. exact I.
      * intros x y. apply sync_body_keeps_product.
      * intros x w2 w3 _ Hbody.
        apply bind_ok_inv in Hbody as ([] & wa & Hup & Hrest).
        apply upsertProduct_establishes in Hup.
        apply bind_ok_inv in Hrest as (prs & wa' & Hawait & Hinner).
        unfold await_stripe in Hawait.
        assert (wa' = wa) as -> by (destruct (StripeServiceSync.prices_list _ _); congruence).
        pose proof (@preserves_for_each (product_present (Stripe.prod_id x)) _
                      (fun q => StripeServiceSync.upsertPrice q (Stripe.prod_id x)) prs
                      (fun q => @upsertPrice_keeps_product _ q _) wa Hup) as Hk.
        now rewrite Hinner in Hk.
    + intros p prices q Hin Hprices Hq.
      refine (@for_each_post _ (fun _ => True)
                (fun p d =>
                   forall prices q,
                     StripeServiceSync.prices_list stripe (Stripe.prod_id p) = Ok prices ->
                     In q prices -> price_present (Stripe.pr_id q) d)
                _ _ _ _ products w0 w1 I Hloop p Hin prices q Hprices Hq).
      * intros y w2 _. exact I.
      * intros x y w2 H prs q' Hl' Hq'.
        apply (@sync_body_keeps_price (Stripe.pr_id q') stripe y w2 (H prs q' Hl' Hq')).
      * intros x w2 w3 _ Hbody prs q' Hl' Hq'.
        apply bind_ok_inv in Hbody as ([] & wa & Hup & Hrest).
        apply upsertProduct_establishes in Hup.
        apply bind_ok_inv in Hrest as (prs' & wa' & Hawait & Hinner).
        unfold await_stripe in Hawait. rewrite Hl' in Hawait. injection Hawait as <- <-.
        refine (@for_each_post _ (product_present (Stripe.prod_id x))
                  (fun q d => price_present (Stripe.pr_id q) d)
                  _ _ _ _ prs wa w3 Hup Hinner q' Hq').
        -- intros y. apply upsertPrice_keeps_product.
        -- intros a y. apply upsertPrice_keeps_price.
        -- intros a w4 w5 Hp Ha. now apply (upsertPrice_establishes a _ Hp Ha).
  - intros stripe w products Hf Hl Hprices.
    assert (Hres : resolves (StripeServiceSync.syncProducts stripe)).
    { unfold StripeServiceSync.syncProducts.
      apply resolves_bind; [apply resolves_logger|]. intros _.
      apply (@resolves_await_bind _ _ _ products _ Hl).
      apply resolves_bind; [|intros _; apply resolves_logger].
      apply resolves_for_each. intros p Hp.
      apply resolves_bind; [apply upsertProduct_resolves|intros _].
      destruct (Hprices p Hp) as (prs & Hprs).
      apply (@resolves_await_bind _ _ _ prs _ Hprs).
      apply resolves_for_each. intros q _. apply upsertPrice_resolves. }
    destruct (Hres w Hf) as ([] & w' & Hrun & _). eauto.
Qed.

Lemma syncProducts_covers_the_listing_witness :
  let w := Scenario.world0 (Scenario.sub_1 false None 9000) [] 6000 in
  let team := Stripe.Build_Product "prod_2" "Team" None [] true in
  let seat := Stripe.Build_Price "price_2" "prod_2" "one_time" None None "usd"
                (Some 500) [] true in
  let stripe := StripeServiceSync.Build_Listings (Ok [team]) (fun _ => Ok [seat]) in
  exists w',
    StripeServiceSync.syncProducts stripe w = (Ok tt, w')
    /\ product_present "prod_2" (db w')
    /\ price_present "price_2" (db w').
Proof.
  intros w team seat stripe.
  destruct syncProducts_covers_the_listing as (_ & Hcover & Hresolves).
  destruct (Hresolves stripe w [team] eq_refl eq_refl) as (w' & Hrun).
  { intros p _. exists [seat]. reflexivity. }
  exists w'. split; [exact Hrun|].
  destruct (Hcover stripe w w' [team] eq_refl Hrun) as (Hp & Hq). split.
  - apply (Hp team). left. reflexivity.
  - apply (Hq team [seat] seat); [left; reflexivity|reflexivity|left; reflexivity].
Defined.
